(** * Points-of-interest import: the Django model and the [import_poi] command

    A shallow embedding of [poi/models.py] and
    [poi/management/commands/import_poi.py], and the properties of the
    import pipeline proved over it.

    Conventions of the embedding.
    - A Python [str] is a [string]; its characters are the code points
      below 256 (Latin-1).  [str.strip], [str.split], [str.lower] and
      [os.path.splitext] are written out below as CPython defines them on
      such strings.
    - A Python exception is a value of [exn]; code that may raise returns a
      [result], and code that also touches the database or writes to
      standard output runs in the monad [M] over a [world].
    - A Python [float] is a binary64 [float] of the kernel, so [+] and [/]
      are the interpreter's own operations.
    - What the command reaches outside the repository (the files it opens and
      the readers of [csv], [json] and [xml.etree], the database behind the
      Django model, [repr]) is a field of an [environment].
    - Django's part in [save] and in [@transaction.atomic] is written out as
      far as the command depends on it: an exception that leaves
      [Model.save] inside an atomic block marks the transaction for rollback,
      a marked transaction refuses every query, and a block that ends marked
      is rolled back even when its function returns. *)

From Stdlib Require Import Bool Arith ZArith NArith List Lia.
From Stdlib Require Import Ascii String.
From Stdlib Require Import DecimalString.
From Stdlib Require Import PrimFloat SpecFloat FloatOps.
Import ListNotations.

Local Open Scope list_scope.
Local Open Scope string_scope.

(* ================================================================== *)
(** * Python strings *)

Module Str.

(** [not s] for a string: true when it is empty. *)
Definition is_empty (s : string) : bool :=
  match s with
  | EmptyString => true
  | String _ _ => false
  end.

(** [str.isspace] on one Latin-1 code point: U+0009..U+000D,
    U+001C..U+0020, U+0085 and U+00A0. *)
Definition isspace (c : ascii) : bool :=
  let n := nat_of_ascii c in
  (((9 <=? n) && (n <=? 13)) || ((28 <=? n) && (n <=? 32))
   || (n =? 133) || (n =? 160))%nat.

(** [c in chars]. *)
Fixpoint mem (c : ascii) (chars : string) : bool :=
  match chars with
  | EmptyString => false
  | String d rest => Ascii.eqb c d || mem c rest
  end.

(** Drop the leading characters that satisfy [p]. *)
Fixpoint lstrip_by (p : ascii -> bool) (s : string) : string :=
  match s with
  | EmptyString => EmptyString
  | String c rest => if p c then lstrip_by p rest else s
  end.

(** Drop the trailing characters that satisfy [p]. *)
Fixpoint rstrip_by (p : ascii -> bool) (s : string) : string :=
  match s with
  | EmptyString => EmptyString
  | String c rest =>
      let rest' := rstrip_by p rest in
      if is_empty rest' && p c then EmptyString else String c rest'
  end.

Definition strip_by (p : ascii -> bool) (s : string) : string :=
  rstrip_by p (lstrip_by p s).

(** [s.strip()]: leading and trailing whitespace removed. *)
Definition strip (s : string) : string := strip_by isspace s.

(** [s.strip(chars)]: every leading and every trailing character that
    occurs in [chars] removed. *)
Definition strip_chars (s chars : string) : string :=
  strip_by (fun c => mem c chars) s.

(** [s.split(sep)] for a one-character separator: the pieces between the
    separators, empty pieces kept; [''.split(',')] is [['']]. *)
Fixpoint split (sep : ascii) (s : string) : list string :=
  match s with
  | EmptyString => [EmptyString]
  | String c rest =>
      if Ascii.eqb c sep then EmptyString :: split sep rest
      else match split sep rest with
           | piece :: pieces => String c piece :: pieces
           | [] => [String c EmptyString]
           end
  end.

(** [str.lower] on one Latin-1 code point: A..Z and the accented capitals
    U+00C0..U+00DE (but for the multiplication sign U+00D7) move up by 32. *)
Definition lower_char (c : ascii) : ascii :=
  let n := nat_of_ascii c in
  if (((65 <=? n) && (n <=? 90))
      || ((192 <=? n) && (n <=? 222) && negb (n =? 215)))%nat
  then ascii_of_nat (n + 32) else c.

Fixpoint lower (s : string) : string :=
  match s with
  | EmptyString => EmptyString
  | String c rest => String (lower_char c) (lower rest)
  end.

(** [s.rfind(c)]: the index of the last occurrence of [c], or [-1]. *)
Fixpoint rfind_from (c : ascii) (s : string) (i : Z) (found : Z) : Z :=
  match s with
  | EmptyString => found
  | String d rest =>
      rfind_from c rest (i + 1) (if Ascii.eqb d c then i else found)
  end.

Definition rfind (c : ascii) (s : string) : Z := rfind_from c s 0 (-1).

(** The slices [s[:n]] and [s[n:]]. *)
Fixpoint take (n : nat) (s : string) : string :=
  match n, s with
  | S n', String c rest => String c (take n' rest)
  | _, _ => EmptyString
  end.

Fixpoint drop (n : nat) (s : string) : string :=
  match n, s with
  | S n', String _ rest => drop n' rest
  | _, _ => s
  end.

(** [s] occurs in [t] as a contiguous run of characters. *)
Definition substring_of (s t : string) : Prop :=
  exists before after, t = before ++ s ++ after.

End Str.

(** * [os.path.splitext] (POSIX)

    [genericpath._splitext] with separator [/] and extension separator [.]:
    the extension starts at the last dot of the last path component, unless
    that component has nothing but dots before it. *)

Module os_path.

(** The [while] loop: is there a character other than [.] at an index in
    [filenameIndex, dotIndex)? [n] counts the indices left. *)
Fixpoint has_name_before_dot (p : string) (filenameIndex n : nat) : bool :=
  match n with
  | O => false
  | S n' =>
      match String.get filenameIndex p with
      | Some c =>
          if Ascii.eqb c "." then has_name_before_dot p (S filenameIndex) n'
          else true
      | None => true
      end
  end.

Definition splitext (p : string) : string * string :=
  let sepIndex := Str.rfind "/" p in
  let dotIndex := Str.rfind "." p in
  if (sepIndex <? dotIndex)%Z then
    let filenameIndex := Z.to_nat (sepIndex + 1) in
    if has_name_before_dot p filenameIndex (Z.to_nat dotIndex - filenameIndex)%nat
    then (Str.take (Z.to_nat dotIndex) p, Str.drop (Z.to_nat dotIndex) p)
    else (p, EmptyString)
  else (p, EmptyString).

End os_path.

(* ================================================================== *)
(** * Exceptions and results *)

(** The exception classes that the code raises, catches or lets through.
    [JSONDecodeError] and [UnicodeDecodeError] are subclasses of
    [ValueError]; [InvalidOperation] is [decimal.InvalidOperation];
    [ParseError] is [xml.etree.ElementTree.ParseError]; [DatabaseError]
    stands for the errors of [django.db] with which a query ends, and
    [TransactionManagementError] is the subclass of it raised for a query
    in a transaction that waits for a rollback.  A [CommandError] carries
    what its message is formatted from. *)
Inductive exn : Type :=
| KeyError (key : string)
| ValueError
| JSONDecodeError
| UnicodeDecodeError
| InvalidOperation
| TypeError
| AttributeError
| OverflowError
| ParseError
| OSError
| DatabaseError
| TransactionManagementError
| CommandError (why : command_error)

with command_error : Type :=
| FileDoesNotExist (file_path : string)
    (* f'File "{file_path}" does not exist.' *)
| ErrorProcessingFile (file_path : string) (e : exn)
    (* f'Error processing file "{file_path}": {str(e)}' *)
| UnsupportedFileFormat (ext : string).
    (* f'Unsupported file format: {ext}' *)

(** [isinstance(e, ValueError)]. *)
Definition is_ValueError (e : exn) : bool :=
  match e with
  | ValueError | JSONDecodeError | UnicodeDecodeError => true
  | _ => false
  end.

Definition is_KeyError (e : exn) : bool :=
  match e with KeyError _ => true | _ => false end.

Definition is_InvalidOperation (e : exn) : bool :=
  match e with InvalidOperation => true | _ => false end.

Definition is_TypeError (e : exn) : bool :=
  match e with TypeError => true | _ => false end.

Definition is_DatabaseError (e : exn) : bool :=
  match e with
  | DatabaseError | TransactionManagementError => true
  | _ => false
  end.

Inductive result (A : Type) : Type :=
| Ok (a : A)
| Raise (e : exn).

Arguments Ok {A} a.
Arguments Raise {A} e.

Module Res.

Definition bind {A B} (r : result A) (k : A -> result B) : result B :=
  match r with
  | Ok a => k a
  | Raise e => Raise e
  end.

(** [try: body  except classes: handler]. *)
Definition try_except {A} (body : result A) (classes : exn -> bool)
           (handler : exn -> result A) : result A :=
  match body with
  | Ok a => Ok a
  | Raise e => if classes e then handler e else Raise e
  end.

(** A list comprehension [[f(x) for x in xs]]: the first exception ends it. *)
Fixpoint map {A B} (f : A -> result B) (xs : list A) : result (list B) :=
  match xs with
  | [] => Ok []
  | x :: rest =>
      bind (f x) (fun y => bind (map f rest) (fun ys => Ok (y :: ys)))
  end.

End Res.

Declare Scope result_scope.
Delimit Scope result_scope with result.
Notation "x <- r ;; k" := (Res.bind r (fun x => k))
  (at level 61, r at next level, right associativity) : result_scope.

(* ================================================================== *)
(** * Python values

    What [json.load] returns, and so what a [JSONField] and the untyped
    attributes of a model instance may hold.  A [dict] keeps its items in
    order; a key is looked up from the front. *)

#[local] Set Warnings "-register-all".

Inductive value : Type :=
| VNone
| VBool (b : bool)
| VInt (z : Z)
| VFloat (f : float)
| VStr (s : string)
| VList (items : list value)
| VDict (items : list (string * value)).

Fixpoint assoc {A} (key : string) (items : list (string * A)) : option A :=
  match items with
  | [] => None
  | (k, v) :: rest => if String.eqb k key then Some v else assoc key rest
  end.

Module Py.

(** Truth value testing: [None], [False], zero, and the empty string, list
    and dict are false. *)
Definition truthy (v : value) : bool :=
  match v with
  | VNone => false
  | VBool b => b
  | VInt z => negb (z =? 0)%Z
  | VFloat f => negb (PrimFloat.eqb f 0%float)
  | VStr s => negb (Str.is_empty s)
  | VList items => match items with [] => false | _ => true end
  | VDict items => match items with [] => false | _ => true end
  end.

Definition is_None (v : value) : bool :=
  match v with VNone => true | _ => false end.

Fixpoint chars (s : string) : list value :=
  match s with
  | EmptyString => []
  | String c rest => VStr (String c EmptyString) :: chars rest
  end.

(** [iter(v)], run to the end: the items of a list, the keys of a dict,
    the characters of a string; anything else is not iterable. *)
Definition iterate (v : value) : result (list value) :=
  match v with
  | VList items => Ok items
  | VDict items => Ok (List.map (fun kv => VStr (fst kv)) items)
  | VStr s => Ok (chars s)
  | _ => Raise TypeError
  end.

(** [v.get(key, default)]; only a dict has the method. *)
Definition get (v : value) (key : string) (default : value) : result value :=
  match v with
  | VDict items =>
      Ok (match assoc key items with Some x => x | None => default end)
  | _ => Raise AttributeError
  end.

(** [v[key]] for a string key: a dict looks it up, a list or a string
    wants an integer index, nothing else can be subscripted. *)
Definition getitem (v : value) (key : string) : result value :=
  match v with
  | VDict items =>
      match assoc key items with
      | Some x => Ok x
      | None => Raise (KeyError key)
      end
  | _ => Raise TypeError
  end.

Definition string_of_Z (z : Z) : string :=
  NilZero.string_of_int (Z.to_int z).

End Py.

(* ================================================================== *)
(** * Numeric literals: [decimal.Decimal(str)] and [float(str)] *)

Module Lit.

Definition is_digit (c : ascii) : bool :=
  let n := nat_of_ascii c in ((48 <=? n) && (n <=? 57))%nat.

(** The longest prefix of digits, and what follows it. *)
Fixpoint span_digits (s : string) : string * string :=
  match s with
  | EmptyString => (EmptyString, EmptyString)
  | String c rest =>
      if is_digit c
      then let (ds, tl) := span_digits rest in (String c ds, tl)
      else (EmptyString, s)
  end.

Fixpoint digits_value_from (acc : N) (ds : string) : N :=
  match ds with
  | EmptyString => acc
  | String c rest =>
      digits_value_from (acc * 10 + (N_of_ascii c - 48))%N rest
  end.

(** [int(ds)] for a string of digits ([0] for the empty one). *)
Definition digits_value (ds : string) : N := digits_value_from 0%N ds.

(** An optional sign: whether it is [-], and what follows it. *)
Definition take_sign (s : string) : bool * string :=
  match s with
  | String "-" rest => (true, rest)
  | String "+" rest => (false, rest)
  | _ => (false, s)
  end.

(** An unsigned number [digits [. digits] [(e|E) [sign] digits]] with a
    digit before or after the point: its coefficient and its exponent of
    ten, or [None] when [s] is not such a number from end to end. *)
Definition parse_number (s : string) : option (N * Z) :=
  let (int_part, r1) := span_digits s in
  let (frac_part, r2) :=
    match r1 with
    | String "." r => span_digits r
    | _ => (EmptyString, r1)
    end in
  if Str.is_empty int_part && Str.is_empty frac_part then None
  else
    let coefficient := digits_value (int_part ++ frac_part) in
    let scale := Z.of_nat (String.length frac_part) in
    match r2 with
    | EmptyString => Some (coefficient, (- scale)%Z)
    | String c r3 =>
        if Ascii.eqb c "e" || Ascii.eqb c "E" then
          let (negative, r4) := take_sign r3 in
          let (exp_digits, r5) := span_digits r4 in
          if Str.is_empty exp_digits || negb (Str.is_empty r5) then None
          else
            let e := Z.of_N (digits_value exp_digits) in
            Some (coefficient, ((if negative then - e else e) - scale)%Z)
        else None
    end.

Fixpoint remove_char (c : ascii) (s : string) : string :=
  match s with
  | EmptyString => EmptyString
  | String d rest =>
      if Ascii.eqb d c then remove_char c rest
      else String d (remove_char c rest)
  end.

End Lit.

(** ** [decimal.Decimal]

    A decimal keeps its sign, coefficient and exponent as written, so
    [Decimal('1.0')] and [Decimal('1.00')] differ; the constructor is exact
    whatever the context's precision, within the limits of the
    implementation: CPython's [_decimal] on a 64-bit platform. *)

Inductive Decimal : Type :=
| Finite (negative : bool) (coefficient : N) (exponent : Z)
| Infinity (negative : bool)
| NaN (negative : bool) (signaling : bool) (payload : N).

Module decimal.

(** [decimal.MAX_EMAX], and the least exponent a decimal can have: [Etiny]
    of the widest context, [MIN_EMIN - (MAX_PREC - 1)]. *)
Definition MAX_EMAX : Z := 999999999999999999.

Definition MIN_ETINY : Z := -1999999999999999997.

(** The number of digits of a coefficient; 1 for 0. *)
Definition digits (coefficient : N) : Z :=
  Z.of_nat (Decimal.nb_digits (N.to_uint coefficient)).

(** The constructor converts exactly or not at all: a number whose adjusted
    exponent is above [MAX_EMAX], or whose exponent is below [MIN_ETINY],
    would overflow, or be rounded or clamped. *)
Definition representable (coefficient : N) (exponent : Z) : bool :=
  ((exponent + digits coefficient - 1 <=? MAX_EMAX)
   && (MIN_ETINY <=? exponent))%Z.

(** [Decimal(s)] for a string: surrounding whitespace and every underscore
    are dropped, then the text must be a sign followed by a number within
    the limits, by [Inf] or [Infinity], or by [NaN] or [sNaN] and digits (in
    any case); anything else raises [InvalidOperation]. *)
Definition of_str (s : string) : result Decimal :=
  let (negative, body) :=
    Lit.take_sign (Lit.remove_char "_" (Str.strip s)) in
  match Lit.parse_number body with
  | Some (coefficient, exponent) =>
      if representable coefficient exponent
      then Ok (Finite negative coefficient exponent)
      else Raise InvalidOperation
  | None =>
      let body := Str.lower body in
      if String.eqb body "inf" || String.eqb body "infinity"
      then Ok (Infinity negative)
      else
        let (signaling, tail) :=
          match body with
          | String "s" tl => (true, tl)
          | _ => (false, body)
          end in
        if String.eqb (Str.take 3 tail) "nan" then
          let (diag, junk) := Lit.span_digits (Str.drop 3 tail) in
          if Str.is_empty junk
          then Ok (NaN negative signaling (Lit.digits_value diag))
          else Raise InvalidOperation
        else Raise InvalidOperation
  end.

(** [Decimal(x)] where [x] is a string or [None]: [None] is a
    [TypeError]. *)
Definition of_optional_str (x : option string) : result Decimal :=
  match x with
  | Some s => of_str s
  | None => Raise TypeError
  end.

(** [lo <= d <= hi] for integers [lo] and [hi]; false for a NaN. *)
Definition between (lo hi : Z) (d : Decimal) : bool :=
  match d with
  | Finite negative coefficient exponent =>
      let c := if negative then (- Z.of_N coefficient)%Z
               else Z.of_N coefficient in
      if (0 <=? exponent)%Z
      then ((lo <=? c * 10 ^ exponent) && (c * 10 ^ exponent <=? hi))%Z
      else ((lo * 10 ^ (- exponent) <=? c)
            && (c <=? hi * 10 ^ (- exponent)))%Z
  | Infinity _ => false
  | NaN _ _ _ => false
  end.

End decimal.

(** ** [float]

    [float(x)] of a Python value.  A string is stripped of the whitespace
    that [float] knows, may carry underscores between digits only, and must
    then be a sign followed by a number, [inf], [infinity] or [nan] (in any
    case); its value is the binary64 nearest to the number written (ties to
    even).  An integer is rounded the same way and raises [OverflowError]
    when it is too large. *)

Module float_.

(** What [float] strips from both ends of a string: the whitespace of C
    ([Py_ISSPACE]: U+0009..U+000D and the space), and the two spaces beyond
    ASCII, U+0085 and U+00A0, which it first turns into a space.  The
    separators U+001C..U+001F, which [str.strip] removes, stay, and make
    the string no number. *)
Definition isspace (c : ascii) : bool :=
  let n := nat_of_ascii c in
  (((9 <=? n) && (n <=? 13)) || (n =? 32) || (n =? 133) || (n =? 160))%nat.

(** The underscore rule of [float(str)]: an underscore stands between two
    digits.  [prev] is the character before [s]. *)
Fixpoint underscores_ok (prev : option ascii) (s : string) : bool :=
  let after_digit :=
    match prev with Some p => Lit.is_digit p | None => false end in
  match s with
  | EmptyString =>
      match prev with Some "_"%char => false | _ => true end
  | String c rest =>
      (if Ascii.eqb c "_" then after_digit
       else match prev with
            | Some "_"%char => Lit.is_digit c
            | _ => true
            end)
      && underscores_ok (Some c) rest
  end.

(** The binary64 nearest to [m * 2 ^ e]. *)
Definition nearest (m e : Z) (negative_zero : bool) : float :=
  SF2Prim (binary_normalize prec emax m e negative_zero).

(** The binary64 nearest to [(-1)^negative * coefficient * 10 ^ exponent].
    For a negative exponent the quotient is taken with 64 bits or more and
    a sticky bit for its remainder, which rounds as the exact value. *)
Definition of_decimal (negative : bool) (coefficient : N) (exponent : Z)
  : float :=
  let c := Z.of_N coefficient in
  let signed (z : Z) := if negative then (- z)%Z else z in
  if (0 <=? exponent)%Z
  then nearest (signed (c * 10 ^ exponent)%Z) 0 negative
  else
    let d := (10 ^ (- exponent))%Z in
    let k := (64 + Z.log2_up d)%Z in
    let q := (c * 2 ^ k / d)%Z in
    let sticky := if (c * 2 ^ k mod d =? 0)%Z then 0%Z else 1%Z in
    nearest (signed (2 * q + sticky)%Z) (- k - 1) negative.

Definition of_str (s : string) : result float :=
  let s := Str.strip_by isspace s in
  if underscores_ok None s then
    let (negative, body) := Lit.take_sign (Lit.remove_char "_" s) in
    match Lit.parse_number body with
    | Some (coefficient, exponent) =>
        Ok (of_decimal negative coefficient exponent)
    | None =>
        let body := Str.lower body in
        if String.eqb body "inf" || String.eqb body "infinity"
        then Ok (if negative then neg_infinity else infinity)
        else if String.eqb body "nan" then Ok nan
        else Raise ValueError
    end
  else Raise ValueError.

Definition of_Z (z : Z) : result float :=
  let f := nearest z 0 false in
  if PrimFloat.eqb (abs f) infinity then Raise OverflowError else Ok f.

End float_.

Module Builtin.

(** [float(v)]. *)
Definition float (v : value) : result float :=
  match v with
  | VFloat f => Ok f
  | VInt z => float_.of_Z z
  | VBool b => Ok (if b then 1%float else 0%float)
  | VStr s => float_.of_str s
  | VNone | VList _ | VDict _ => Raise TypeError
  end.

(** [sum(xs)] of floats: the additions from the left, from [0]. *)
Definition sum (xs : list PrimFloat.float) : PrimFloat.float :=
  fold_left PrimFloat.add xs 0%float.

(** [len(xs)] as the float it becomes under [/]. *)
Definition len_as_float {A} (xs : list A) : PrimFloat.float :=
  float_.nearest (Z.of_nat (List.length xs)) 0 false.

End Builtin.

(* ================================================================== *)
(** * XML elements ([xml.etree.ElementTree]) *)

Inductive element : Type :=
| Element (tag : string) (text : option string) (children : list element).

Module ET.

Definition tag (e : element) : string :=
  match e with Element t _ _ => t end.

(** [e.text]: the text before the first child, [None] when there is
    none. *)
Definition text (e : element) : option string :=
  match e with Element _ t _ => t end.

Definition children (e : element) : list element :=
  match e with Element _ _ cs => cs end.

(** [e.find(name)] for a plain tag name: the first child with that tag. *)
Definition find (e : element) (name : string) : option element :=
  List.find (fun c => String.eqb (tag c) name) (children e).

(** Every element below [e], in document order. *)
Fixpoint descendants (e : element) : list element :=
  match e with
  | Element _ _ cs => flat_map (fun c => c :: descendants c) cs
  end.

(** [e.findall('.//' + name)]: the elements below [e] with that tag, in
    document order. *)
Definition findall_below (e : element) (name : string) : list element :=
  filter (fun c => String.eqb (tag c) name) (descendants e).

End ET.

(* ================================================================== *)
(** * The model: [poi/models.py] *)

(** An instance of [PointOfInterest].  [external_id], [name], [category] and
    [description] hold whatever the caller assigned (Django converts a field
    only when it writes the row); the coordinates are always built with
    [Decimal(...)]; [internal_id], [created_at] and [updated_at] are filled
    in by the database and are left out. *)
Record PointOfInterest : Type := {
  external_id : value;
  name : value;
  latitude : Decimal;
  longitude : Decimal;
  category : value;
  ratings_data : value;          (* JSONField(default=list) *)
  avg_rating : option float;     (* DecimalField(null=True) *)
  description : value            (* TextField(null=True) *)
}.

Definition set_avg_rating (self : PointOfInterest) (avg : option float)
  : PointOfInterest :=
  {| external_id := external_id self;
     name := name self;
     latitude := latitude self;
     longitude := longitude self;
     category := category self;
     ratings_data := ratings_data self;
     avg_rating := avg;
     description := description self |}.

(** The validators declared on [latitude] and [longitude]
    ([MinValueValidator], [MaxValueValidator]).  Django runs a field's
    validators in [Model.full_clean]; [Model.save] does not call it, and
    nothing in the repository does. *)
Definition latitude_validators (d : Decimal) : bool :=
  decimal.between (-90) 90 d.

Definition longitude_validators (d : Decimal) : bool :=
  decimal.between (-180) 180 d.

(** A CSV row as [csv.DictReader] yields it: the header's names, each with
    its cell, or with [None] when the line is too short to have one. *)
Definition csv_row : Type := list (string * option string).

(** What the command writes to [self.stdout]. *)
Inductive message : Type :=
| ClearingExistingData
| ExistingDataCleared
| ProcessingFile (file_path : string)
| SuccessfullyImported (imported_count : nat) (file_path : string)
| SkippingInvalidCsvRow (row : csv_row) (e : exn)
| SkippingInvalidJsonItem (item : value) (e : exn)
| SkippingInvalidXmlElement (e : exn)
| TotalRecordsImported (total_imported : nat).

(** What lies outside the repository.
    - [path_exists] is [os.path.exists].
    - [csv_DictReader p] is the rows that [csv.DictReader(open(p))] yields
      and the exception, if any, that ends the iteration (or the [open]).
    - [json_load p] is [json.load(open(p))] and [ET_parse p] is
      [ET.parse(p).getroot()], or the exception raised.
    - [db_insert_error r] is the exception, if any, with which the database
      layer refuses to write the row [r] in a transaction that is in order;
      it depends on the backend.  A [DatabaseError] comes from the query; an
      exception of another class comes from preparing the values of the row
      for the backend, before the query is run.
    - [repr] is Python's [repr] (used for floats and containers). *)
Record environment : Type := {
  path_exists : string -> bool;
  csv_DictReader : string -> list csv_row * option exn;
  json_load : string -> result value;
  ET_parse : string -> result element;
  db_insert_error : PointOfInterest -> option exn;
  repr : value -> string
}.

(** The state the command changes: the rows of the model's table as the
    connection sees them, in insertion order; the lines written to standard
    output; and the two attributes of the database connection that Django's
    transaction code goes by: whether an atomic block is open, and whether
    the transaction in it must be rolled back. *)
Record world : Type := {
  table : list PointOfInterest;
  stdout : list message;
  in_atomic_block : bool;
  needs_rollback : bool
}.

(** ** Computations over the world *)

Definition M (A : Type) : Type := world -> result A * world.

Module Cmd.

Definition ret {A} (a : A) : M A := fun w => (Ok a, w).

Definition raise {A} (e : exn) : M A := fun w => (Raise e, w).

Definition bind {A B} (m : M A) (k : A -> M B) : M B :=
  fun w =>
    match m w with
    | (Ok a, w') => k a w'
    | (Raise e, w') => (Raise e, w')
    end.

Definition lift {A} (r : result A) : M A := fun w => (r, w).

(** [self.stdout.write(msg)]. *)
Definition write (msg : message) : M unit :=
  fun w =>
    (Ok tt,
     {| table := table w;
        stdout := (stdout w ++ [msg])%list;
        in_atomic_block := in_atomic_block w;
        needs_rollback := needs_rollback w |}).

(** [try: body  except classes as e: handler(e)]: what [body] did before
    it raised stays done. *)
Definition try_except {A} (body : M A) (classes : exn -> bool)
           (handler : exn -> M A) : M A :=
  fun w =>
    match body w with
    | (Ok a, w') => (Ok a, w')
    | (Raise e, w') => if classes e then handler e w' else (Raise e, w')
    end.

(** ** [django.db.transaction] *)

(** [connection.validate_no_broken_transaction()], which runs before every
    query. *)
Definition validate_no_broken_transaction : M unit :=
  fun w =>
    if needs_rollback w then (Raise TransactionManagementError, w)
    else (Ok tt, w).

(** [with transaction.mark_for_rollback_on_error(): body]: an exception
    that leaves [body] inside an atomic block marks the transaction for
    rollback, and goes on. *)
Definition mark_for_rollback_on_error {A} (body : M A) : M A :=
  fun w =>
    match body w with
    | (Ok a, w') => (Ok a, w')
    | (Raise e, w') =>
        (Raise e,
         {| table := table w';
            stdout := stdout w';
            in_atomic_block := in_atomic_block w';
            needs_rollback := needs_rollback w' || in_atomic_block w' |})
    end.

(** [Atomic.__enter__]: the outermost block starts a transaction that is in
    order; a block inside another takes a savepoint, unless the transaction
    already waits for a rollback. *)
Definition enter (w : world) : world :=
  {| table := table w;
     stdout := stdout w;
     in_atomic_block := true;
     needs_rollback := in_atomic_block w && needs_rollback w |}.

(** [Atomic.__exit__] for the block entered from [w], which ends in [w'];
    [returned] tells whether it ends without an exception.  The block is
    committed (or its savepoint released) when it returned and nothing marked
    the transaction.  Otherwise it is rolled back: the rows are those of [w],
    what was written stays written; only a block that could take no
    savepoint leaves the rows and the mark to the block around it. *)
Definition exit (w w' : world) (returned : bool) : world :=
  if returned && negb (needs_rollback w') then
    {| table := table w';
       stdout := stdout w';
       in_atomic_block := in_atomic_block w;
       needs_rollback := false |}
  else if in_atomic_block w && needs_rollback w then
    {| table := table w';
       stdout := stdout w';
       in_atomic_block := true;
       needs_rollback := true |}
  else
    {| table := table w;
       stdout := stdout w';
       in_atomic_block := in_atomic_block w;
       needs_rollback := false |}.

(** [@transaction.atomic]: the function runs between [enter] and [exit],
    and its result, or its exception, is that of the decorated function. *)
Definition atomic {A} (f : M A) : M A :=
  fun w =>
    match f (enter w) with
    | (Ok a, w') => (Ok a, exit w w' true)
    | (Raise e, w') => (Raise e, exit w w' false)
    end.

(** [for x in xs: ...] where the body updates the counter
    [imported_count]. *)
Fixpoint for_each {A} (xs : list A) (body : A -> nat -> M nat)
         (imported_count : nat) : M nat :=
  match xs with
  | [] => ret imported_count
  | x :: rest =>
      bind (body x imported_count) (fun n => for_each rest body n)
  end.

End Cmd.

Declare Scope cmd_scope.
Delimit Scope cmd_scope with cmd.
Notation "x <- m ;; k" := (Cmd.bind m (fun x => k))
  (at level 61, m at next level, right associativity) : cmd_scope.
Notation "m ;; k" := (Cmd.bind m (fun _ => k))
  (at level 61, right associativity) : cmd_scope.

(** ** [PointOfInterest.save] and [rating_count] *)

Module models.

(** Lines 63-73 of [save]: the value assigned to [self.avg_rating]. *)
Definition calculated_avg_rating (ratings_data : value)
  : result (option float) :=
  if Py.truthy ratings_data then
    Res.try_except
      (items <- Py.iterate ratings_data ;;
       ratings <- Res.map Builtin.float
                    (filter (fun r => negb (Py.is_None r)) items) ;;
       Ok (match ratings with
           | [] => None
           | _ => Some (Builtin.sum ratings / Builtin.len_as_float ratings)%float
           end))%result
      (fun e => is_ValueError e || is_TypeError e)
      (fun _ => Ok None)
  else Ok None.

(** The [INSERT] of a new row: its values are prepared for the backend,
    then the query is run, which a transaction that waits for a rollback
    refuses before the database sees it. *)
Definition insert (env : environment) (self : PointOfInterest) : M unit :=
  match db_insert_error env self with
  | Some e =>
      if is_DatabaseError e
      then (Cmd.validate_no_broken_transaction ;; Cmd.raise e)%cmd
      else Cmd.raise e
  | None =>
      (Cmd.validate_no_broken_transaction ;;
       fun w =>
         (Ok tt,
          {| table := (table w ++ [self])%list;
             stdout := stdout w;
             in_atomic_block := in_atomic_block w;
             needs_rollback := needs_rollback w |}))%cmd
  end.

(** [super().save()] for an instance without a primary key: validators are
    not run; [save_base] writes the row under [mark_for_rollback_on_error]. *)
Definition Model_save (env : environment) (self : PointOfInterest) : M unit :=
  Cmd.mark_for_rollback_on_error (insert env self).

(** [save], returning the instance as the call leaves it. *)
Definition save (env : environment) (self : PointOfInterest)
  : M PointOfInterest :=
  (avg <- Cmd.lift (calculated_avg_rating (ratings_data self)) ;;
   let self := set_avg_rating self avg in
   Model_save env self ;;
   Cmd.ret self)%cmd.

(** The property [rating_count]. *)
Definition rating_count (self : PointOfInterest) : result nat :=
  if Py.truthy (ratings_data self) then
    (items <- Py.iterate (ratings_data self) ;;
     Ok (List.length (filter (fun r => negb (Py.is_None r)) items)))%result
  else Ok 0.

(** [PointOfInterest.objects.all().delete()]: the rows are deleted by one
    query. *)
Definition delete_all : M unit :=
  (Cmd.validate_no_broken_transaction ;;
   fun w =>
     (Ok tt,
      {| table := [];
         stdout := stdout w;
         in_atomic_block := in_atomic_block w;
         needs_rollback := needs_rollback w |}))%cmd.

End models.

(* ================================================================== *)
(** * The command: [poi/management/commands/import_poi.py] *)

Module import_poi.

(** The argument of [strip] in [parse_ratings]. *)
Definition brackets : string := "[](){}".

(** The body of the [for] loop of [parse_ratings] for one piece: the list
    [ratings] after it. *)
Definition parse_rating (rating : string) (ratings : list float)
  : result (list float) :=
  Res.try_except
    (let rating := Str.strip rating in
     if negb (Str.is_empty rating)
     then (f <- float_.of_str rating ;; Ok (ratings ++ [f])%list)%result
     else Ok ratings)
    is_ValueError
    (fun _ => Ok ratings).

Fixpoint parse_ratings_loop (pieces : list string) (ratings : list float)
  : result (list float) :=
  match pieces with
  | [] => Ok ratings
  | rating :: rest =>
      (ratings <- parse_rating rating ratings ;;
       parse_ratings_loop rest ratings)%result
  end.

Definition parse_ratings (ratings_str : string) : result (list float) :=
  if Str.is_empty ratings_str then Ok []
  else
    let ratings_str := Str.strip_chars ratings_str brackets in
    if Str.is_empty ratings_str then Ok []
    else parse_ratings_loop (Str.split "," ratings_str) [].

(** [if elem is not None and elem.text]. *)
Definition has_text (elem : option element) : option string :=
  match elem with
  | Some e =>
      match ET.text e with
      | Some t => if Str.is_empty t then None else Some t
      | None => None
      end
  | None => None
  end.

Fixpoint get_xml_text (e : element) (tag_names : list string)
  : option string :=
  match tag_names with
  | [] => None
  | tag_name :: rest =>
      match has_text (ET.find e tag_name) with
      | Some t => Some (Str.strip t)
      | None => get_xml_text e rest
      end
  end.

(** The truth value of a string or [None], as [all] and [or] test it. *)
Definition present (x : option string) : bool :=
  match x with
  | Some s => negb (Str.is_empty s)
  | None => false
  end.

Definition or_empty (x : option string) : string :=
  match x with
  | Some s => if Str.is_empty s then EmptyString else s
  | None => EmptyString
  end.

Definition value_of (x : option string) : value :=
  match x with
  | Some s => VStr s
  | None => VNone
  end.

(** [row[key]]. *)
Definition row_getitem (row : csv_row) (key : string)
  : result (option string) :=
  match assoc key row with
  | Some cell => Ok cell
  | None => Raise (KeyError key)
  end.

(** [row.get('poi_ratings', '').strip()]. *)
Definition row_ratings_str (row : csv_row) : result string :=
  match assoc "poi_ratings" row with
  | None => Ok (Str.strip EmptyString)
  | Some (Some cell) => Ok (Str.strip cell)
  | Some None => Raise AttributeError
  end.

(** [str(v)]. *)
Definition str (env : environment) (v : value) : string :=
  match v with
  | VStr s => s
  | VInt z => Py.string_of_Z z
  | VBool true => "True"
  | VBool false => "False"
  | VNone => "None"
  | VFloat _ | VList _ | VDict _ => repr env v
  end.

Definition floats (ratings : list float) : value :=
  VList (List.map VFloat ratings).

Section Command.

Variable env : environment.

Local Open Scope cmd_scope.

(** Lines 80-90: the ratings, then the arguments of
    [PointOfInterest(...)] in the order they are evaluated. *)
Definition csv_poi (row : csv_row) : result PointOfInterest :=
  (ratings_str <- row_ratings_str row ;;
   ratings <- parse_ratings ratings_str ;;
   poi_id <- row_getitem row "poi_id" ;;
   poi_name <- row_getitem row "poi_name" ;;
   poi_latitude <- row_getitem row "poi_latitude" ;;
   latitude <- decimal.of_optional_str poi_latitude ;;
   poi_longitude <- row_getitem row "poi_longitude" ;;
   longitude <- decimal.of_optional_str poi_longitude ;;
   poi_category <- row_getitem row "poi_category" ;;
   Ok {| external_id := value_of poi_id;
         name := value_of poi_name;
         latitude := latitude;
         longitude := longitude;
         category := value_of poi_category;
         ratings_data := floats ratings;
         avg_rating := None;
         description := VNone |})%result.

(** The body of the [for] loop of [import_csv]. *)
Definition import_csv_row (row : csv_row) (imported_count : nat) : M nat :=
  Cmd.try_except
    (poi <- Cmd.lift (csv_poi row) ;;
     models.save env poi ;;
     Cmd.ret (imported_count + 1)%nat)
    (fun e => is_KeyError e || is_ValueError e || is_InvalidOperation e)
    (fun e =>
       Cmd.write (SkippingInvalidCsvRow row e) ;;
       Cmd.ret imported_count).

(** [import_csv] before [@transaction.atomic] wraps it. *)
Definition import_csv_body (file_path : string) : M nat :=
  let (rows, failure) := csv_DictReader env file_path in
  imported_count <- Cmd.for_each rows import_csv_row 0%nat ;;
  match failure with
  | Some e => Cmd.raise e
  | None => Cmd.ret imported_count
  end.

Definition import_csv (file_path : string) : M nat :=
  Cmd.atomic (import_csv_body file_path).

(** Lines 118-129: the arguments of [PointOfInterest(...)] in the
    order they are evaluated. *)
Definition json_poi (item : value) : result PointOfInterest :=
  (coordinates <- Py.get item "coordinates" (VDict []) ;;
   ratings <- Py.get item "ratings" (VList []) ;;
   id <- Py.getitem item "id" ;;
   name_ <- Py.getitem item "name" ;;
   lat <- Py.getitem coordinates "latitude" ;;
   latitude <- decimal.of_str (str env lat) ;;
   lon <- Py.getitem coordinates "longitude" ;;
   longitude <- decimal.of_str (str env lon) ;;
   category_ <- Py.getitem item "category" ;;
   description_ <- Py.get item "description" (VStr "") ;;
   Ok {| external_id := VStr (str env id);
         name := name_;
         latitude := latitude;
         longitude := longitude;
         category := category_;
         ratings_data := ratings;
         avg_rating := None;
         description := description_ |})%result.

(** The body of the [for] loop of [import_json]. *)
Definition import_json_item (item : value) (imported_count : nat) : M nat :=
  Cmd.try_except
    (poi <- Cmd.lift (json_poi item) ;;
     models.save env poi ;;
     Cmd.ret (imported_count + 1)%nat)
    (fun e => is_KeyError e || is_ValueError e || is_InvalidOperation e)
    (fun e =>
       Cmd.write (SkippingInvalidJsonItem item e) ;;
       Cmd.ret imported_count).

Definition import_json_body (file_path : string) : M nat :=
  data <- Cmd.lift (json_load env file_path) ;;
  let data := match data with VDict _ => VList [data] | _ => data end in
  items <- Cmd.lift (Py.iterate data) ;;
  Cmd.for_each items import_json_item 0%nat.

Definition import_json (file_path : string) : M nat :=
  Cmd.atomic (import_json_body file_path).

(** Lines 157-176: the six fields, the test of the five required
    ones ([None] stands for the [continue]), and the instance. *)
Definition xml_poi (poi_elem : element) : result (option PointOfInterest) :=
  let pid := get_xml_text poi_elem ["pid"; "id"; "poi_id"] in
  let pname := get_xml_text poi_elem ["pname"; "name"; "poi_name"] in
  let platitude :=
    get_xml_text poi_elem ["platitude"; "latitude"; "poi_latitude"] in
  let plongitude :=
    get_xml_text poi_elem ["plongitude"; "longitude"; "poi_longitude"] in
  let pcategory :=
    get_xml_text poi_elem ["pcategory"; "category"; "poi_category"] in
  let pratings :=
    get_xml_text poi_elem ["pratings"; "ratings"; "poi_ratings"] in
  if negb (forallb present [pid; pname; platitude; plongitude; pcategory])
  then Ok None
  else
    (ratings <- parse_ratings (or_empty pratings) ;;
     latitude <- decimal.of_optional_str platitude ;;
     longitude <- decimal.of_optional_str plongitude ;;
     Ok (Some {| external_id := value_of pid;
                 name := value_of pname;
                 latitude := latitude;
                 longitude := longitude;
                 category := value_of pcategory;
                 ratings_data := floats ratings;
                 avg_rating := None;
                 description := VNone |}))%result.

(** The body of the [for] loop of [import_xml]. *)
Definition import_xml_element (poi_elem : element) (imported_count : nat)
  : M nat :=
  Cmd.try_except
    (found <- Cmd.lift (xml_poi poi_elem) ;;
     match found with
     | None => Cmd.ret imported_count
     | Some poi =>
         models.save env poi ;;
         Cmd.ret (imported_count + 1)%nat
     end)
    (fun e => is_ValueError e || is_InvalidOperation e)
    (fun e =>
       Cmd.write (SkippingInvalidXmlElement e) ;;
       Cmd.ret imported_count).

(** [root.findall('.//poi') or root.findall('.//point_of_interest')
    or [root]]. *)
Definition poi_elements_of (root : element) : list element :=
  match ET.findall_below root "poi" with
  | (_ :: _) as found => found
  | [] =>
      match ET.findall_below root "point_of_interest" with
      | (_ :: _) as found => found
      | [] => [root]
      end
  end.

Definition import_xml_body (file_path : string) : M nat :=
  root <- Cmd.lift (ET_parse env file_path) ;;
  Cmd.for_each (poi_elements_of root) import_xml_element 0%nat.

Definition import_xml (file_path : string) : M nat :=
  Cmd.atomic (import_xml_body file_path).

Definition import_file (file_path : string) : M nat :=
  let ext := snd (os_path.splitext (Str.lower file_path)) in
  if String.eqb ext ".csv" then import_csv file_path
  else if String.eqb ext ".json" then import_json file_path
  else if String.eqb ext ".xml" then import_xml file_path
  else Cmd.raise (CommandError (UnsupportedFileFormat ext)).

(** The [for] loop of [handle]; [total_imported] is the counter. *)
Fixpoint handle_files (files : list string) (total_imported : nat)
  : M nat :=
  match files with
  | [] => Cmd.ret total_imported
  | file_path :: rest =>
      if negb (path_exists env file_path)
      then Cmd.raise (CommandError (FileDoesNotExist file_path))
      else
        Cmd.write (ProcessingFile file_path) ;;
        total_imported <-
          Cmd.try_except
            (imported_count <- import_file file_path ;;
             Cmd.write (SuccessfullyImported imported_count file_path) ;;
             Cmd.ret (total_imported + imported_count)%nat)
            (fun _ => true)
            (fun e =>
               Cmd.raise (CommandError (ErrorProcessingFile file_path e))) ;;
        handle_files rest total_imported
  end.

(** Lines 28-31: the [--clear] option. *)
Definition clear_existing (clear : bool) : M unit :=
  if clear
  then Cmd.write ClearingExistingData ;;
       models.delete_all ;;
       Cmd.write ExistingDataCleared
  else Cmd.ret tt.

(** [handle] with [options['files']] and [options['clear']]. *)
Definition handle (files : list string) (clear : bool) : M unit :=
  clear_existing clear ;;
  total_imported <- handle_files files 0%nat ;;
  Cmd.write (TotalRecordsImported total_imported).

End Command.

End import_poi.

(* ================================================================== *)
(** * The admin page: [poi/admin.py] *)

Module admin.

(** The columns of the list page, by name: model fields, and [rating_count],
    which is the method below. *)
Definition list_display : list string :=
  ["internal_id"; "name"; "external_id"; "category"; "avg_rating";
   "rating_count"; "latitude"; "longitude"].

(** [PointOfInterestAdmin.rating_count]: the value of the column for the
    row [obj]. *)
Definition rating_count (obj : PointOfInterest) : result nat :=
  models.rating_count obj.

End admin.

(* ================================================================== *)
(** * Vocabulary of the statements *)

(** Every character of [s] satisfies [p]. *)
Fixpoint all_chars (p : ascii -> bool) (s : string) : bool :=
  match s with
  | EmptyString => true
  | String c rest => p c && all_chars p rest
  end.

Fixpoint last_char (s : string) : option ascii :=
  match s with
  | EmptyString => None
  | String c EmptyString => Some c
  | String _ rest => last_char rest
  end.

(** A bracket-like delimiter: a character of [import_poi.brackets]. *)
Definition is_bracket (c : ascii) : bool := Str.mem c import_poi.brackets.

(** The entries of a ratings sequence that are not [None]. *)
Definition non_null (items : list value) : list value :=
  filter (fun r => negb (Py.is_None r)) items.

(** An entry of a ratings sequence as the model declares it: [None], a
    float, or an integer that [float] can hold. *)
Inductive number_or_null : value -> Prop :=
| null_entry : number_or_null VNone
| float_entry (f : float) : number_or_null (VFloat f)
| int_entry (z : Z) (f : float) :
    float_.of_Z z = Ok f -> number_or_null (VInt z).

(** The arithmetic mean of floats, in float arithmetic: their sum from the
    left, divided by how many they are. *)
Definition mean (ratings : list float) : float :=
  (Builtin.sum ratings / Builtin.len_as_float ratings)%float.

(** ** Inputs of the examples *)

(** Nothing on disk, and a database that writes every row it is given: the
    tables that Django creates from [models.py] carry no constraint for a
    field's validators.  [repr] is not called in the examples. *)
Definition bare_env : environment :=
  {| path_exists := fun _ => false;
     csv_DictReader := fun _ => ([], Some OSError);
     json_load := fun _ => Raise OSError;
     ET_parse := fun _ => Raise OSError;
     db_insert_error := fun _ => None;
     repr := fun _ => EmptyString |}.

(** A connection outside any transaction, with the given rows in the table
    and the given lines on standard output; and the one with neither. *)
Definition idle (rows : list PointOfInterest) (lines : list message) : world :=
  {| table := rows;
     stdout := lines;
     in_atomic_block := false;
     needs_rollback := false |}.

Definition empty_world : world := idle [] [].

(** A cafe in New York with the given ratings, not yet saved. *)
Definition cafe (ratings : value) : PointOfInterest :=
  {| external_id := VStr "id1";
     name := VStr "Cafe";
     latitude := Finite false 400 (-1);
     longitude := Finite true 730 (-1);
     category := VStr "food";
     ratings_data := ratings;
     avg_rating := None;
     description := VNone |}.

(** The files of an example, by path: what the reader for the path's format
    finds in each. *)
Inductive file : Type :=
| CsvFile (rows : list csv_row)
| JsonFile (data : value)
| XmlFile (root : element)
| Malformed.

(** The environment with those files, and the database of [bare_env]. *)
Definition env_of (files : list (string * file)) : environment :=
  {| path_exists := fun p =>
       match assoc p files with Some _ => true | None => false end;
     csv_DictReader := fun p =>
       match assoc p files with
       | Some (CsvFile rows) => (rows, None)
       | Some _ => ([], Some UnicodeDecodeError)
       | None => ([], Some OSError)
       end;
     json_load := fun p =>
       match assoc p files with
       | Some (JsonFile data) => Ok data
       | Some _ => Raise JSONDecodeError
       | None => Raise OSError
       end;
     ET_parse := fun p =>
       match assoc p files with
       | Some (XmlFile root) => Ok root
       | Some _ => Raise ParseError
       | None => Raise OSError
       end;
     db_insert_error := fun _ => None;
     repr := fun _ => EmptyString |}.

(** The CSV row [id1,Cafe,<latitude>,-73.0,food,"[4,5]"]. *)
Definition cafe_row (poi_latitude : string) : csv_row :=
  [("poi_id", Some "id1"); ("poi_name", Some "Cafe");
   ("poi_latitude", Some poi_latitude); ("poi_longitude", Some "-73.0");
   ("poi_category", Some "food"); ("poi_ratings", Some "[4,5]")].

(** A line with one cell under a header of six names. *)
Definition short_row : csv_row :=
  [("poi_id", Some "id2"); ("poi_name", None);
   ("poi_latitude", None); ("poi_longitude", None);
   ("poi_category", None); ("poi_ratings", None)].

(** A line with the five required cells and none under [poi_ratings]. *)
Definition five_cells_row : csv_row :=
  [("poi_id", Some "id1"); ("poi_name", Some "Cafe");
   ("poi_latitude", Some "40.0"); ("poi_longitude", Some "-73.0");
   ("poi_category", Some "food"); ("poi_ratings", None)].

(** The CSV row [id2,Bar,40.0,-73.0,food,"[10,10]"]. *)
Definition top_rated_row : csv_row :=
  [("poi_id", Some "id2"); ("poi_name", Some "Bar");
   ("poi_latitude", Some "40.0"); ("poi_longitude", Some "-73.0");
   ("poi_category", Some "food"); ("poi_ratings", Some "[10,10]")].

(** The instance that [import_csv] builds from [top_rated_row]. *)
Definition top_rated : PointOfInterest :=
  {| external_id := VStr "id2";
     name := VStr "Bar";
     latitude := Finite false 400 (-1);
     longitude := Finite true 730 (-1);
     category := VStr "food";
     ratings_data := VList [VFloat 10%float; VFloat 10%float];
     avg_rating := None;
     description := VNone |}.

(** The environment [env] with the database layer [db]. *)
Definition with_database (env : environment)
           (db : PointOfInterest -> option exn) : environment :=
  {| path_exists := path_exists env;
     csv_DictReader := csv_DictReader env;
     json_load := json_load env;
     ET_parse := ET_parse env;
     db_insert_error := db;
     repr := repr env |}.

(** The database layer of a backend that writes a decimal as text (every
    backend of Django but PostgreSQL), as far as the examples go:
    [format_number] quantises [avg_rating] to its two places with its three
    digits as precision, which raises [InvalidOperation] for an average of 10
    or more in magnitude.  (So it does for the averages just below 10 that
    round to 10.0, and the coordinates are treated alike from 1000 on; the
    examples have neither.) *)
Definition three_digit_averages (r : PointOfInterest) : option exn :=
  match avg_rating r with
  | Some avg =>
      if (abs avg <? 10)%float then None else Some InvalidOperation
  | None => None
  end.

(** The row [cafe_row] is saved as. *)
Definition saved_cafe (latitude : Decimal) : PointOfInterest :=
  {| external_id := VStr "id1";
     name := VStr "Cafe";
     latitude := latitude;
     longitude := Finite true 730 (-1);
     category := VStr "food";
     ratings_data := VList [VFloat 4%float; VFloat 5%float];
     avg_rating := Some 4.5%float;
     description := VNone |}.

(** A JSON object with every field but [coordinates.longitude]. *)
Definition no_longitude : value :=
  VDict [("id", VInt 7); ("name", VStr "Bar");
         ("coordinates", VDict [("latitude", VStr "40.0")]);
         ("category", VStr "food")].

(** The aliases of the ratings tag in [import_xml]. *)
Definition ratings_tags : list string := ["pratings"; "ratings"; "poi_ratings"].

(** A child of [e] with tag [a] is missing, or the first one has no text or
    only whitespace. *)
Definition absent_or_blank (e : element) (a : string) : Prop :=
  ET.find e a = None
  \/ exists child,
       ET.find e a = Some child
       /\ (ET.text child = None
           \/ exists t, ET.text child = Some t /\ Str.strip t = EmptyString).

(** ** What an import may do to the table *)

(** The world [w] with the rows [new] inserted and the lines [msgs]
    written; the transaction is as it was. *)
Definition extend (w : world) (new : list PointOfInterest)
           (msgs : list message) : world :=
  {| table := (table w ++ new)%list;
     stdout := (stdout w ++ msgs)%list;
     in_atomic_block := in_atomic_block w;
     needs_rollback := needs_rollback w |}.

(** The world [w] after an exception has left [Model.save]: inside an
    atomic block the transaction waits for a rollback. *)
Definition marked (w : world) : world :=
  {| table := table w;
     stdout := stdout w;
     in_atomic_block := in_atomic_block w;
     needs_rollback := needs_rollback w || in_atomic_block w |}.

(** A computation that reads nothing of the table and of standard output:
    from a transaction that is in order, whatever the rows and the lines
    already there, it ends the same way, inserts the same rows, writes the
    same lines and leaves the transaction in order. *)
Definition blind {A} (m : M A) : Prop :=
  exists r new msgs,
    forall w, needs_rollback w = false -> m w = (r, extend w new msgs).

(** The same for what runs inside an atomic block, where the transaction
    may wait for a rollback before, and after. *)
Definition blind_in_block {A} (m : M A) : Prop :=
  forall before,
    exists r new msgs after,
      forall w,
        in_atomic_block w = true -> needs_rollback w = before ->
        m w = (r, {| table := (table w ++ new)%list;
                     stdout := (stdout w ++ msgs)%list;
                     in_atomic_block := true;
                     needs_rollback := after |}).

(** The database refuses some row, or the transaction of [w] already waits
    for a rollback: what it takes for an exception to leave [Model.save]. *)
Definition refusing (env : environment) (w : world) : Prop :=
  needs_rollback w = true \/ exists r, db_insert_error env r <> None.

(** One row or element of a file, from the world [w] with the counter at
    [n]: it is inserted after the rows already there and counted, which
    takes a transaction in order; or it is passed over without a line, in a
    loop that does so ([silent]); or it is skipped with a line, before
    [save] or after an exception left [Model.save]; or it raises, before
    [save] or out of [Model.save]. *)
Inductive row_step (env : environment) (silent : bool) (n : nat) (w : world)
  : result nat * world -> Prop :=
| row_inserted (poi : PointOfInterest) :
    needs_rollback w = false ->
    row_step env silent n w (Ok (n + 1)%nat, extend w [poi] [])
| row_passed_over :
    silent = true ->
    row_step env silent n w (Ok n, w)
| row_skipped (line : message) :
    row_step env silent n w (Ok n, extend w [] [line])
| row_refused (line : message) :
    refusing env w ->
    row_step env silent n w (Ok n, extend (marked w) [] [line])
| row_fatal (e : exn) :
    row_step env silent n w (Raise e, w)
| row_refused_fatal (e : exn) :
    refusing env w ->
    row_step env silent n w (Raise e, marked w).

(** A loop of rows, from the world [w] with the counter at [n]: rows were
    inserted after those already there, and counted; lines were written; a
    transaction that waits for a rollback still does, and one in order still
    is when the database refuses no row. *)
Definition rows_added (env : environment) (n : nat) (w : world)
           (out : result nat * world) : Prop :=
  exists new msgs,
    table (snd out) = (table w ++ new)%list
    /\ stdout (snd out) = (stdout w ++ msgs)%list
    /\ in_atomic_block (snd out) = in_atomic_block w
    /\ (needs_rollback w = true -> needs_rollback (snd out) = true)
    /\ ((forall r, db_insert_error env r = None) ->
        needs_rollback w = false -> needs_rollback (snd out) = false)
    /\ match fst out with
       | Ok n' => n' = (n + List.length new)%nat
       | Raise _ => True
       end.

(** One file, from a transaction in order: on an exception the table is as
    it was before the file; on a count, the rows inserted after those
    already there are that many, or none; they are that many when the
    database refuses no row. *)
Definition all_or_nothing (env : environment) (w : world)
           (out : result nat * world) : Prop :=
  match fst out with
  | Ok imported_count =>
      exists new,
        table (snd out) = (table w ++ new)%list
        /\ (List.length new = imported_count \/ new = [])
        /\ ((forall r, db_insert_error env r = None) ->
            List.length new = imported_count)
  | Raise _ => table (snd out) = table w
  end.

(** ** Vocabulary of the further properties *)

(** [sep.join(pieces)]. *)
Fixpoint join (sep : ascii) (pieces : list string) : string :=
  match pieces with
  | [] => EmptyString
  | [piece] => piece
  | piece :: rest => piece ++ String sep (join sep rest)
  end.

(** Neither a bracket-like delimiter nor a comma. *)
Definition plain_char (c : ascii) : bool :=
  negb (is_bracket c) && negb (Ascii.eqb c ",").

(** The element [e] without the children whose tag is not in [tag_names]. *)
Definition keep_only (tag_names : list string) (e : element) : element :=
  Element (ET.tag e) (ET.text e)
    (filter (fun c => existsb (String.eqb (ET.tag c)) tag_names)
       (ET.children e)).

(** The alias groups of the five fields that [import_xml] requires. *)
Definition required_tags : list (list string) :=
  [["pid"; "id"; "poi_id"];
   ["pname"; "name"; "poi_name"];
   ["platitude"; "latitude"; "poi_latitude"];
   ["plongitude"; "longitude"; "poi_longitude"];
   ["pcategory"; "category"; "poi_category"]].

(** The exceptions that the loops of [import_csv] and [import_json] turn
    into a skipped row, and those that the loop of [import_xml] does. *)
Definition skips (e : exn) : bool :=
  is_KeyError e || is_ValueError e || is_InvalidOperation e.

Definition skips_xml (e : exn) : bool :=
  is_ValueError e || is_InvalidOperation e.

(** The exception, if any, that leaves [Model.save] for the row [r]: that
    of the database layer, or [TransactionManagementError] when the query is
    reached in a transaction that waits for a rollback ([broken]). *)
Definition refusal (env : environment) (r : PointOfInterest) (broken : bool)
  : option exn :=
  match db_insert_error env r with
  | Some e =>
      Some (if is_DatabaseError e && broken
            then TransactionManagementError else e)
  | None => if broken then Some TransactionManagementError else None
  end.

(** What [save] does to an instance in a transaction that is in order,
    apart from the world: the instance with its average, or the exception of
    the average or of the database. *)
Definition saved (env : environment) (poi : PointOfInterest)
  : result PointOfInterest :=
  match models.calculated_avg_rating (ratings_data poi) with
  | Raise e => Raise e
  | Ok avg =>
      match db_insert_error env (set_avg_rating poi avg) with
      | Some e => Raise e
      | None => Ok (set_avg_rating poi avg)
      end
  end.

(** How a loop body ends when the row raises [e] under a handler for the
    classes [classes] that writes [line]. *)
Definition on_raise (classes : exn -> bool) (line : message) (e : exn)
           (n : nat) (w : world) : result nat * world :=
  if classes e then (Ok n, extend w [] [line]) else (Raise e, w).

(** How the body of a loop ends for a row, from the world [w] with the
    counter at [n], by what was built from the row ([None]: nothing to
    save), under a handler for the classes [classes] that writes [line]. *)
Definition row_outcome (env : environment)
           (built : result (option PointOfInterest)) (classes : exn -> bool)
           (line : exn -> message) (n : nat) (w : world)
  : result nat * world :=
  match built with
  | Ok None => (Ok n, w)
  | Raise e => on_raise classes (line e) e n w
  | Ok (Some poi) =>
      match models.calculated_avg_rating (ratings_data poi) with
      | Raise e => on_raise classes (line e) e n w
      | Ok avg =>
          match refusal env (set_avg_rating poi avg) (needs_rollback w) with
          | None => (Ok (n + 1)%nat, extend w [set_avg_rating poi avg] [])
          | Some e => on_raise classes (line e) e n (marked w)
          end
      end
  end.

(** Of the rows [xs] of a file, with [built] what is built from each: the
    instances that are saved, in a transaction in order, and the lines of
    the rows from which nothing could be built. *)
Definition kept {A} (env : environment) (built : A -> result PointOfInterest)
           (xs : list A) : list PointOfInterest :=
  flat_map (fun x => match Res.bind (built x) (saved env) with
                     | Ok poi' => [poi']
                     | Raise _ => []
                     end) xs.

Definition reported {A} (built : A -> result PointOfInterest)
           (line : A -> exn -> message) (xs : list A) : list message :=
  flat_map (fun x => match built x with
                     | Ok _ => []
                     | Raise e => [line x e]
                     end) xs.

(** A row that is built and that [save] accepts, or that cannot be built
    for a reason the loops of [import_csv] and [import_json] catch. *)
Definition saved_or_unbuilt {A} (env : environment)
           (built : A -> result PointOfInterest) (x : A) : Prop :=
  match built x with
  | Ok poi => exists poi', saved env poi = Ok poi'
  | Raise e => skips e = true
  end.

(** A JSON object with the required fields, whose ratings are the number
    [ratings]. *)
Definition rated_item (ratings : value) : value :=
  VDict [("id", VInt 7); ("name", VStr "Bar");
         ("coordinates",
          VDict [("latitude", VStr "40.0"); ("longitude", VStr "-73.0")]);
         ("category", VStr "food"); ("ratings", ratings)].

(** The instance [import_json] builds from [rated_item]. *)
Definition bar (ratings : value) : PointOfInterest :=
  {| external_id := VStr "7";
     name := VStr "Bar";
     latitude := Finite false 400 (-1);
     longitude := Finite true 730 (-1);
     category := VStr "food";
     ratings_data := ratings;
     avg_rating := None;
     description := VStr EmptyString |}.

(** One of the five required fields of the element resolves to nothing. *)
Definition lacks_a_field (poi_elem : element) : Prop :=
  exists tag_names,
    In tag_names required_tags
    /\ import_poi.present (import_poi.get_xml_text poi_elem tag_names) = false.

(** An XML document whose records are named [place]: no [poi], no
    [point_of_interest]. *)
Definition places : element :=
  Element "places" None
    [Element "place" None
       [Element "pid" (Some "id1") []; Element "pname" (Some "Cafe") []]].

(** A [poi] element with the five required fields, and one without a
    name. *)
Definition cafe_element : element :=
  Element "poi" None
    [Element "pid" (Some "id1") []; Element "pname" (Some "Cafe") [];
     Element "platitude" (Some "40.0") [];
     Element "plongitude" (Some "-73.0") [];
     Element "pcategory" (Some "food") []].

Definition nameless_element : element :=
  Element "poi" None
    [Element "pid" (Some "id2") [];
     Element "platitude" (Some "40.0") [];
     Element "plongitude" (Some "-73.0") [];
     Element "pcategory" (Some "food") []].

(** The document [<pois>] with the given [poi] elements. *)
Definition pois (poi_elements : list element) : element :=
  Element "pois" None poi_elements.

(** A value that is true and cannot be iterated: a number other than zero,
    or [True]. *)
Definition scalar_ratings (v : value) : Prop :=
  Py.truthy v = true
  /\ match v with
     | VInt _ | VFloat _ | VBool _ => True
     | _ => False
     end.

(* ================================================================== *)
(** * Properties *)

Import import_poi.

(** ** Strings *)

Section StringFacts.

Variable p : ascii -> bool.

Lemma append_empty_r (s : string) : s ++ "" = s.
Proof. induction s; simpl; congruence. Qed.

Lemma append_assoc (a b c : string) : (a ++ b) ++ c = a ++ b ++ c.
Proof. induction a; simpl; congruence. Qed.

Lemma is_empty_true (s : string) : Str.is_empty s = true -> s = "".
Proof. destruct s; simpl; congruence. Qed.

Lemma lstrip_by_all (s t : string) :
  all_chars p s = true -> Str.lstrip_by p (s ++ t) = Str.lstrip_by p t.
Proof.
  induction s as [|c s IH]; simpl; [reflexivity|].
  intros H. apply andb_prop in H as [Hc Hs]. rewrite Hc. auto.
Qed.

Lemma lstrip_by_all_empty (s : string) :
  all_chars p s = true -> Str.lstrip_by p s = "".
Proof.
  intros H. rewrite <- (append_empty_r s). rewrite lstrip_by_all; auto.
Qed.

Lemma rstrip_by_all_empty (s : string) :
  all_chars p s = true -> Str.rstrip_by p s = "".
Proof.
  induction s as [|c s IH]; simpl; [reflexivity|].
  intros H. apply andb_prop in H as [Hc Hs].
  rewrite IH by assumption. simpl. rewrite Hc. reflexivity.
Qed.

Lemma rstrip_by_all (s t : string) :
  all_chars p t = true -> Str.rstrip_by p (s ++ t) = Str.rstrip_by p s.
Proof.
  intros Ht. induction s as [|c s IH]; simpl.
  - apply rstrip_by_all_empty; assumption.
  - rewrite IH. reflexivity.
Qed.

(** Stripping on the left leaves a suffix, on the right a prefix. *)
Lemma lstrip_by_suffix (s : string) :
  exists before, s = before ++ Str.lstrip_by p s /\ all_chars p before = true.
Proof.
  induction s as [|c s [b [IH Hb]]]; simpl.
  - exists "". auto.
  - destruct (p c) eqn:Hc.
    + exists (String c b). simpl. rewrite Hc, Hb. split; [congruence | reflexivity].
    + exists "". auto.
Qed.

Lemma rstrip_by_prefix (s : string) :
  exists after, s = Str.rstrip_by p s ++ after /\ all_chars p after = true.
Proof.
  induction s as [|c s [a [IH Ha]]]; simpl.
  - exists "". auto.
  - destruct (Str.is_empty (Str.rstrip_by p s)) eqn:He; simpl.
    + destruct (p c) eqn:Hc.
      * apply is_empty_true in He. rewrite He in IH. simpl in IH.
        exists (String c a). simpl. rewrite Hc, Ha. split; [congruence | reflexivity].
      * exists a. split; [simpl; congruence | assumption].
    + exists a. split; [simpl; congruence | assumption].
Qed.

Lemma strip_by_middle (s : string) :
  exists before after,
    s = before ++ Str.strip_by p s ++ after
    /\ all_chars p before = true /\ all_chars p after = true.
Proof.
  destruct (lstrip_by_suffix s) as [b [Hb Hb']].
  destruct (rstrip_by_prefix (Str.lstrip_by p s)) as [a [Ha Ha']].
  exists b, a. unfold Str.strip_by. split; [|auto].
  rewrite <- Ha. exact Hb.
Qed.

(** Characters that [p] rejects everywhere are left alone. *)
Lemma lstrip_by_none (s : string) :
  (forall c, Str.mem c s = true -> p c = false) -> Str.lstrip_by p s = s.
Proof.
  destruct s as [|c s]; simpl; [reflexivity|].
  intros H. rewrite (H c); [reflexivity|].
  rewrite Ascii.eqb_refl. reflexivity.
Qed.

Lemma rstrip_by_none (s : string) :
  (forall c, Str.mem c s = true -> p c = false) -> Str.rstrip_by p s = s.
Proof.
  induction s as [|c s IH]; simpl; [reflexivity|].
  intros H. rewrite IH.
  - rewrite (H c), andb_false_r; [reflexivity|].
    rewrite Ascii.eqb_refl. reflexivity.
  - intros d Hd. apply H. rewrite Hd. apply orb_true_r.
Qed.

(** What remains after stripping both ends neither starts nor ends with
    a character that [p] accepts. *)
Lemma lstrip_by_head (s : string) c rest :
  Str.lstrip_by p s = String c rest -> p c = false.
Proof.
  induction s as [|d s IH]; simpl; [discriminate|].
  destruct (p d) eqn:Hd; [exact IH|].
  intros H. injection H as -> _. exact Hd.
Qed.

Lemma rstrip_by_head (s : string) c rest :
  Str.rstrip_by p s = String c rest ->
  exists rest', s = String c rest'.
Proof.
  destruct s as [|d s]; simpl; [discriminate|].
  destruct (Str.is_empty (Str.rstrip_by p s) && p d); [discriminate|].
  intros H. injection H as -> _. eauto.
Qed.

Lemma rstrip_by_last (s : string) c :
  last_char (Str.rstrip_by p s) = Some c -> p c = false.
Proof.
  induction s as [|d s IH]; simpl; [discriminate|].
  destruct (Str.rstrip_by p s) as [|e r] eqn:E; simpl.
  - destruct (p d) eqn:Hd; simpl; [discriminate|].
    intros H. injection H as <-. exact Hd.
  - exact IH.
Qed.

End StringFacts.

Lemma all_chars_app p (s t : string) :
  all_chars p (s ++ t) = all_chars p s && all_chars p t.
Proof.
  induction s as [|c s IH]; simpl; [reflexivity|].
  rewrite IH. apply andb_assoc.
Qed.

Lemma all_chars_mem p (s : string) c :
  all_chars p s = true -> Str.mem c s = true -> p c = true.
Proof.
  induction s as [|d s IH]; simpl; [discriminate|].
  intros H Hc. apply andb_prop in H as [Hd Hs].
  apply orb_prop in Hc as [Hc|Hc]; [|auto].
  apply Ascii.eqb_eq in Hc. congruence.
Qed.

Lemma mem_app c (s t : string) :
  Str.mem c (s ++ t) = Str.mem c s || Str.mem c t.
Proof.
  induction s as [|d s IH]; simpl; [reflexivity|].
  rewrite IH. apply orb_assoc.
Qed.

Lemma lstrip_by_app p (s t : string) :
  Str.lstrip_by p (s ++ t) =
  if Str.is_empty (Str.lstrip_by p s) then Str.lstrip_by p t
  else Str.lstrip_by p s ++ t.
Proof.
  induction s as [|c s IH]; simpl; [reflexivity|].
  destruct (p c); [exact IH | reflexivity].
Qed.

(** Characters that [p] accepts, put before and after, do not change what
    stripping leaves. *)
Lemma strip_by_wrapped p (before s after : string) :
  all_chars p before = true -> all_chars p after = true ->
  Str.strip_by p (before ++ s ++ after) = Str.strip_by p s.
Proof.
  intros Hb Ha. unfold Str.strip_by.
  rewrite lstrip_by_all by assumption. rewrite lstrip_by_app.
  destruct (Str.is_empty (Str.lstrip_by p s)) eqn:E.
  - apply is_empty_true in E. rewrite E.
    rewrite lstrip_by_all_empty by assumption. reflexivity.
  - apply rstrip_by_all. assumption.
Qed.

Lemma strip_by_empty_all p (s : string) :
  Str.strip_by p s = "" -> all_chars p s = true.
Proof.
  intros E. destruct (strip_by_middle p s) as [b [a [H [Hb Ha]]]].
  rewrite E in H. simpl in H. rewrite H, all_chars_app, Hb, Ha. reflexivity.
Qed.

(** ** Substrings *)

Lemma substring_of_trans (a b c : string) :
  Str.substring_of a b -> Str.substring_of b c -> Str.substring_of a c.
Proof.
  intros [x [y ->]] [u [v ->]]. exists (u ++ x), (y ++ v).
  rewrite !append_assoc. reflexivity.
Qed.

Lemma strip_by_substring p (s : string) :
  Str.substring_of (Str.strip_by p s) s.
Proof.
  destruct (strip_by_middle p s) as [b [a [H _]]]. exists b, a. exact H.
Qed.

Lemma substring_of_mem c (s t : string) :
  Str.substring_of s t -> Str.mem c t = false -> Str.mem c s = false.
Proof.
  intros [b [a ->]]. rewrite !mem_app. intros H.
  apply orb_false_elim in H as [_ H]. apply orb_false_elim in H as [H _].
  exact H.
Qed.

Lemma split_nonempty sep (s : string) : Str.split sep s <> [].
Proof.
  destruct s as [|c s]; simpl; [discriminate|].
  destruct (Ascii.eqb c sep); [discriminate|].
  destruct (Str.split sep s); discriminate.
Qed.

(** Each piece of [s.split(sep)] is a run of [s] without the separator;
    the first piece starts [s]. *)
Lemma split_first sep (s : string) :
  exists hd tl,
    Str.split sep s = hd :: tl
    /\ (exists after, s = hd ++ after) /\ Str.mem sep hd = false
    /\ forall piece, In piece tl ->
         Str.substring_of piece s /\ Str.mem sep piece = false.
Proof.
  induction s as [|c s (hd & tl & Es & [a Ha] & Hm & Htl)]; simpl.
  - exists "", []. repeat split; try easy. exists "". reflexivity.
  - assert (Hall : forall piece, In piece (hd :: tl) ->
              Str.substring_of piece (String c s) /\ Str.mem sep piece = false).
    { intros piece [<-|H].
      - split; [|exact Hm]. exists (String c ""), a. simpl. congruence.
      - destruct (Htl _ H) as [[x [y Hs]] Hp]. split; [|exact Hp].
        exists (String c x), y. simpl. congruence. }
    destruct (Ascii.eqb c sep) eqn:Ec.
    + exists "", (Str.split sep s). repeat split; try easy.
      * exists (String c s). reflexivity.
      * rewrite Es in H. apply Hall in H. apply H.
      * rewrite Es in H. apply Hall in H. apply H.
    + rewrite Es. exists (String c hd), tl. repeat split.
      * exists a. simpl. congruence.
      * simpl. rewrite Ascii.eqb_sym, Ec. exact Hm.
      * apply Hall. right. assumption.
      * apply Hall. right. assumption.
Qed.

Lemma split_pieces sep (s piece : string) :
  In piece (Str.split sep s) ->
  Str.substring_of piece s /\ Str.mem sep piece = false.
Proof.
  destruct (split_first sep s) as (hd & tl & Es & [a Ha] & Hm & Htl).
  rewrite Es. intros [<-|H]; [|auto].
  split; [|exact Hm]. exists "", a. exact Ha.
Qed.

Lemma split_no_sep sep (s : string) :
  Str.mem sep s = false -> Str.split sep s = [s].
Proof.
  induction s as [|c s IH]; simpl; [reflexivity|].
  intros H. apply orb_false_elim in H as [Hc Hs].
  rewrite Ascii.eqb_sym, Hc, (IH Hs). reflexivity.
Qed.

(** ** The ratings parser *)

Lemma float_of_str_raises (s : string) e :
  float_.of_str s = Raise e -> e = ValueError.
Proof.
  unfold float_.of_str.
  destruct (float_.underscores_ok None _); [|congruence].
  destruct (Lit.take_sign _) as [negative body].
  destruct (Lit.parse_number body) as [[c x]|]; [discriminate|].
  destruct (_ || _); [discriminate|].
  destruct (String.eqb _ _); [discriminate | congruence].
Qed.

(** One piece either adds its float or leaves the list alone. *)
Lemma parse_rating_cases (rating : string) ratings :
  (exists f, Str.strip rating <> "" /\ float_.of_str (Str.strip rating) = Ok f
             /\ parse_rating rating ratings = Ok (ratings ++ [f])%list)
  \/ parse_rating rating ratings = Ok ratings.
Proof.
  unfold parse_rating.
  destruct (Str.strip rating) as [|c r] eqn:Es; simpl; [right; reflexivity|].
  destruct (float_.of_str (String c r)) as [f|e] eqn:Ef; simpl.
  - left. exists f. repeat split; congruence.
  - right. rewrite (float_of_str_raises _ _ Ef). reflexivity.
Qed.

Lemma parse_ratings_loop_spec pieces : forall ratings,
  exists out,
    parse_ratings_loop pieces ratings = Ok out
    /\ forall v, In v out ->
         In v ratings
         \/ exists piece, In piece pieces
              /\ float_.of_str (Str.strip piece) = Ok v.
Proof.
  induction pieces as [|piece pieces IH]; intros ratings; simpl.
  - exists ratings. auto.
  - destruct (parse_rating_cases piece ratings) as [(f & _ & Hf & ->) | ->];
      simpl.
    + destruct (IH (ratings ++ [f])%list) as (out & -> & Hout).
      exists out. split; [reflexivity|].
      intros v Hv. destruct (Hout v Hv) as [H | (p' & Hp & Hv')].
      * apply in_app_or in H as [H | [<- | []]]; [auto|].
        right. exists piece. auto.
      * right. exists p'. auto.
    + destruct (IH ratings) as (out & -> & Hout).
      exists out. split; [reflexivity|].
      intros v Hv. destruct (Hout v Hv) as [H | (p' & Hp & Hv')]; [auto|].
      right. exists p'. auto.
Qed.

Lemma isspace_not_bracket c : Str.isspace c = true -> is_bracket c = false.
Proof.
  destruct c as [[] [] [] [] [] [] [] []]; vm_compute; congruence.
Qed.

Lemma parse_ratings_blank (s : string) :
  Str.strip s = "" -> parse_ratings s = Ok [].
Proof.
  intros E. pose proof (strip_by_empty_all _ _ E) as Hall.
  unfold parse_ratings. destruct (Str.is_empty s) eqn:Hs; [reflexivity|].
  assert (Hb : Str.strip_chars s brackets = s).
  { unfold Str.strip_chars, Str.strip_by.
    assert (H : forall c, Str.mem c s = true -> Str.mem c brackets = false).
    { intros c Hc. apply isspace_not_bracket.
      exact (all_chars_mem _ _ _ Hall Hc). }
    rewrite lstrip_by_none by exact H. apply rstrip_by_none. exact H. }
  rewrite Hb, Hs. rewrite split_no_sep.
  - simpl. unfold parse_rating. rewrite E. reflexivity.
  - destruct (Str.mem "," s) eqn:Hc; [|reflexivity].
    pose proof (all_chars_mem _ _ _ Hall Hc) as H. discriminate H.
Qed.

(** C4. For every string [s], [parse_ratings s] returns a list and never
    raises; when [s] is empty or only whitespace the list is empty; and every
    float of the list is [float(token)] for a token of [s]: a run of [s]
    without a comma that [float] accepts. *)
Theorem C4_parse_ratings_never_raises :
  forall s : string,
    exists ratings,
      parse_ratings s = Ok ratings
      /\ (Str.strip s = "" -> ratings = [])
      /\ forall v, In v ratings ->
           exists token,
             Str.substring_of token s
             /\ Str.mem "," token = false
             /\ float_.of_str token = Ok v.
Proof.
  intros s.
  assert (H : exists ratings,
             parse_ratings s = Ok ratings
             /\ forall v, In v ratings ->
                  exists token,
                    Str.substring_of token s
                    /\ Str.mem "," token = false
                    /\ float_.of_str token = Ok v).
  { unfold parse_ratings.
    destruct (Str.is_empty s); [exists []; split; [reflexivity | intros v []]|].
    destruct (Str.is_empty (Str.strip_chars s brackets));
      [exists []; split; [reflexivity | intros v []]|].
    destruct (parse_ratings_loop_spec
                (Str.split "," (Str.strip_chars s brackets)) [])
      as (out & Hout & Hv).
    exists out. split; [exact Hout|].
    intros v Hin. destruct (Hv v Hin) as [[] | (piece & Hp & Hf)].
    apply split_pieces in Hp as [Hsub Hcomma].
    exists (Str.strip piece). repeat split.
    - apply substring_of_trans with piece; [apply strip_by_substring|].
      apply substring_of_trans with (Str.strip_chars s brackets);
        [exact Hsub | apply strip_by_substring].
    - apply substring_of_mem with piece;
        [apply strip_by_substring | exact Hcomma].
    - exact Hf. }
  destruct H as (ratings & Hr & Hv). exists ratings.
  split; [exact Hr|]. split; [|exact Hv].
  intros E. rewrite (parse_ratings_blank s E) in Hr. congruence.
Qed.

(** C5, as the code has it: [parse_ratings] strips every leading and every
    trailing bracket-like character, however many layers there are and
    whether or not they match, so brackets put around a ratings string do
    not change the result; what is split on commas neither starts nor ends
    with a bracket; for ["[[4,5]]"] it is ["4,5"]. *)
Theorem C5_parse_ratings_strips_all_brackets :
  forall before s after : string,
    all_chars is_bracket before = true ->
    all_chars is_bracket after = true ->
    parse_ratings (before ++ s ++ after) = parse_ratings s
    /\ Str.strip_chars (before ++ s ++ after) brackets
       = Str.strip_chars s brackets
    /\ (forall c rest, Str.strip_chars s brackets = String c rest ->
          is_bracket c = false)
    /\ (forall c, last_char (Str.strip_chars s brackets) = Some c ->
          is_bracket c = false).
Proof.
  intros before s after Hb Ha.
  assert (E : Str.strip_chars (before ++ s ++ after) brackets
              = Str.strip_chars s brackets).
  { apply (strip_by_wrapped is_bracket); assumption. }
  repeat split.
  - unfold parse_ratings. rewrite E.
    destruct (Str.is_empty (before ++ s ++ after)) eqn:E1.
    + apply is_empty_true in E1.
      destruct before; [|discriminate]. destruct s; [reflexivity|discriminate].
    + destruct (Str.is_empty s) eqn:E2; [|reflexivity].
      apply is_empty_true in E2. subst s. reflexivity.
  - exact E.
  - intros c rest H. unfold Str.strip_chars, Str.strip_by in H.
    destruct (rstrip_by_head _ _ _ _ H) as [rest' H'].
    exact (lstrip_by_head _ _ _ _ H').
  - intros c H. exact (rstrip_by_last _ _ _ H).
Qed.

(** The brackets of ["[[4,5]]"] are all stripped. *)
Lemma C5_parse_ratings_strips_all_brackets_witness :
  all_chars is_bracket "[[" = true
  /\ all_chars is_bracket "]]" = true
  /\ parse_ratings "[[4,5]]" = parse_ratings "4,5".
Proof.
  split; [reflexivity|]. split; [reflexivity|].
  exact (proj1 (C5_parse_ratings_strips_all_brackets
                  "[[" "4,5" "]]" eq_refl eq_refl)).
Defined.

(** C5 as stated fails: of ["[[4,5]]"] both layers of brackets go, the
    tokens are ["4"] and ["5"], and both ratings are parsed; had one layer
    remained, the tokens ["[4"] and ["5]"] would have been dropped. *)
Lemma C5_counterexample :
  Str.strip_chars "[[4,5]]" brackets = "4,5"
  /\ Str.split "," (Str.strip_chars "[[4,5]]" brackets) = ["4"; "5"]
  /\ parse_ratings "[[4,5]]" = Ok [4%float; 5%float]
  /\ parse_ratings "[4,5]" = Ok [4%float; 5%float]
  /\ float_.of_str "[4" = Raise ValueError
  /\ float_.of_str "5]" = Raise ValueError.
Proof. repeat split; reflexivity. Qed.

(** ** Field resolution in XML *)

Lemma has_text_some elem (t : string) :
  has_text elem = Some t <->
  exists child, elem = Some child /\ ET.text child = Some t /\ t <> "".
Proof.
  unfold has_text. split.
  - destruct elem as [child|]; [|discriminate].
    destruct (ET.text child) as [t'|] eqn:Et; [|discriminate].
    destruct t' as [|c r]; simpl; [discriminate|].
    intros H. injection H as <-. exists child.
    split; [reflexivity|]. split; [exact Et | discriminate].
  - intros (child & -> & -> & Ht). destruct t; [congruence | reflexivity].
Qed.

Lemma has_text_none elem :
  has_text elem = None <->
  elem = None
  \/ exists child, elem = Some child
       /\ (ET.text child = None \/ ET.text child = Some "").
Proof.
  unfold has_text. split.
  - destruct elem as [child|]; [|auto]. intros H. right. exists child.
    split; [reflexivity|].
    destruct (ET.text child) as [[|c r]|]; simpl in H; auto; discriminate H.
  - intros [-> | (child & -> & [-> | ->])]; reflexivity.
Qed.

(** C8, as the code has it: [get_xml_text] returns the stripped text of the
    first alias, in alias order, whose first matching child has text that is
    not empty; an alias with no child, or whose first child has no text,
    is passed over; the result is [None] when every alias is passed over.
    The text found is stripped after it was tested, so whitespace-only text
    gives the empty string, not [None].  In particular, with no [platitude]
    child, the latitude comes from the [latitude] child. *)
Theorem C8_get_xml_text_first_alias_with_text :
  (forall (e : element) (tag_names : list string),
      match get_xml_text e tag_names with
      | Some s =>
          exists before tag_name after child t,
            tag_names = (before ++ tag_name :: after)%list
            /\ (forall a, In a before -> has_text (ET.find e a) = None)
            /\ ET.find e tag_name = Some child
            /\ ET.text child = Some t /\ t <> ""
            /\ s = Str.strip t
      | None =>
          forall a, In a tag_names ->
            ET.find e a = None
            \/ exists child, ET.find e a = Some child
                 /\ (ET.text child = None \/ ET.text child = Some "")
      end)
  /\ (forall (e child : element) (t : string),
         ET.find e "platitude" = None ->
         ET.find e "latitude" = Some child ->
         ET.text child = Some t -> t <> "" ->
         get_xml_text e ["platitude"; "latitude"; "poi_latitude"]
         = Some (Str.strip t)).
Proof.
  split.
  - intros e tag_names. induction tag_names as [|a rest IH]; simpl.
    + intros a [].
    + destruct (has_text (ET.find e a)) as [t|] eqn:Ha.
      * apply has_text_some in Ha as (child & Hf & Ht & Hne).
        exists [], a, rest, child, t. repeat split; auto. intros ? [].
      * destruct (get_xml_text e rest) as [s|].
        -- destruct IH as (before & tag_name & after & child & t & IH).
           destruct IH as (-> & Hb & Hrest).
           exists (a :: before), tag_name, after, child, t.
           split; [reflexivity|]. split; [|exact Hrest].
           intros a' [<-|H]; auto.
        -- intros a' [<-|H]; [|auto]. apply has_text_none. exact Ha.
  - intros e child t Hp Hl Ht Hne. simpl. rewrite Hp, Hl. simpl.
    rewrite Ht. destruct t; [congruence | reflexivity].
Qed.

(** An element whose [latitude] child stands in for the missing
    [platitude]. *)
Lemma C8_get_xml_text_first_alias_with_text_witness :
  get_xml_text
    (Element "poi" None [Element "latitude" (Some " 40.7 ") []])
    ["platitude"; "latitude"; "poi_latitude"]
  = Some "40.7".
Proof.
  exact (proj2 C8_get_xml_text_first_alias_with_text
           (Element "poi" None [Element "latitude" (Some " 40.7 ") []])
           (Element "latitude" (Some " 40.7 ") []) " 40.7 "
           eq_refl eq_refl eq_refl
           (fun H : " 40.7 " = "" => eq_ind " 40.7 "
              (fun s => match s with EmptyString => False | String _ _ => True end)
              I "" H)).
Defined.

(** C8 as stated fails: for a matched child whose text is only whitespace
    the result is the empty string, not [None]; and a first alias whose
    child is empty does not end the search. *)
Lemma C8_counterexample :
  get_xml_text
    (Element "poi" None [Element "pid" (Some "   ") []])
    ["pid"; "id"; "poi_id"]
  = Some ""
  /\ get_xml_text
       (Element "poi" None
          [Element "pid" None []; Element "id" (Some "7") []])
       ["pid"; "id"; "poi_id"]
     = Some "7".
Proof. split; reflexivity. Qed.

(** ** The average rating *)

Lemma map_ok_length {A B} (f : A -> result B) xs ys :
  Res.map f xs = Ok ys -> List.length ys = List.length xs.
Proof.
  revert ys. induction xs as [|x xs IH]; simpl; intros ys H.
  - injection H as <-. reflexivity.
  - destruct (f x); [|discriminate]. simpl in H.
    destruct (Res.map f xs); [|discriminate]. simpl in H.
    injection H as <-. simpl. f_equal. apply IH. reflexivity.
Qed.

Lemma map_ok_each {A B} (f : A -> result B) xs ys x :
  Res.map f xs = Ok ys -> In x xs -> exists y, f x = Ok y.
Proof.
  revert ys. induction xs as [|x' xs IH]; simpl; intros ys H Hin; [easy|].
  destruct (f x') eqn:Ex; [|discriminate]. simpl in H.
  destruct (Res.map f xs); [|discriminate].
  destruct Hin as [<-|Hin]; eauto.
Qed.

Lemma map_raise_some {A B} (f : A -> result B) xs e :
  Res.map f xs = Raise e -> exists x, In x xs /\ f x = Raise e.
Proof.
  induction xs as [|x xs IH]; simpl; [discriminate|].
  destruct (f x) eqn:Ex; simpl.
  - destruct (Res.map f xs); [discriminate|]. simpl. intros H.
    destruct (IH H) as (x' & Hin & Hx). eauto.
  - intros H. injection H as <-. eauto.
Qed.

(** Lines 63-73 of [save] on a list, by how the conversion of its entries
    that are not [None] ends. *)
Lemma calculated_avg_rating_list items :
  models.calculated_avg_rating (VList items) =
  match Res.map Builtin.float (non_null items) with
  | Ok [] => Ok None
  | Ok ratings => Ok (Some (mean ratings))
  | Raise e => if is_ValueError e || is_TypeError e then Ok None else Raise e
  end.
Proof.
  unfold models.calculated_avg_rating. destruct items as [|r items].
  - reflexivity.
  - cbn [Py.truthy Py.iterate Res.bind Res.try_except]. fold (non_null (r :: items)).
    destruct (Res.map Builtin.float (non_null (r :: items))) as [[|f fs]|e];
      reflexivity.
Qed.

Lemma rating_count_list self items :
  ratings_data self = VList items ->
  models.rating_count self = Ok (List.length (non_null items)).
Proof.
  intros E. unfold models.rating_count. rewrite E.
  destruct items; reflexivity.
Qed.

Lemma numbers_convert items :
  Forall number_or_null items ->
  exists ratings, Res.map Builtin.float (non_null items) = Ok ratings.
Proof.
  induction 1 as [|r items Hr _ [ratings IH]]; simpl.
  - exists []. reflexivity.
  - destruct Hr as [|f|z f Hz]; simpl.
    + exists ratings. exact IH.
    + fold (non_null items). rewrite IH. exists (f :: ratings). reflexivity.
    + fold (non_null items). rewrite Hz, IH. exists (f :: ratings). reflexivity.
Qed.

(** C6, as the code has it: for a ratings sequence whose entries other than
    [None] convert to a float, as floats, and integers within the range of a
    float, do: the count is the number of entries that are not [None], and
    the average is [None] when there are none and their arithmetic mean
    otherwise; absent ratings count 0 with no average; [[]] gives
    [(None, 0)] and [[4, None, 2]] gives [(3.0, 2)]. *)
Theorem C6_count_and_mean_of_non_null_ratings :
  (forall (self : PointOfInterest) items ratings,
      ratings_data self = VList items ->
      Res.map Builtin.float (non_null items) = Ok ratings ->
      models.rating_count self = Ok (List.length (non_null items))
      /\ List.length ratings = List.length (non_null items)
      /\ models.calculated_avg_rating (ratings_data self)
         = Ok (match non_null items with
               | [] => None
               | _ => Some (mean ratings)
               end))
  /\ (forall items,
         Forall number_or_null items ->
         exists ratings, Res.map Builtin.float (non_null items) = Ok ratings)
  /\ (forall self : PointOfInterest,
         ratings_data self = VNone ->
         models.rating_count self = Ok 0
         /\ models.calculated_avg_rating (ratings_data self) = Ok None)
  /\ (models.calculated_avg_rating (VList []) = Ok None
      /\ models.rating_count (cafe (VList [])) = Ok 0)
  /\ (models.calculated_avg_rating (VList [VInt 4; VNone; VInt 2])
      = Ok (Some 3%float)
      /\ models.rating_count (cafe (VList [VInt 4; VNone; VInt 2])) = Ok 2).
Proof.
  split; [|split; [exact numbers_convert|split; [|split; split; reflexivity]]].
  - intros self items ratings E Hmap.
    split; [exact (rating_count_list self items E)|].
    pose proof (map_ok_length _ _ _ Hmap) as Hlen.
    split; [exact Hlen|].
    rewrite E, calculated_avg_rating_list, Hmap.
    destruct ratings as [|f fs]; destruct (non_null items) as [|r rs];
      try discriminate Hlen; reflexivity.
  - intros self E. unfold models.rating_count. rewrite E. split; reflexivity.
Qed.

(** The ratings [[4, None, 2]] of the specification. *)
Lemma C6_count_and_mean_of_non_null_ratings_witness :
  models.rating_count (cafe (VList [VInt 4; VNone; VInt 2])) = Ok 2
  /\ List.length [4%float; 2%float] = 2
  /\ models.calculated_avg_rating (VList [VInt 4; VNone; VInt 2])
     = Ok (Some (mean [4%float; 2%float])).
Proof.
  exact (proj1 C6_count_and_mean_of_non_null_ratings
           (cafe (VList [VInt 4; VNone; VInt 2]))
           [VInt 4; VNone; VInt 2] [4%float; 2%float] eq_refl eq_refl).
Defined.

(** C6 as stated fails: the ratings [[4, 2 ** 1024]] are a sequence of two
    numbers, and the count is 2; but [float(2 ** 1024)] raises
    [OverflowError], which [save] does not catch: there is no average, and
    no mean of the two entries, since [save] raises. *)
Lemma C6_counterexample :
  models.rating_count (cafe (VList [VInt 4; VInt (2 ^ 1024)])) = Ok 2
  /\ Builtin.float (VInt (2 ^ 1024)) = Raise OverflowError
  /\ models.calculated_avg_rating (VList [VInt 4; VInt (2 ^ 1024)])
     = Raise OverflowError
  /\ models.save bare_env (cafe (VList [VInt 4; VInt (2 ^ 1024)])) empty_world
     = (Raise OverflowError, empty_world).
Proof. repeat split; reflexivity. Qed.

(** [save] step by step: the average, then the row, which is written, or
    refused with the transaction marked. *)
Lemma save_spec env self w :
  models.save env self w =
  match models.calculated_avg_rating (ratings_data self) with
  | Raise e => (Raise e, w)
  | Ok avg =>
      match refusal env (set_avg_rating self avg) (needs_rollback w) with
      | Some e => (Raise e, marked w)
      | None =>
          (Ok (set_avg_rating self avg),
           {| table := (table w ++ [set_avg_rating self avg])%list;
              stdout := stdout w;
              in_atomic_block := in_atomic_block w;
              needs_rollback := needs_rollback w |})
      end
  end.
Proof.
  unfold models.save, models.Model_save, models.insert, refusal,
    Cmd.mark_for_rollback_on_error, Cmd.validate_no_broken_transaction,
    Cmd.bind, Cmd.lift, Cmd.ret, Cmd.raise.
  destruct (models.calculated_avg_rating (ratings_data self)); [|reflexivity].
  destruct (db_insert_error env _) as [e|].
  - destruct (is_DatabaseError e); [|reflexivity].
    destruct w as [rows lines block []]; reflexivity.
  - destruct w as [rows lines block []]; reflexivity.
Qed.

(** C7, as the code has it: on every [save] that returns, [avg_rating] is
    recomputed from [ratings_data] alone, whatever it was set to before, and
    the row written has it.  For a list of ratings it is [None] exactly when
    no entry is other than [None] or some such entry does not convert to a
    float: one entry that does not parse makes the average [None] whatever
    the others are.  When every such entry converts and there is one, it is
    their mean. *)
Theorem C7_avg_rating_recomputed_on_save :
  forall env (self self' : PointOfInterest) (w w' : world),
    models.save env self w = (Ok self', w') ->
    models.calculated_avg_rating (ratings_data self) = Ok (avg_rating self')
    /\ self' = set_avg_rating self (avg_rating self')
    /\ table w' = (table w ++ [self'])%list
    /\ (forall x, models.save env (set_avg_rating self x) w = (Ok self', w'))
    /\ forall items,
         ratings_data self = VList items ->
         (avg_rating self' = None <->
          non_null items = []
          \/ exists r, In r (non_null items)
               /\ forall f, Builtin.float r <> Ok f)
         /\ (forall ratings,
               Res.map Builtin.float (non_null items) = Ok ratings ->
               ratings <> [] ->
               avg_rating self' = Some (mean ratings)).
Proof.
  intros env self self' w w' H.
  assert (Hx : forall x, models.save env (set_avg_rating self x) w
                         = models.save env self w).
  { intros x. rewrite !save_spec. reflexivity. }
  rewrite save_spec in H.
  destruct (models.calculated_avg_rating (ratings_data self)) as [avg|e] eqn:Ec;
    [|discriminate].
  destruct (refusal env (set_avg_rating self avg) (needs_rollback w)) eqn:Ed;
    [discriminate|].
  injection H as <- <-. cbn [avg_rating set_avg_rating table].
  split; [reflexivity|]. split; [reflexivity|]. split; [reflexivity|].
  split.
  { intros x. rewrite Hx, save_spec, Ec, Ed. reflexivity. }
  intros items E. rewrite E, calculated_avg_rating_list in Ec.
  destruct (Res.map Builtin.float (non_null items)) as [ratings|e] eqn:Hmap.
  - split.
    + destruct ratings as [|f fs]; injection Ec as <-.
      * split; [|reflexivity]. intros _. left.
        apply map_ok_length in Hmap.
        destruct (non_null items); [reflexivity | discriminate].
      * split; [discriminate|]. intros [Hnil | (r & Hin & Hr)].
        -- rewrite Hnil in Hmap. discriminate.
        -- destruct (map_ok_each _ _ _ r Hmap Hin) as [y Hy].
           exfalso. exact (Hr y Hy).
    + intros ratings' Hr Hne. injection Hr as <-.
      destruct ratings; [congruence|]. congruence.
  - split; [|discriminate].
    destruct (is_ValueError e || is_TypeError e); [|discriminate].
    injection Ec as <-. split; [|reflexivity]. intros _. right.
    destruct (map_raise_some _ _ _ Hmap) as (r & Hin & Hr).
    exists r. split; [exact Hin|]. congruence.
Qed.

(** Saving a cafe rated [[4, None, 2]]. *)
Lemma C7_avg_rating_recomputed_on_save_witness :
  models.calculated_avg_rating (VList [VInt 4; VNone; VInt 2])
  = Ok (Some 3%float)
  /\ table (snd (models.save bare_env (cafe (VList [VInt 4; VNone; VInt 2]))
                   empty_world))
     = [set_avg_rating (cafe (VList [VInt 4; VNone; VInt 2])) (Some 3%float)].
Proof.
  pose proof (C7_avg_rating_recomputed_on_save bare_env
                (cafe (VList [VInt 4; VNone; VInt 2]))
                (set_avg_rating (cafe (VList [VInt 4; VNone; VInt 2]))
                   (Some 3%float))
                empty_world
                (snd (models.save bare_env
                        (cafe (VList [VInt 4; VNone; VInt 2])) empty_world))
                eq_refl) as H.
  exact (conj (proj1 H) (proj1 (proj2 (proj2 H)))).
Defined.

(** C7 as stated fails: with ratings [[4, "abc"]] the entry [4] parses, yet
    [save] leaves [avg_rating] at [None]. *)
Lemma C7_counterexample :
  Builtin.float (VInt 4) = Ok 4%float
  /\ Builtin.float (VStr "abc") = Raise ValueError
  /\ models.save bare_env (cafe (VList [VInt 4; VStr "abc"])) empty_world
     = (Ok (set_avg_rating (cafe (VList [VInt 4; VStr "abc"])) None),
        idle [set_avg_rating (cafe (VList [VInt 4; VStr "abc"])) None] []).
Proof. repeat split; reflexivity. Qed.

(** ** Adapter selection *)

Lemma lower_char_dot d : Ascii.eqb (Str.lower_char d) "." = Ascii.eqb d ".".
Proof. destruct d as [[] [] [] [] [] [] [] []]; reflexivity. Qed.

Lemma lower_char_slash d : Ascii.eqb (Str.lower_char d) "/" = Ascii.eqb d "/".
Proof. destruct d as [[] [] [] [] [] [] [] []]; reflexivity. Qed.

Lemma rfind_from_lower c (s : string) :
  (forall d, Ascii.eqb (Str.lower_char d) c = Ascii.eqb d c) ->
  forall i found,
    Str.rfind_from c (Str.lower s) i found = Str.rfind_from c s i found.
Proof.
  intros Hc. induction s as [|d s IH]; intros i found; simpl; [reflexivity|].
  rewrite Hc. apply IH.
Qed.

Lemma get_lower (s : string) : forall i,
  String.get i (Str.lower s) = option_map Str.lower_char (String.get i s).
Proof.
  induction s as [|d s IH]; intros [|i]; simpl; auto.
Qed.

Lemma has_name_before_dot_lower (p : string) n : forall i,
  os_path.has_name_before_dot (Str.lower p) i n
  = os_path.has_name_before_dot p i n.
Proof.
  induction n as [|n IH]; intros i; simpl; [reflexivity|].
  rewrite get_lower. destruct (String.get i p) as [c|]; simpl; [|reflexivity].
  rewrite lower_char_dot, IH. reflexivity.
Qed.

Lemma take_lower n : forall s : string,
  Str.take n (Str.lower s) = Str.lower (Str.take n s).
Proof.
  induction n as [|n IH]; intros [|c s]; simpl; try reflexivity.
  rewrite IH. reflexivity.
Qed.

Lemma drop_lower n : forall s : string,
  Str.drop n (Str.lower s) = Str.lower (Str.drop n s).
Proof.
  induction n as [|n IH]; intros [|c s]; simpl; try reflexivity. apply IH.
Qed.

(** Lowering a path lowers both parts that [splitext] returns. *)
Lemma splitext_lower (p : string) :
  os_path.splitext (Str.lower p) =
  (Str.lower (fst (os_path.splitext p)), Str.lower (snd (os_path.splitext p))).
Proof.
  unfold os_path.splitext, Str.rfind.
  rewrite !rfind_from_lower by (apply lower_char_dot || apply lower_char_slash).
  destruct (_ <? _)%Z; [|reflexivity].
  rewrite has_name_before_dot_lower.
  destruct (os_path.has_name_before_dot _ _ _); [|reflexivity].
  simpl. rewrite take_lower, drop_lower. reflexivity.
Qed.

(** C10. The adapter is chosen by the extension of the path in lower case:
    [import_file] runs [import_csv], [import_json] or [import_xml] on the
    path as given when its extension, whatever the case of its letters,
    lowers to [.csv], [.json] or [.xml], and raises the unsupported-format
    error with the lowered extension otherwise; so [.CSV], [.Json] and
    [.XML] are dispatched. *)
Theorem C10_adapter_by_extension_ignores_case :
  (forall env (file_path : string),
      let ext := Str.lower (snd (os_path.splitext file_path)) in
      import_file env file_path =
      if String.eqb ext ".csv" then import_csv env file_path
      else if String.eqb ext ".json" then import_json env file_path
      else if String.eqb ext ".xml" then import_xml env file_path
      else Cmd.raise (CommandError (UnsupportedFileFormat ext)))
  /\ (forall env, import_file env "data/pois.CSV" = import_csv env "data/pois.CSV")
  /\ (forall env, import_file env "pois.Json" = import_json env "pois.Json")
  /\ (forall env, import_file env "POIS.XML" = import_xml env "POIS.XML").
Proof.
  split; [|repeat split; reflexivity].
  intros env file_path ext. unfold import_file.
  rewrite splitext_lower. reflexivity.
Qed.

(** ** Rows and the transaction *)

Lemma extend_nil w : extend w [] [] = w.
Proof. destruct w. unfold extend. simpl. rewrite !app_nil_r. reflexivity. Qed.

Lemma extend_extend w new msgs new' msgs' :
  extend (extend w new msgs) new' msgs'
  = extend w (new ++ new')%list (msgs ++ msgs')%list.
Proof. unfold extend. simpl. rewrite !app_assoc. reflexivity. Qed.

Lemma extend_rows w new :
  {| table := (table w ++ new)%list;
     stdout := stdout w;
     in_atomic_block := in_atomic_block w;
     needs_rollback := needs_rollback w |} = extend w new [].
Proof. unfold extend. rewrite app_nil_r. reflexivity. Qed.

Lemma write_extend msg w : Cmd.write msg w = (Ok tt, extend w [] [msg]).
Proof. unfold Cmd.write, extend. rewrite app_nil_r. reflexivity. Qed.

(** Inside an atomic block the mark is set; in a transaction that already
    waits for a rollback it changes nothing. *)
Lemma marked_in_block w :
  in_atomic_block w = true -> needs_rollback (marked w) = true.
Proof. intros H. unfold marked. simpl. rewrite H. apply orb_true_r. Qed.

Lemma marked_broken w : needs_rollback w = true -> marked w = w.
Proof. destruct w. simpl. intros ->. reflexivity. Qed.

Lemma refusal_in_order env r :
  refusal env r false
  = db_insert_error env r.
Proof.
  unfold refusal. destruct (db_insert_error env r); [|reflexivity].
  rewrite andb_false_r. reflexivity.
Qed.

Lemma refusal_refusing env r w e :
  refusal env r (needs_rollback w) = Some e -> refusing env w.
Proof.
  unfold refusal, refusing. destruct (db_insert_error env r) eqn:E.
  - intros _. right. exists r. congruence.
  - destruct (needs_rollback w); [auto | discriminate].
Qed.

(** [save] in a transaction that is in order. *)
Lemma save_saved env poi w :
  needs_rollback w = false ->
  models.save env poi w =
  match saved env poi with
  | Ok poi' => (Ok poi', extend w [poi'] [])
  | Raise e =>
      (Raise e,
       match models.calculated_avg_rating (ratings_data poi) with
       | Ok _ => marked w
       | Raise _ => w
       end)
  end.
Proof.
  intros Hw. rewrite save_spec. unfold saved.
  destruct (models.calculated_avg_rating (ratings_data poi)); [|reflexivity].
  rewrite Hw, refusal_in_order.
  destruct (db_insert_error env _); [reflexivity|].
  rewrite <- extend_rows, Hw. reflexivity.
Qed.

(** The body of each of the three loops, by what was built. *)
Lemma counted_save_outcome env (built : result (option PointOfInterest))
      classes (line : exn -> message) n w :
  Cmd.try_except
    (Cmd.bind (Cmd.lift built)
       (fun found =>
          match found with
          | None => Cmd.ret n
          | Some poi =>
              Cmd.bind (models.save env poi) (fun _ => Cmd.ret (n + 1)%nat)
          end))
    classes
    (fun e => Cmd.bind (Cmd.write (line e)) (fun _ => Cmd.ret n))
    w
  = row_outcome env built classes line n w.
Proof.
  assert (Hh : forall e w',
             (if classes e
              then Cmd.bind (Cmd.write (line e)) (fun _ => Cmd.ret n) w'
              else (Raise e, w'))
             = on_raise classes (line e) e n w').
  { intros e w'. unfold on_raise, Cmd.bind. rewrite write_extend.
    reflexivity. }
  unfold Cmd.try_except, Cmd.bind at 1, Cmd.lift, row_outcome.
  destruct built as [[poi|]|e]; [|reflexivity|apply Hh].
  unfold Cmd.bind at 1. rewrite save_spec.
  destruct (models.calculated_avg_rating (ratings_data poi)); [|apply Hh].
  destruct (refusal env _ _); [apply Hh|].
  rewrite extend_rows. reflexivity.
Qed.

Lemma import_csv_row_outcome env row n w :
  import_csv_row env row n w =
  row_outcome env (Res.bind (csv_poi row) (fun poi => Ok (Some poi)))
    skips (SkippingInvalidCsvRow row) n w.
Proof.
  rewrite <- counted_save_outcome. unfold import_csv_row.
  unfold Cmd.try_except, Cmd.bind, Cmd.lift.
  destruct (csv_poi row); reflexivity.
Qed.

Lemma import_json_item_outcome env item n w :
  import_json_item env item n w =
  row_outcome env (Res.bind (json_poi env item) (fun poi => Ok (Some poi)))
    skips (SkippingInvalidJsonItem item) n w.
Proof.
  rewrite <- counted_save_outcome. unfold import_json_item.
  unfold Cmd.try_except, Cmd.bind, Cmd.lift.
  destruct (json_poi env item); reflexivity.
Qed.

Lemma import_xml_element_outcome env poi_elem n w :
  import_xml_element env poi_elem n w =
  row_outcome env (xml_poi poi_elem) skips_xml
    (fun e => SkippingInvalidXmlElement e) n w.
Proof.
  exact (counted_save_outcome env (xml_poi poi_elem) skips_xml
           (fun e => SkippingInvalidXmlElement e) n w).
Qed.

(** A row that is built and that [save] accepts, in a transaction in order,
    is inserted and counted. *)
Lemma row_outcome_saved env (built : result PointOfInterest) poi'
      classes line n w :
  needs_rollback w = false ->
  Res.bind built (saved env) = Ok poi' ->
  row_outcome env (Res.bind built (fun poi => Ok (Some poi))) classes line n w
  = (Ok (n + 1)%nat, extend w [poi'] []).
Proof.
  intros Hw H. destruct built as [poi|e]; [|discriminate H].
  cbn [Res.bind] in *. unfold saved in H. unfold row_outcome.
  destruct (models.calculated_avg_rating (ratings_data poi)) as [avg|e];
    [|discriminate H].
  rewrite Hw, refusal_in_order.
  destruct (db_insert_error env _); [discriminate H|].
  injection H as <-. reflexivity.
Qed.

(** A row that raises before [save] is skipped, or fatal, and leaves the
    rows and the transaction as they are. *)
Lemma row_outcome_raise env (built : result (option PointOfInterest)) e
      classes line n w :
  built = Raise e ->
  row_outcome env built classes line n w = on_raise classes (line e) e n w.
Proof. intros ->. reflexivity. Qed.

(** Every row takes one of the six steps. *)
Lemma row_outcome_step env silent built classes line n w :
  (silent = false -> built <> Ok None) ->
  row_step env silent n w (row_outcome env built classes line n w).
Proof.
  intros Hs.
  assert (Hr : forall e, row_step env silent n w
                           (on_raise classes (line e) e n w)).
  { intros e. unfold on_raise. destruct (classes e); constructor. }
  unfold row_outcome. destruct built as [[poi|]|e]; [| |apply Hr].
  - destruct (models.calculated_avg_rating (ratings_data poi)) as [avg|e];
      [|apply Hr].
    destruct (refusal env _ _) as [e|] eqn:Ed.
    + apply refusal_refusing in Ed. unfold on_raise.
      destruct (classes e); constructor; exact Ed.
    + constructor. unfold refusal in Ed.
      destruct (db_insert_error env _); [discriminate|].
      destruct (needs_rollback w); [discriminate | reflexivity].
  - constructor. destruct silent; [reflexivity|].
    exfalso. exact (Hs eq_refl eq_refl).
Qed.

(** The loops of [import_csv] and [import_json] pass over no row in
    silence. *)
Lemma row_outcome_step_loud env (built : result PointOfInterest)
      classes line n w :
  row_step env false n w
    (row_outcome env (Res.bind built (fun poi => Ok (Some poi)))
       classes line n w).
Proof.
  apply row_outcome_step. intros _. destruct built; discriminate.
Qed.

Lemma import_csv_row_step env row n w :
  row_step env false n w (import_csv_row env row n w).
Proof. rewrite import_csv_row_outcome. apply row_outcome_step_loud. Qed.

Lemma import_json_item_step env item n w :
  row_step env false n w (import_json_item env item n w).
Proof. rewrite import_json_item_outcome. apply row_outcome_step_loud. Qed.

Lemma import_xml_element_step env poi_elem n w :
  row_step env true n w (import_xml_element env poi_elem n w).
Proof.
  rewrite import_xml_element_outcome. apply row_outcome_step. discriminate.
Qed.

(** ** Loops and files *)

(** What a step does to the world and to the counter. *)
Lemma row_step_facts env silent n w r w1 :
  row_step env silent n w (r, w1) ->
  exists new msgs,
    table w1 = (table w ++ new)%list
    /\ stdout w1 = (stdout w ++ msgs)%list
    /\ in_atomic_block w1 = in_atomic_block w
    /\ (needs_rollback w = true -> needs_rollback w1 = true)
    /\ ((forall x, db_insert_error env x = None) ->
        needs_rollback w = false -> needs_rollback w1 = false)
    /\ match r with
       | Ok n' =>
           n' = (n + List.length new)%nat
           /\ (silent = false ->
               (List.length new + List.length msgs)%nat = 1%nat)
       | Raise _ => True
       end.
Proof.
  assert (Hno : refusing env w ->
                (forall x, db_insert_error env x = None) ->
                needs_rollback w = false -> needs_rollback (marked w) = false).
  { intros [Hb | [x Hx]] Hdb Hw; [congruence|]. elim Hx. apply Hdb. }
  assert (Hm : needs_rollback w = true -> needs_rollback (marked w) = true).
  { intros Hb. simpl. rewrite Hb. reflexivity. }
  intros H. inversion H; subst; clear H.
  - exists [poi], []. simpl. rewrite app_nil_r. repeat split; auto; lia.
  - exists [], []. rewrite !app_nil_r. repeat split; auto; try lia;
      try discriminate.
  - exists [], [line]. simpl. rewrite app_nil_r. repeat split; auto; lia.
  - exists [], [line]. simpl. rewrite app_nil_r. repeat split; auto; lia.
  - exists [], []. rewrite !app_nil_r. repeat split; auto.
  - exists [], []. simpl. rewrite !app_nil_r. repeat split; auto.
Qed.

(** A loop of such steps adds rows and counts them; when it returns and is
    not silent, every row was inserted or has its line. *)
Lemma for_each_steps {A} env silent (body : A -> nat -> M nat) :
  (forall x n w, row_step env silent n w (body x n w)) ->
  forall xs n w,
    exists new msgs,
      table (snd (Cmd.for_each xs body n w)) = (table w ++ new)%list
      /\ stdout (snd (Cmd.for_each xs body n w)) = (stdout w ++ msgs)%list
      /\ in_atomic_block (snd (Cmd.for_each xs body n w)) = in_atomic_block w
      /\ (needs_rollback w = true ->
          needs_rollback (snd (Cmd.for_each xs body n w)) = true)
      /\ ((forall x, db_insert_error env x = None) ->
          needs_rollback w = false ->
          needs_rollback (snd (Cmd.for_each xs body n w)) = false)
      /\ match fst (Cmd.for_each xs body n w) with
         | Ok n' =>
             n' = (n + List.length new)%nat
             /\ (silent = false ->
                 (List.length new + List.length msgs)%nat = List.length xs)
         | Raise _ => True
         end.
Proof.
  intros Hbody xs. induction xs as [|x xs IH]; intros n w.
  - exists [], []. simpl. rewrite !app_nil_r. repeat split; auto; lia.
  - cbn [Cmd.for_each]. unfold Cmd.bind.
    pose proof (Hbody x n w) as Hs.
    destruct (body x n w) as [[n1|e] w1];
      apply row_step_facts in Hs
        as (new1 & msgs1 & Ht1 & Ho1 & Ha1 & Hb1 & Hd1 & Hn1).
    + destruct Hn1 as [-> Hl1].
      destruct (IH (n + List.length new1)%nat w1)
        as (new & msgs & Ht & Ho & Ha & Hb & Hd & Hn).
      exists (new1 ++ new)%list, (msgs1 ++ msgs)%list.
      rewrite Ht, Ho, Ha, Ht1, Ho1, Ha1, <- !app_assoc.
      repeat split; auto.
      destruct (fst (Cmd.for_each xs body (n + List.length new1) w1));
        [|exact I].
      destruct Hn as [-> Hl]. rewrite !length_app. split; [lia|].
      intros Hsil. specialize (Hl Hsil). specialize (Hl1 Hsil).
      simpl. lia.
    + exists new1, msgs1. simpl. repeat split; auto.
Qed.

Lemma for_each_rows_added {A} env silent (body : A -> nat -> M nat) :
  (forall x n w, row_step env silent n w (body x n w)) ->
  forall xs n w, rows_added env n w (Cmd.for_each xs body n w).
Proof.
  intros Hbody xs n w.
  destruct (for_each_steps env silent body Hbody xs n w)
    as (new & msgs & Ht & Ho & Ha & Hb & Hd & Hn).
  exists new, msgs. repeat split; auto.
  destruct (fst (Cmd.for_each xs body n w)); [apply Hn | exact I].
Qed.

Lemma rows_added_raise env n w e : rows_added env n w (Raise e, w).
Proof. exists [], []. simpl. rewrite !app_nil_r. repeat split; auto. Qed.

Lemma import_csv_body_rows_added env file_path w :
  rows_added env 0 w (import_csv_body env file_path w).
Proof.
  unfold import_csv_body. destruct (csv_DictReader env file_path) as [rows failure].
  pose proof (for_each_rows_added env false _ (import_csv_row_step env) rows 0 w)
    as H.
  unfold Cmd.bind. destruct (Cmd.for_each rows (import_csv_row env) 0 w)
    as [[n|e] w1]; [|exact H].
  destruct failure as [e|]; [|exact H].
  destruct H as (new & msgs & H). exists new, msgs. simpl in *.
  repeat split; apply H.
Qed.

Lemma import_json_body_rows_added env file_path w :
  rows_added env 0 w (import_json_body env file_path w).
Proof.
  unfold import_json_body, Cmd.bind, Cmd.lift.
  destruct (json_load env file_path) as [data|e]; [|apply rows_added_raise].
  destruct (Py.iterate _) as [items|e]; [|apply rows_added_raise].
  apply (for_each_rows_added env false). apply import_json_item_step.
Qed.

Lemma import_xml_body_rows_added env file_path w :
  rows_added env 0 w (import_xml_body env file_path w).
Proof.
  unfold import_xml_body, Cmd.bind, Cmd.lift.
  destruct (ET_parse env file_path) as [root|e]; [|apply rows_added_raise].
  apply (for_each_rows_added env true). apply import_xml_element_step.
Qed.

(** ** The atomic block *)

(** From a transaction in order, a block that returns with the transaction
    in order is committed; any other is rolled back. *)
Lemma enter_in_order w :
  needs_rollback w = false ->
  in_atomic_block (Cmd.enter w) = true
  /\ needs_rollback (Cmd.enter w) = false
  /\ table (Cmd.enter w) = table w
  /\ stdout (Cmd.enter w) = stdout w.
Proof.
  intros Hw. unfold Cmd.enter. simpl. rewrite Hw, andb_false_r. auto.
Qed.

Lemma exit_commit w w' :
  needs_rollback w = false -> needs_rollback w' = false ->
  Cmd.exit w w' true
  = {| table := table w';
       stdout := stdout w';
       in_atomic_block := in_atomic_block w;
       needs_rollback := needs_rollback w |}.
Proof. intros Hw Hw'. unfold Cmd.exit. rewrite Hw', Hw. reflexivity. Qed.

Lemma exit_rollback w w' returned :
  needs_rollback w = false ->
  returned = false \/ needs_rollback w' = true ->
  Cmd.exit w w' returned
  = {| table := table w;
       stdout := stdout w';
       in_atomic_block := in_atomic_block w;
       needs_rollback := needs_rollback w |}.
Proof.
  intros Hw H. unfold Cmd.exit. rewrite Hw, andb_false_r.
  destruct H as [-> | ->]; [reflexivity|].
  rewrite andb_false_r. reflexivity.
Qed.

(** [atomic], by how the function under it ends. *)
Lemma atomic_spec {A} (f : M A) w :
  needs_rollback w = false ->
  Cmd.atomic f w =
  match f (Cmd.enter w) with
  | (Ok a, w') =>
      (Ok a,
       {| table := if needs_rollback w' then table w else table w';
          stdout := stdout w';
          in_atomic_block := in_atomic_block w;
          needs_rollback := needs_rollback w |})
  | (Raise e, w') =>
      (Raise e,
       {| table := table w;
          stdout := stdout w';
          in_atomic_block := in_atomic_block w;
          needs_rollback := needs_rollback w |})
  end.
Proof.
  intros Hw. unfold Cmd.atomic. destruct (f (Cmd.enter w)) as [[a|e] w'].
  - destruct (needs_rollback w') eqn:Hw'.
    + rewrite exit_rollback by auto. reflexivity.
    + rewrite exit_commit by auto. reflexivity.
  - rewrite exit_rollback by auto. reflexivity.
Qed.

(** The transaction turns "rows were added" into "all or nothing". *)
Lemma atomic_all_or_nothing env (f : M nat) w :
  needs_rollback w = false ->
  rows_added env 0 (Cmd.enter w) (f (Cmd.enter w)) ->
  all_or_nothing env w (Cmd.atomic f w).
Proof.
  intros Hw (new & msgs & Ht & Ho & Ha & Hb & Hd & Hn).
  destruct (enter_in_order w Hw) as (_ & He & Hte & _).
  rewrite atomic_spec by exact Hw. unfold all_or_nothing.
  destruct (f (Cmd.enter w)) as [[n|e] w']; cbn [fst snd table] in *;
    [|reflexivity].
  subst n. destruct (needs_rollback w') eqn:Hw'.
  - exists []. rewrite app_nil_r. split; [reflexivity|]. split; [auto|].
    intros Hdb. discriminate (Hd Hdb He).
  - exists new. rewrite Ht, Hte. auto.
Qed.

Lemma import_file_all_or_nothing env file_path w :
  needs_rollback w = false ->
  all_or_nothing env w (import_file env file_path w).
Proof.
  intros Hw. unfold import_file.
  destruct (String.eqb _ ".csv");
    [apply atomic_all_or_nothing, import_csv_body_rows_added; exact Hw|].
  destruct (String.eqb _ ".json");
    [apply atomic_all_or_nothing, import_json_body_rows_added; exact Hw|].
  destruct (String.eqb _ ".xml");
    [apply atomic_all_or_nothing, import_xml_body_rows_added; exact Hw|].
  reflexivity.
Qed.

(** ** The claims on files *)

(** C1, on the code.  What holds for every file: an exception that leaves
    the import of a file leaves the table as it was before the file.  What
    does not: a row that is skipped may cost the file its rows.  Take a
    backend that stores [avg_rating] as text, and a CSV file of a cafe rated
    [[4,5]] and a bar rated [[10,10]].  The cafe is inserted.  The average of
    the bar is 10.0; preparing it for its column of three digits raises
    [InvalidOperation] inside [Model.save]; the loop catches it and writes
    that it skips the row.  The exception has marked the transaction all the
    same: the import returns 1, the cafe is rolled back with the block, and
    [handle] reports one record imported into a table that has none.  With
    a third row in the file, its [save] raises
    [TransactionManagementError], which no handler catches: the skip has
    become fatal. *)
Theorem C1_skipped_row_may_roll_the_file_back :
  (forall env (file_path : string) (w w' : world) (e : exn),
      needs_rollback w = false ->
      import_csv env file_path w = (Raise e, w')
      \/ import_json env file_path w = (Raise e, w')
      \/ import_xml env file_path w = (Raise e, w') ->
      table w' = table w)
  /\ import_csv_body
       (with_database
          (env_of [("pois.csv", CsvFile [cafe_row "40.0"; top_rated_row])])
          three_digit_averages)
       "pois.csv" (Cmd.enter empty_world)
     = (Ok 1,
        {| table := [saved_cafe (Finite false 400 (-1))];
           stdout := [SkippingInvalidCsvRow top_rated_row InvalidOperation];
           in_atomic_block := true;
           needs_rollback := true |})
  /\ import_csv
       (with_database
          (env_of [("pois.csv", CsvFile [cafe_row "40.0"; top_rated_row])])
          three_digit_averages)
       "pois.csv" empty_world
     = (Ok 1, idle [] [SkippingInvalidCsvRow top_rated_row InvalidOperation])
  /\ handle
       (with_database
          (env_of [("pois.csv", CsvFile [cafe_row "40.0"; top_rated_row])])
          three_digit_averages)
       ["pois.csv"] false empty_world
     = (Ok tt,
        idle []
          [ProcessingFile "pois.csv";
           SkippingInvalidCsvRow top_rated_row InvalidOperation;
           SuccessfullyImported 1 "pois.csv";
           TotalRecordsImported 1])
  /\ import_csv
       (with_database
          (env_of [("pois.csv",
                    CsvFile [cafe_row "40.0"; top_rated_row; cafe_row "41.5"])])
          three_digit_averages)
       "pois.csv" empty_world
     = (Raise TransactionManagementError,
        idle [] [SkippingInvalidCsvRow top_rated_row InvalidOperation]).
Proof.
  split; [|repeat split; reflexivity].
  intros env file_path w w' e Hw H.
  unfold import_csv, import_json, import_xml in H.
  rewrite !atomic_spec in H by exact Hw.
  destruct H as [H | [H | H]];
    match type of H with
    | context [match ?x with _ => _ end] => destruct x as [[n|e'] w1]
    end; try discriminate H; injection H as _ <-; reflexivity.
Qed.

(** A CSV file whose second line is too short: the import raises, and the
    cafe of the first line is not in the table. *)
Lemma C1_skipped_row_may_roll_the_file_back_witness :
  table (snd (import_csv
                (env_of [("pois.csv", CsvFile [cafe_row "40.0"; short_row])])
                "pois.csv" empty_world))
  = table empty_world.
Proof.
  exact (proj1 C1_skipped_row_may_roll_the_file_back
           (env_of [("pois.csv", CsvFile [cafe_row "40.0"; short_row])])
           "pois.csv" empty_world _ AttributeError eq_refl
           (or_introl eq_refl)).
Defined.

(** A row whose instance is built, whose average is computed and which the
    database accepts is inserted and counted. *)
Lemma import_csv_row_inserts env row (poi : PointOfInterest) avg n w :
  needs_rollback w = false ->
  csv_poi row = Ok poi ->
  models.calculated_avg_rating (ratings_data poi) = Ok avg ->
  db_insert_error env (set_avg_rating poi avg) = None ->
  import_csv_row env row n w
  = (Ok (n + 1)%nat, extend w [set_avg_rating poi avg] []).
Proof.
  intros Hw Hp Ha Hd. rewrite import_csv_row_outcome.
  apply row_outcome_saved; [exact Hw|].
  rewrite Hp. unfold Res.bind, saved. rewrite Ha, Hd. reflexivity.
Qed.

Lemma import_json_item_inserts env item (poi : PointOfInterest) avg n w :
  needs_rollback w = false ->
  json_poi env item = Ok poi ->
  models.calculated_avg_rating (ratings_data poi) = Ok avg ->
  db_insert_error env (set_avg_rating poi avg) = None ->
  import_json_item env item n w
  = (Ok (n + 1)%nat, extend w [set_avg_rating poi avg] []).
Proof.
  intros Hw Hp Ha Hd. rewrite import_json_item_outcome.
  apply row_outcome_saved; [exact Hw|].
  rewrite Hp. unfold Res.bind, saved. rewrite Ha, Hd. reflexivity.
Qed.

Lemma import_xml_element_inserts env poi_elem (poi : PointOfInterest) avg n w :
  needs_rollback w = false ->
  xml_poi poi_elem = Ok (Some poi) ->
  models.calculated_avg_rating (ratings_data poi) = Ok avg ->
  db_insert_error env (set_avg_rating poi avg) = None ->
  import_xml_element env poi_elem n w
  = (Ok (n + 1)%nat, extend w [set_avg_rating poi avg] []).
Proof.
  intros Hw Hp Ha Hd. rewrite import_xml_element_outcome, Hp.
  apply (row_outcome_saved env (Ok poi)); [exact Hw|].
  unfold Res.bind, saved. rewrite Ha, Hd. reflexivity.
Qed.

(** Ratings tags that are all absent or blank resolve to nothing to parse. *)
Lemma get_xml_text_blank e tag_names :
  (forall a, In a tag_names -> absent_or_blank e a) ->
  or_empty (get_xml_text e tag_names) = "".
Proof.
  induction tag_names as [|a rest IH]; intros H; simpl; [reflexivity|].
  destruct (H a (or_introl eq_refl)) as [-> | (child & -> & Ht)]; simpl.
  - apply IH. intros a' Ha'. apply H. right. exact Ha'.
  - destruct Ht as [-> | (t & -> & Hs)].
    + apply IH. intros a' Ha'. apply H. right. exact Ha'.
    + destruct t as [|c r]; simpl.
      * apply IH. intros a' Ha'. apply H. right. exact Ha'.
      * rewrite Hs. reflexivity.
Qed.

Lemma present_some (s : string) : s <> "" -> present (Some s) = true.
Proof. destruct s; [congruence | reflexivity]. Qed.

(** C9, on the code: a CSV line with the five required cells and no cell
    under [poi_ratings].  [csv.DictReader] gives [None] for the missing
    cell, the default of [row.get('poi_ratings', '')] is not used since the
    key is there, and [None.strip()] raises [AttributeError], which the loop
    does not catch: the import of the file ends with it, the cafe of the
    line before is rolled back, and [handle] ends the run.  The same row
    without the column, or with a blank cell, is imported with empty
    ratings, and so is the XML element without a ratings tag, where
    [pratings or ''] stands in for [None]. *)
Theorem C9_line_without_ratings_cell_is_fatal :
  row_ratings_str five_cells_row = Raise AttributeError
  /\ import_csv_row bare_env five_cells_row 0 empty_world
     = (Raise AttributeError, empty_world)
  /\ import_csv
       (env_of [("pois.csv", CsvFile [cafe_row "40.0"; five_cells_row])])
       "pois.csv" empty_world
     = (Raise AttributeError, empty_world)
  /\ handle
       (env_of [("pois.csv", CsvFile [cafe_row "40.0"; five_cells_row])])
       ["pois.csv"] false empty_world
     = (Raise (CommandError (ErrorProcessingFile "pois.csv" AttributeError)),
        idle [] [ProcessingFile "pois.csv"])
  /\ import_csv_row bare_env
       [("poi_id", Some "id1"); ("poi_name", Some "Cafe");
        ("poi_latitude", Some "40.0"); ("poi_longitude", Some "-73.0");
        ("poi_category", Some "food")] 0 empty_world
     = (Ok 1, idle [cafe (VList [])] [])
  /\ import_csv_row bare_env
       [("poi_id", Some "id1"); ("poi_name", Some "Cafe");
        ("poi_latitude", Some "40.0"); ("poi_longitude", Some "-73.0");
        ("poi_category", Some "food"); ("poi_ratings", Some "")] 0 empty_world
     = (Ok 1, idle [cafe (VList [])] [])
  /\ import_xml_element bare_env cafe_element 0 empty_world
     = (Ok 1, idle [cafe (VList [])] []).
Proof. repeat split; reflexivity. Qed.

(** C2, on the code: a CSV file with a row of latitude 95 and a sibling row
    of latitude 40.0, on a database that holds the table of [models.py].
    The latitude fails the declared validators, yet nothing on the path of
    [save] runs them: the row is inserted like its sibling, and both are
    counted. *)
Theorem C2_latitude_95_is_inserted :
  decimal.of_str "95" = Ok (Finite false 95 0)
  /\ latitude_validators (Finite false 95 0) = false
  /\ import_csv
       (env_of [("pois.csv", CsvFile [cafe_row "95"; cafe_row "40.0"])])
       "pois.csv" empty_world
     = (Ok 2,
        idle [saved_cafe (Finite false 95 0);
              saved_cafe (Finite false 400 (-1))] []).
Proof. repeat split; reflexivity. Qed.

(** ** Imports do not read the table *)

Lemma in_block_world w before :
  in_atomic_block w = true -> needs_rollback w = before ->
  w = {| table := (table w ++ [])%list;
         stdout := (stdout w ++ [])%list;
         in_atomic_block := true;
         needs_rollback := before |}.
Proof.
  destruct w. simpl. intros -> ->. rewrite !app_nil_r. reflexivity.
Qed.

Lemma blind_in_block_ret {A} (a : A) : blind_in_block (Cmd.ret a).
Proof.
  intros before. exists (Ok a), [], [], before. intros w Ha Hb.
  unfold Cmd.ret. f_equal. apply in_block_world; assumption.
Qed.

Lemma blind_in_block_raise {A} e : blind_in_block (@Cmd.raise A e).
Proof.
  intros before. exists (Raise e), [], [], before. intros w Ha Hb.
  unfold Cmd.raise. f_equal. apply in_block_world; assumption.
Qed.

Lemma blind_in_block_lift {A} (r : result A) : blind_in_block (Cmd.lift r).
Proof.
  intros before. exists r, [], [], before. intros w Ha Hb.
  unfold Cmd.lift. f_equal. apply in_block_world; assumption.
Qed.

Lemma blind_in_block_write msg : blind_in_block (Cmd.write msg).
Proof.
  intros before. exists (Ok tt), [], [msg], before. intros w Ha Hb.
  unfold Cmd.write. rewrite Ha, Hb, app_nil_r. reflexivity.
Qed.

Lemma blind_in_block_bind {A B} (m : M A) (k : A -> M B) :
  blind_in_block m -> (forall a, blind_in_block (k a)) ->
  blind_in_block (Cmd.bind m k).
Proof.
  intros Hm Hk before. destruct (Hm before) as (r & new & msgs & mid & Hr).
  destruct r as [a|e].
  - destruct (Hk a mid) as (r' & new' & msgs' & after & Hka).
    exists r', (new ++ new')%list, (msgs ++ msgs')%list, after.
    intros w Ha Hb. unfold Cmd.bind. rewrite (Hr w Ha Hb).
    rewrite Hka by reflexivity. cbn [table stdout].
    rewrite !app_assoc. reflexivity.
  - exists (Raise e), new, msgs, mid. intros w Ha Hb.
    unfold Cmd.bind. rewrite (Hr w Ha Hb). reflexivity.
Qed.

Lemma blind_in_block_try_except {A} (body : M A) classes handler :
  blind_in_block body -> (forall e, blind_in_block (handler e)) ->
  blind_in_block (Cmd.try_except body classes handler).
Proof.
  intros Hm Hh before. destruct (Hm before) as (r & new & msgs & mid & Hr).
  destruct r as [a|e].
  - exists (Ok a), new, msgs, mid. intros w Ha Hb.
    unfold Cmd.try_except. rewrite (Hr w Ha Hb). reflexivity.
  - destruct (classes e) eqn:Ec.
    + destruct (Hh e mid) as (r' & new' & msgs' & after & He).
      exists r', (new ++ new')%list, (msgs ++ msgs')%list, after.
      intros w Ha Hb. unfold Cmd.try_except. rewrite (Hr w Ha Hb), Ec.
      rewrite He by reflexivity. cbn [table stdout].
      rewrite !app_assoc. reflexivity.
    + exists (Raise e), new, msgs, mid. intros w Ha Hb.
      unfold Cmd.try_except. rewrite (Hr w Ha Hb), Ec. reflexivity.
Qed.

Lemma blind_in_block_for_each {A} (body : A -> nat -> M nat) :
  (forall x n, blind_in_block (body x n)) ->
  forall xs n, blind_in_block (Cmd.for_each xs body n).
Proof.
  intros Hbody xs. induction xs as [|x xs IH]; intros n; simpl.
  - apply blind_in_block_ret.
  - apply blind_in_block_bind; [apply Hbody | exact IH].
Qed.

Lemma blind_in_block_save env poi : blind_in_block (models.save env poi).
Proof.
  intros before.
  destruct (models.calculated_avg_rating (ratings_data poi)) as [avg|e] eqn:Ea.
  - destruct (refusal env (set_avg_rating poi avg) before) as [e|] eqn:Ed.
    + exists (Raise e), [], [], true. intros w Ha Hb.
      rewrite save_spec, Ea, Hb, Ed. unfold marked.
      rewrite Ha, orb_true_r, !app_nil_r. reflexivity.
    + exists (Ok (set_avg_rating poi avg)), [set_avg_rating poi avg], [],
        before.
      intros w Ha Hb. rewrite save_spec, Ea, Hb, Ed, Ha, app_nil_r.
      reflexivity.
  - exists (Raise e), [], [], before. intros w Ha Hb.
    rewrite save_spec, Ea. f_equal. apply in_block_world; assumption.
Qed.

Ltac blind_in_block_steps :=
  repeat first
    [ apply blind_in_block_save
    | apply blind_in_block_try_except
    | apply blind_in_block_bind
    | apply blind_in_block_for_each
    | apply blind_in_block_lift
    | apply blind_in_block_write
    | apply blind_in_block_ret
    | apply blind_in_block_raise
    | match goal with |- forall _, _ => intro end ].

Lemma blind_in_block_import_csv_body env file_path :
  blind_in_block (import_csv_body env file_path).
Proof.
  unfold import_csv_body.
  destruct (csv_DictReader env file_path) as [rows [e|]];
    cbv beta iota; unfold import_csv_row; blind_in_block_steps.
Qed.

Lemma blind_in_block_import_json_body env file_path :
  blind_in_block (import_json_body env file_path).
Proof.
  unfold import_json_body, import_json_item. blind_in_block_steps.
Qed.

Lemma blind_in_block_import_xml_body env file_path :
  blind_in_block (import_xml_body env file_path).
Proof.
  unfold import_xml_body, import_xml_element. blind_in_block_steps.
  match goal with
  | |- blind_in_block (match ?x with _ => _ end) => destruct x
  end; blind_in_block_steps.
Qed.

Lemma blind_ret {A} (a : A) : blind (Cmd.ret a).
Proof.
  exists (Ok a), [], []. intros w _. rewrite extend_nil. reflexivity.
Qed.

Lemma blind_raise {A} e : blind (@Cmd.raise A e).
Proof.
  exists (Raise e), [], []. intros w _. rewrite extend_nil. reflexivity.
Qed.

Lemma blind_write msg : blind (Cmd.write msg).
Proof. exists (Ok tt), [], [msg]. intros w _. apply write_extend. Qed.

Lemma blind_bind {A B} (m : M A) (k : A -> M B) :
  blind m -> (forall a, blind (k a)) -> blind (Cmd.bind m k).
Proof.
  intros (r & new & msgs & Hm) Hk. destruct r as [a|e].
  - destruct (Hk a) as (r' & new' & msgs' & Hka).
    exists r', (new ++ new')%list, (msgs ++ msgs')%list. intros w Hw.
    unfold Cmd.bind. rewrite (Hm w Hw), Hka by exact Hw.
    apply f_equal, extend_extend.
  - exists (Raise e), new, msgs. intros w Hw. unfold Cmd.bind.
    rewrite (Hm w Hw). reflexivity.
Qed.

Lemma blind_try_except {A} (body : M A) classes handler :
  blind body -> (forall e, blind (handler e)) ->
  blind (Cmd.try_except body classes handler).
Proof.
  intros (r & new & msgs & Hm) Hh. destruct r as [a|e].
  - exists (Ok a), new, msgs. intros w Hw. unfold Cmd.try_except.
    rewrite (Hm w Hw). reflexivity.
  - destruct (classes e) eqn:Ec.
    + destruct (Hh e) as (r' & new' & msgs' & He).
      exists r', (new ++ new')%list, (msgs ++ msgs')%list. intros w Hw.
      unfold Cmd.try_except. rewrite (Hm w Hw), Ec, He by exact Hw.
      apply f_equal, extend_extend.
    + exists (Raise e), new, msgs. intros w Hw. unfold Cmd.try_except.
      rewrite (Hm w Hw), Ec. reflexivity.
Qed.

(** An atomic block entered from a transaction in order commits what the
    function under it did, or rolls it back, and leaves the transaction in
    order. *)
Lemma blind_atomic {A} (f : M A) : blind_in_block f -> blind (Cmd.atomic f).
Proof.
  intros Hf. destruct (Hf false) as (r & new & msgs & after & Hr).
  assert (Hrun : forall w, needs_rollback w = false ->
            f (Cmd.enter w)
            = (r, {| table := (table w ++ new)%list;
                     stdout := (stdout w ++ msgs)%list;
                     in_atomic_block := true;
                     needs_rollback := after |})).
  { intros w Hw. destruct (enter_in_order w Hw) as (Ha & Hb & _).
    exact (Hr (Cmd.enter w) Ha Hb). }
  destruct r as [a|e]; [destruct after|].
  - exists (Ok a), [], msgs. intros w Hw.
    rewrite atomic_spec, Hrun by exact Hw. unfold extend.
    cbn [table stdout needs_rollback]. rewrite app_nil_r. reflexivity.
  - exists (Ok a), new, msgs. intros w Hw.
    rewrite atomic_spec, Hrun by exact Hw. reflexivity.
  - exists (Raise e), [], msgs. intros w Hw.
    rewrite atomic_spec, Hrun by exact Hw. unfold extend.
    cbn [table stdout]. rewrite app_nil_r. reflexivity.
Qed.

Lemma blind_import_file env file_path : blind (import_file env file_path).
Proof.
  unfold import_file.
  destruct (String.eqb _ ".csv");
    [apply blind_atomic, blind_in_block_import_csv_body|].
  destruct (String.eqb _ ".json");
    [apply blind_atomic, blind_in_block_import_json_body|].
  destruct (String.eqb _ ".xml");
    [apply blind_atomic, blind_in_block_import_xml_body|].
  apply blind_raise.
Qed.

Lemma blind_handle_files env files : forall total,
  blind (handle_files env files total).
Proof.
  induction files as [|p files IH]; intros total; simpl.
  - apply blind_ret.
  - destruct (negb (path_exists env p)); [apply blind_raise|].
    apply blind_bind; [apply blind_write|]. intros _.
    apply blind_bind; [|exact IH].
    apply blind_try_except; [|intros e; apply blind_raise].
    apply blind_bind; [apply blind_import_file|]. intros n.
    apply blind_bind; [apply blind_write | intros _; apply blind_ret].
Qed.

(** ** The orchestrator *)

Lemma bind_assoc {A B C} (m : M A) (k : A -> M B) (g : B -> M C) w :
  Cmd.bind (Cmd.bind m k) g w = Cmd.bind m (fun a => Cmd.bind (k a) g) w.
Proof.
  unfold Cmd.bind. destruct (m w) as [[a|e] w1]; reflexivity.
Qed.

Lemma bind_ext {A B} (m : M A) (k k' : A -> M B) w :
  (forall a w1, k a w1 = k' a w1) -> Cmd.bind m k w = Cmd.bind m k' w.
Proof.
  intros H. unfold Cmd.bind. destruct (m w) as [[a|e] w1]; auto.
Qed.

(** The loop over a list of files in two parts. *)
Lemma handle_files_app env (before files : list string) :
  forall total w,
    handle_files env (before ++ files)%list total w =
    Cmd.bind (handle_files env before total) (handle_files env files) w.
Proof.
  induction before as [|p before IH]; intros total w; [reflexivity|].
  cbn [app handle_files].
  destruct (negb (path_exists env p)); [reflexivity|].
  rewrite bind_assoc. apply bind_ext. intros _ w1.
  rewrite bind_assoc. apply bind_ext. intros t w2. apply IH.
Qed.

(** From a transaction in order the clearing goes through, and leaves it in
    order. *)
Lemma clear_existing_ok clear w :
  needs_rollback w = false ->
  clear_existing clear w = (Ok tt, snd (clear_existing clear w))
  /\ needs_rollback (snd (clear_existing clear w)) = false.
Proof.
  intros Hw. destruct clear; [|auto].
  unfold clear_existing, models.delete_all, Cmd.bind, Cmd.write,
    Cmd.validate_no_broken_transaction.
  cbn [needs_rollback]. rewrite Hw. cbn [snd needs_rollback]. auto.
Qed.

Lemma handle_files_in_order env files total w r w' :
  needs_rollback w = false ->
  handle_files env files total w = (r, w') ->
  needs_rollback w' = false.
Proof.
  intros Hw H.
  destruct (blind_handle_files env files total) as (r0 & new & msgs & Hf).
  rewrite (Hf w Hw) in H. injection H as _ <-. exact Hw.
Qed.

(** C3, as the code has it: when a file raises, [handle] wraps the
    exception with the file's path in a [CommandError] and raises it, which
    ends the run: the files after it in the list are not processed, whatever
    they are; the rows of the files before it stay, and the failing file
    leaves none.  The run starts from a transaction in order. *)
Theorem C3_fatal_file_error_ends_the_run :
  forall env (before : list string) (file_path : string)
         (after : list string) (clear : bool) (total : nat)
         (w0 w1 w2 : world) (e : exn),
    needs_rollback w0 = false ->
    handle_files env before 0 (snd (clear_existing clear w0)) = (Ok total, w1) ->
    path_exists env file_path = true ->
    import_file env file_path
      {| table := table w1;
         stdout := (stdout w1 ++ [ProcessingFile file_path])%list;
         in_atomic_block := in_atomic_block w1;
         needs_rollback := needs_rollback w1 |}
    = (Raise e, w2) ->
    handle env (before ++ file_path :: after)%list clear w0
    = (Raise (CommandError (ErrorProcessingFile file_path e)), w2)
    /\ table w2 = table w1.
Proof.
  intros env before file_path after clear total w0 w1 w2 e
         Hw0 Hbefore Hexists Himport.
  destruct (clear_existing_ok clear w0 Hw0) as [Hclear Hw0'].
  split.
  - assert (Hstep : handle_files env (file_path :: after) total w1
                    = (Raise (CommandError (ErrorProcessingFile file_path e)),
                       w2)).
    { cbn [handle_files]. rewrite Hexists. cbn [negb].
      unfold Cmd.bind, Cmd.try_except, Cmd.write. rewrite Himport.
      reflexivity. }
    unfold handle, Cmd.bind. rewrite Hclear.
    rewrite handle_files_app. unfold Cmd.bind. rewrite Hbefore, Hstep.
    reflexivity.
  - pose proof (handle_files_in_order _ _ _ _ _ _ Hw0' Hbefore) as Hw1.
    pose proof (import_file_all_or_nothing env file_path
                  {| table := table w1;
                     stdout := (stdout w1 ++ [ProcessingFile file_path])%list;
                     in_atomic_block := in_atomic_block w1;
                     needs_rollback := needs_rollback w1 |} Hw1)
      as H.
    rewrite Himport in H. exact H.
Qed.

(** A malformed XML file before a good CSV file. *)
Lemma C3_fatal_file_error_ends_the_run_witness :
  handle (env_of [("broken.xml", Malformed);
                  ("pois.csv", CsvFile [cafe_row "40.0"])])
    ["broken.xml"; "pois.csv"] false empty_world
  = (Raise (CommandError (ErrorProcessingFile "broken.xml" ParseError)),
     idle [] [ProcessingFile "broken.xml"])
  /\ table (idle [] [ProcessingFile "broken.xml"]) = table empty_world.
Proof.
  exact (C3_fatal_file_error_ends_the_run
           (env_of [("broken.xml", Malformed);
                    ("pois.csv", CsvFile [cafe_row "40.0"])])
           [] "broken.xml" ["pois.csv"] false 0
           empty_world empty_world
           (idle [] [ProcessingFile "broken.xml"])
           ParseError eq_refl eq_refl eq_refl eq_refl).
Defined.

(** C3 as stated fails: after the malformed [broken.xml] the run ends with
    the wrapped error, and [pois.csv], which imports one row when it is run
    alone, is never processed. *)
Lemma C3_counterexample :
  handle (env_of [("broken.xml", Malformed);
                  ("pois.csv", CsvFile [cafe_row "40.0"])])
    ["broken.xml"; "pois.csv"] false empty_world
  = (Raise (CommandError (ErrorProcessingFile "broken.xml" ParseError)),
     idle [] [ProcessingFile "broken.xml"])
  /\ handle (env_of [("broken.xml", Malformed);
                     ("pois.csv", CsvFile [cafe_row "40.0"])])
       ["pois.csv"] false empty_world
     = (Ok tt,
        idle [saved_cafe (Finite false 400 (-1))]
          [ProcessingFile "pois.csv";
           SuccessfullyImported 1 "pois.csv";
           TotalRecordsImported 1]).
Proof. split; reflexivity. Qed.

(** The transaction at work: a row is inserted, the next line is too short
    and [None.strip()] raises; the function under the decorator has left the
    first row, the decorated one leaves none. *)
Example import_csv_rolls_back :
  import_csv_body
    (env_of [("pois.csv", CsvFile [cafe_row "40.0"; short_row])])
    "pois.csv" (Cmd.enter empty_world)
  = (Raise AttributeError,
     {| table := [saved_cafe (Finite false 400 (-1))];
        stdout := [];
        in_atomic_block := true;
        needs_rollback := false |})
  /\ import_csv
       (env_of [("pois.csv", CsvFile [cafe_row "40.0"; short_row])])
       "pois.csv" empty_world
     = (Raise AttributeError, empty_world).
Proof. split; reflexivity. Qed.

(** A row that is skipped before [save] leaves the row before it in
    place. *)
Example import_csv_skips_and_keeps :
  import_csv
    (env_of [("pois.csv", CsvFile [cafe_row "40.0"; cafe_row "north"])])
    "pois.csv" empty_world
  = (Ok 1,
     idle [saved_cafe (Finite false 400 (-1))]
       [SkippingInvalidCsvRow (cafe_row "north") InvalidOperation]).
Proof. reflexivity. Qed.

(** ** Further properties of the pipeline *)

(** The CSV row [id1,Cafe,40.0,-73.0,food,"[4,5]"] is inserted with an
    average rating of 4.5 and a rating count of 2. *)
Theorem csv_row_round_trip :
  import_csv_row bare_env (cafe_row "40.0") 0 empty_world
  = (Ok 1, idle [saved_cafe (Finite false 400 (-1))] [])
  /\ avg_rating (saved_cafe (Finite false 400 (-1))) = Some 4.5%float
  /\ models.rating_count (saved_cafe (Finite false 400 (-1))) = Ok 2.
Proof. repeat split; reflexivity. Qed.

Lemma decimal_of_str_raises (s : string) e :
  decimal.of_str s = Raise e -> e = InvalidOperation.
Proof.
  unfold decimal.of_str. intros H.
  repeat match type of H with
         | context [let (_, _) := ?x in _] => destruct x
         | context [match ?x with _ => _ end] => destruct x
         end; try discriminate H; injection H as <-; reflexivity.
Qed.

(** X2. A JSON object whose [coordinates] are missing, or are an object
    without [longitude], is skipped with a line on standard output: the
    table and the counter stay as they are, and the loop goes on with the
    objects after it. *)
Theorem json_item_without_longitude_is_skipped :
  forall env (fields : list (string * value)) (n : nat) (w : world),
    (assoc "coordinates" fields = None
     \/ exists c, assoc "coordinates" fields = Some (VDict c)
          /\ assoc "longitude" c = None) ->
    exists e,
      import_json_item env (VDict fields) n w
      = (Ok n, extend w [] [SkippingInvalidJsonItem (VDict fields) e])
      /\ forall rest,
           Cmd.for_each (VDict fields :: rest) (import_json_item env) n w
           = Cmd.for_each rest (import_json_item env) n
               (extend w [] [SkippingInvalidJsonItem (VDict fields) e]).
Proof.
  intros env fields n w Hc.
  assert (H : exists e,
             json_poi env (VDict fields) = Raise e
             /\ (is_KeyError e || is_ValueError e || is_InvalidOperation e)
                = true).
  { assert (Hcoord : exists c,
               Py.get (VDict fields) "coordinates" (VDict []) = Ok (VDict c)
               /\ assoc "longitude" c = None).
    { simpl. destruct Hc as [-> | (c & -> & Hl)]; eauto. }
    destruct Hcoord as (c & Hget & Hlon).
    unfold json_poi. rewrite Hget. cbn [Res.bind Py.get Py.getitem].
    destruct (assoc "id" fields); [|eexists; split; reflexivity].
    destruct (assoc "name" fields); [|eexists; split; reflexivity].
    cbn [Res.bind].
    destruct (assoc "latitude" c) as [lat|]; [|eexists; split; reflexivity].
    cbn [Res.bind].
    destruct (decimal.of_str (str env lat)) as [d|e] eqn:Ed.
    - cbn [Res.bind]. rewrite Hlon. eexists; split; reflexivity.
    - exists e. split; [reflexivity|].
      rewrite (decimal_of_str_raises _ _ Ed). reflexivity. }
  destruct H as (e & Hp & He). exists e.
  assert (Hitem : import_json_item env (VDict fields) n w
                  = (Ok n, extend w [] [SkippingInvalidJsonItem (VDict fields) e])).
  { rewrite import_json_item_outcome, Hp. cbn [Res.bind row_outcome].
    unfold on_raise, skips. rewrite He. reflexivity. }
  split; [exact Hitem|].
  intros rest. cbn [Cmd.for_each]. unfold Cmd.bind. rewrite Hitem. reflexivity.
Qed.

(** An object with an id, a name, a category and a latitude but no
    longitude. *)
Lemma json_item_without_longitude_is_skipped_witness :
  exists e,
    import_json_item bare_env no_longitude 0 empty_world
    = (Ok 0, extend empty_world [] [SkippingInvalidJsonItem no_longitude e])
    /\ forall rest,
         Cmd.for_each (no_longitude :: rest) (import_json_item bare_env)
           0 empty_world
         = Cmd.for_each rest (import_json_item bare_env) 0
             (extend empty_world []
                [SkippingInvalidJsonItem no_longitude e]).
Proof.
  exact (json_item_without_longitude_is_skipped bare_env
           [("id", VInt 7); ("name", VStr "Bar");
            ("coordinates", VDict [("latitude", VStr "40.0")]);
            ("category", VStr "food")] 0 empty_world
           (or_intror (ex_intro _ [("latitude", VStr "40.0")]
                         (conj eq_refl eq_refl)))).
Defined.

(** X3. With [--clear], what the table holds after the run does not depend
    on what it held before: from a transaction in order, the run ends the
    same way and leaves the same rows from every table; a CSV file of three
    rows leaves exactly three. *)
Theorem clear_then_import_forgets_prior_rows :
  (forall env (files : list string),
      exists r new msgs,
        forall rows lines block,
          handle env files true
            {| table := rows;
               stdout := lines;
               in_atomic_block := block;
               needs_rollback := false |}
          = (r, {| table := new;
                   stdout := (lines ++ msgs)%list;
                   in_atomic_block := block;
                   needs_rollback := false |}))
  /\ List.length
       (table (snd (handle
                      (env_of [("pois.csv",
                                CsvFile [cafe_row "40.0"; cafe_row "41.0";
                                         cafe_row "42.0"])])
                      ["pois.csv"] true
                      (idle [cafe VNone; cafe VNone] []))))
     = 3.
Proof.
  split; [|reflexivity].
  intros env files.
  destruct (blind_handle_files env files 0) as (r & new & msgs & Hf).
  destruct r as [total|e].
  - exists (Ok tt), new,
      ([ClearingExistingData; ExistingDataCleared] ++ msgs
       ++ [TotalRecordsImported total])%list.
    intros rows lines block.
    unfold handle, clear_existing, models.delete_all, Cmd.bind,
      Cmd.validate_no_broken_transaction.
    cbn [Cmd.write needs_rollback table stdout in_atomic_block].
    rewrite Hf by reflexivity.
    unfold extend, Cmd.write.
    cbn [table stdout in_atomic_block needs_rollback app].
    rewrite <- !app_assoc. reflexivity.
  - exists (Raise e), new,
      ([ClearingExistingData; ExistingDataCleared] ++ msgs)%list.
    intros rows lines block.
    unfold handle, clear_existing, models.delete_all, Cmd.bind,
      Cmd.validate_no_broken_transaction.
    cbn [Cmd.write needs_rollback table stdout in_atomic_block].
    rewrite Hf by reflexivity.
    unfold extend. cbn [table stdout in_atomic_block needs_rollback app].
    rewrite <- !app_assoc. reflexivity.
Qed.

(** X4. Importing a file a second time inserts the same rows again after the
    first ones: nothing is matched against [external_id], so the rows from
    the file are in the table twice. *)
Theorem same_file_twice_doubles :
  forall env (file_path : string) (w w1 : world) (n : nat),
    needs_rollback w = false ->
    import_file env file_path w = (Ok n, w1) ->
    exists new w2,
      table w1 = (table w ++ new)%list
      /\ import_file env file_path w1 = (Ok n, w2)
      /\ table w2 = (table w ++ new ++ new)%list.
Proof.
  intros env file_path w w1 n Hw H.
  destruct (blind_import_file env file_path) as (r & new & msgs & Hf).
  rewrite (Hf w Hw) in H. injection H as -> <-.
  exists new, (extend (extend w new msgs) new msgs).
  split; [reflexivity|]. split; [apply Hf; exact Hw|].
  cbn [extend table]. rewrite app_assoc. reflexivity.
Qed.

(** The same CSV file of one row, twice. *)
Lemma same_file_twice_doubles_witness :
  exists new w2,
    table (idle [saved_cafe (Finite false 400 (-1))] [])
    = (table empty_world ++ new)%list
    /\ import_file (env_of [("pois.csv", CsvFile [cafe_row "40.0"])])
         "pois.csv" (idle [saved_cafe (Finite false 400 (-1))] [])
       = (Ok 1, w2)
    /\ table w2 = (table empty_world ++ new ++ new)%list.
Proof.
  exact (same_file_twice_doubles
           (env_of [("pois.csv", CsvFile [cafe_row "40.0"])]) "pois.csv"
           empty_world (idle [saved_cafe (Finite false 400 (-1))] [])
           1 eq_refl eq_refl).
Defined.

(** X5. A path whose extension, in lower case, is none of [.csv], [.json] and
    [.xml] raises the unsupported-format error before anything is read or
    written. *)
Theorem unsupported_extension_fails_first :
  forall env (file_path : string) (w : world),
    let ext := Str.lower (snd (os_path.splitext file_path)) in
    ext <> ".csv" -> ext <> ".json" -> ext <> ".xml" ->
    import_file env file_path w
    = (Raise (CommandError (UnsupportedFileFormat ext)), w).
Proof.
  intros env file_path w ext Hcsv Hjson Hxml. unfold import_file.
  rewrite splitext_lower. cbn [snd]. fold ext.
  apply String.eqb_neq in Hcsv, Hjson, Hxml.
  rewrite Hcsv, Hjson, Hxml. reflexivity.
Qed.

Lemma unsupported_extension_fails_first_witness :
  import_file bare_env "notes.TXT" empty_world
  = (Raise (CommandError (UnsupportedFileFormat ".txt")), empty_world).
Proof.
  apply (unsupported_extension_fails_first bare_env "notes.TXT" empty_world);
    discriminate.
Defined.

(** X6. A path that does not exist ends the run with its own error when its
    turn comes, not before: the files before it have been imported.  The
    run starts from a transaction in order. *)
Theorem missing_file_is_checked_in_turn :
  forall env (before : list string) (file_path : string)
         (after : list string) (clear : bool) (total : nat) (w0 w1 : world),
    needs_rollback w0 = false ->
    handle_files env before 0 (snd (clear_existing clear w0)) = (Ok total, w1) ->
    path_exists env file_path = false ->
    handle env (before ++ file_path :: after)%list clear w0
    = (Raise (CommandError (FileDoesNotExist file_path)), w1).
Proof.
  intros env before file_path after clear total w0 w1 Hw0 Hbefore Hmissing.
  unfold handle, Cmd.bind.
  rewrite (proj1 (clear_existing_ok clear w0 Hw0)).
  rewrite handle_files_app. unfold Cmd.bind. rewrite Hbefore.
  cbn [handle_files]. rewrite Hmissing. reflexivity.
Qed.

Lemma missing_file_is_checked_in_turn_witness :
  handle (env_of [("pois.csv", CsvFile [cafe_row "40.0"])])
    ["pois.csv"; "gone.csv"; "pois.csv"] false empty_world
  = (Raise (CommandError (FileDoesNotExist "gone.csv")),
     idle [saved_cafe (Finite false 400 (-1))]
       [ProcessingFile "pois.csv"; SuccessfullyImported 1 "pois.csv"]).
Proof.
  exact (missing_file_is_checked_in_turn
           (env_of [("pois.csv", CsvFile [cafe_row "40.0"])])
           ["pois.csv"] "gone.csv" ["pois.csv"] false 1 empty_world
           (idle [saved_cafe (Finite false 400 (-1))]
              [ProcessingFile "pois.csv"; SuccessfullyImported 1 "pois.csv"])
           eq_refl eq_refl eq_refl).
Defined.

(* ================================================================== *)
(** * Further properties *)

(** ** Field resolution: what it returns and what it looks at *)

Lemma rstrip_by_idem p (s : string) :
  Str.rstrip_by p (Str.rstrip_by p s) = Str.rstrip_by p s.
Proof.
  induction s as [|c s IH]; simpl; [reflexivity|].
  destruct (Str.is_empty (Str.rstrip_by p s) && p c) eqn:E; simpl;
    [reflexivity|].
  rewrite IH, E. reflexivity.
Qed.

(** Stripping what was stripped changes nothing. *)
Lemma strip_by_idem p (s : string) :
  Str.strip_by p (Str.strip_by p s) = Str.strip_by p s.
Proof.
  unfold Str.strip_by at 1.
  assert (H : Str.lstrip_by p (Str.strip_by p s) = Str.strip_by p s).
  { destruct (Str.strip_by p s) as [|c rest] eqn:E; [reflexivity|].
    unfold Str.strip_by in E.
    destruct (rstrip_by_head _ _ _ _ E) as [rest' E'].
    simpl. rewrite (lstrip_by_head _ _ _ _ E'). reflexivity. }
  rewrite H. apply rstrip_by_idem.
Qed.

(** X7. Whatever [get_xml_text] returns carries no whitespace at either end:
    stripping it again changes nothing, and it neither starts nor ends with
    a whitespace character. *)
Theorem get_xml_text_is_stripped :
  forall (e : element) (tag_names : list string) (s : string),
    get_xml_text e tag_names = Some s ->
    Str.strip s = s
    /\ (forall c rest, s = String c rest -> Str.isspace c = false)
    /\ (forall c, last_char s = Some c -> Str.isspace c = false).
Proof.
  intros e tag_names s. induction tag_names as [|a rest IH]; simpl;
    [discriminate|].
  destruct (has_text (ET.find e a)) as [t|]; [|exact IH].
  intros H. injection H as <-. split; [apply strip_by_idem|]. split.
  - intros c r Hs. unfold Str.strip, Str.strip_by in Hs.
    destruct (rstrip_by_head _ _ _ _ Hs) as [r' Hl].
    exact (lstrip_by_head _ _ _ _ Hl).
  - intros c Hc. exact (rstrip_by_last _ _ _ Hc).
Qed.

Lemma get_xml_text_is_stripped_witness :
  Str.strip "40.7" = "40.7"
  /\ (forall c rest, "40.7" = String c rest -> Str.isspace c = false)
  /\ (forall c, last_char "40.7" = Some c -> Str.isspace c = false).
Proof.
  exact (get_xml_text_is_stripped
           (Element "poi" None [Element "latitude" (Some " 40.7 ") []])
           ["platitude"; "latitude"; "poi_latitude"] "40.7" eq_refl).
Defined.

Lemma find_filter {A} (q keep : A -> bool) (xs : list A) :
  (forall x, q x = true -> keep x = true) ->
  List.find q (filter keep xs) = List.find q xs.
Proof.
  intros H. induction xs as [|x xs IH]; simpl; [reflexivity|].
  destruct (keep x) eqn:Ek; simpl.
  - destruct (q x); [reflexivity | exact IH].
  - destruct (q x) eqn:Eq; [|exact IH].
    rewrite (H x Eq) in Ek. discriminate.
Qed.

Lemma find_keep_only tag_names e a :
  In a tag_names -> ET.find (keep_only tag_names e) a = ET.find e a.
Proof.
  intros Ha. unfold ET.find, keep_only. cbn [ET.children].
  apply find_filter. intros c Hc. apply existsb_exists.
  exists a. split; [exact Ha | exact Hc].
Qed.

Lemma find_app_more {A} (q : A -> bool) (xs more : list A) :
  (forall m, In m more -> q m = true -> exists x, In x xs /\ q x = true) ->
  List.find q (xs ++ more)%list = List.find q xs.
Proof.
  induction xs as [|x xs IH]; intros H; simpl.
  - destruct (List.find q more) as [m|] eqn:Ef; [|reflexivity].
    apply find_some in Ef as [Hin Hq].
    destruct (H m Hin Hq) as (x & [] & _).
  - destruct (q x) eqn:Eq; [reflexivity|].
    apply IH. intros m Hin Hq.
    destruct (H m Hin Hq) as (x' & [<- | Hx] & Hq'); [congruence|eauto].
Qed.

(** X8. [get_xml_text] looks only at the children of the element whose tag
    is one of the aliases, and of those only at the first one for each
    alias: removing every other child, or adding children after the first
    one with a tag, does not change the result. *)
Theorem get_xml_text_reads_only_aliased_children :
  (forall (e : element) (tag_names : list string),
      get_xml_text (keep_only tag_names e) tag_names
      = get_xml_text e tag_names)
  /\ (forall tag text children more (tag_names : list string),
         (forall c, In c more ->
            exists first, In first children /\ ET.tag first = ET.tag c) ->
         get_xml_text (Element tag text (children ++ more)%list) tag_names
         = get_xml_text (Element tag text children) tag_names).
Proof.
  split.
  - intros e tag_names.
    assert (H : forall names, incl names tag_names ->
                  get_xml_text (keep_only tag_names e) names
                  = get_xml_text e names).
    { induction names as [|a rest IH]; intros Hincl; simpl; [reflexivity|].
      rewrite find_keep_only by (apply Hincl; left; reflexivity).
      rewrite IH; [reflexivity|].
      intros x Hx. apply Hincl. right. exact Hx. }
    apply H. apply incl_refl.
  - intros tag text children more tag_names Hmore.
    induction tag_names as [|a rest IH]; simpl; [reflexivity|].
    assert (Hf : ET.find (Element tag text (children ++ more)%list) a
                 = ET.find (Element tag text children) a).
    { unfold ET.find. cbn [ET.children]. apply find_app_more.
      intros m Hin Hq. destruct (Hmore m Hin) as (first & Hfirst & Ht).
      exists first. split; [exact Hfirst|]. rewrite Ht. exact Hq. }
    rewrite Hf, IH. reflexivity.
Qed.

(** A [poi] with a comment-like child and a second [pid]. *)
Lemma get_xml_text_reads_only_aliased_children_witness :
  get_xml_text
    (Element "poi" None
       ([Element "pid" (Some "7") []]
        ++ [Element "pid" (Some "8") []])%list)
    ["pid"; "id"; "poi_id"]
  = get_xml_text (Element "poi" None [Element "pid" (Some "7") []])
      ["pid"; "id"; "poi_id"].
Proof.
  apply (proj2 get_xml_text_reads_only_aliased_children).
  intros c [<- | []]. exists (Element "pid" (Some "7") []).
  split; [left; reflexivity | reflexivity].
Defined.

(** ** The ratings parser on a well-formed list *)

Lemma split_app_sep sep (t rest : string) :
  Str.mem sep t = false ->
  Str.split sep (t ++ String sep rest) = t :: Str.split sep rest.
Proof.
  induction t as [|c t IH]; simpl; intros H.
  - rewrite Ascii.eqb_refl. reflexivity.
  - apply orb_false_elim in H as [Hc Ht].
    rewrite Ascii.eqb_sym, Hc, (IH Ht). reflexivity.
Qed.

(** Splitting what was joined gives the pieces back. *)
Lemma split_join sep (pieces : list string) :
  pieces <> [] ->
  Forall (fun t => Str.mem sep t = false) pieces ->
  Str.split sep (join sep pieces) = pieces.
Proof.
  induction pieces as [|t rest IH]; intros Hne Hall; [congruence|].
  inversion Hall as [|? ? Ht Hrest]; subst.
  destruct rest as [|t' rest'].
  - simpl. apply split_no_sep. exact Ht.
  - change (join sep (t :: t' :: rest'))
      with (t ++ String sep (join sep (t' :: rest'))).
    rewrite split_app_sep by exact Ht.
    rewrite IH; [reflexivity | discriminate | exact Hrest].
Qed.

Lemma all_chars_join p sep (pieces : list string) :
  p sep = true ->
  Forall (fun t => all_chars p t = true) pieces ->
  all_chars p (join sep pieces) = true.
Proof.
  intros Hsep. induction 1 as [|t rest Ht _ IH]; [reflexivity|].
  destruct rest as [|t' rest']; [exact Ht|].
  change (join sep (t :: t' :: rest'))
    with (t ++ String sep (join sep (t' :: rest'))).
  rewrite all_chars_app, Ht. simpl. rewrite Hsep. exact IH.
Qed.

Lemma all_chars_weaken (p q : ascii -> bool) (s : string) :
  (forall c, p c = true -> q c = true) ->
  all_chars p s = true -> all_chars q s = true.
Proof.
  intros H. induction s as [|c s IH]; simpl; [reflexivity|].
  intros Hs. apply andb_prop in Hs as [Hc Hs].
  rewrite (H c Hc), (IH Hs). reflexivity.
Qed.

Lemma all_chars_not_mem p (s : string) c :
  all_chars p s = true -> p c = false -> Str.mem c s = false.
Proof.
  intros Hs Hc. destruct (Str.mem c s) eqn:E; [|reflexivity].
  rewrite (all_chars_mem p s c Hs E) in Hc. discriminate.
Qed.

Lemma parse_ratings_loop_all pieces ratings :
  Forall2 (fun t f => float_.of_str (Str.strip t) = Ok f) pieces ratings ->
  forall acc, parse_ratings_loop pieces acc = Ok (acc ++ ratings)%list.
Proof.
  induction 1 as [|t f pieces ratings Hf _ IH]; intros acc; simpl.
  - rewrite app_nil_r. reflexivity.
  - unfold parse_rating.
    destruct (Str.strip t) as [|c r] eqn:Es; [discriminate Hf|].
    cbn [Str.is_empty negb]. rewrite Hf. cbn [Res.bind Res.try_except].
    rewrite IH, <- app_assoc. reflexivity.
Qed.

(** Brackets around a ratings string do not change what is parsed. *)
Lemma parse_ratings_wrapped (before s after : string) :
  all_chars is_bracket before = true ->
  all_chars is_bracket after = true ->
  parse_ratings (before ++ s ++ after) = parse_ratings s.
Proof.
  intros Hb Ha. unfold parse_ratings.
  replace (Str.strip_chars (before ++ s ++ after) brackets)
    with (Str.strip_chars s brackets)
    by (symmetry; apply (strip_by_wrapped is_bracket); assumption).
  destruct (Str.is_empty (before ++ s ++ after)) eqn:E1.
  - apply is_empty_true in E1.
    destruct before; [|discriminate]. destruct s; [reflexivity|discriminate].
  - destruct (Str.is_empty s) eqn:E2; [|reflexivity].
    apply is_empty_true in E2. subst s. reflexivity.
Qed.

(** X1. A ratings cell written as float literals separated by commas, with
    any brackets around the whole, parses to the values of the literals, all
    of them and in order: [[4.5, 3.0, 5]] and [4.5,3.0,5] alike.  The
    literals may carry whitespace, which is stripped. *)
Theorem parse_ratings_of_joined_literals :
  forall (before after : string) (pieces : list string) (ratings : list float),
    all_chars is_bracket before = true ->
    all_chars is_bracket after = true ->
    Forall (fun t => all_chars plain_char t = true) pieces ->
    Forall2 (fun t f => float_.of_str (Str.strip t) = Ok f) pieces ratings ->
    parse_ratings (before ++ join "," pieces ++ after) = Ok ratings.
Proof.
  intros before after pieces ratings Hb Ha Hplain Hfloat.
  rewrite parse_ratings_wrapped by assumption.
  destruct pieces as [|t rest].
  - inversion Hfloat. reflexivity.
  - assert (Hne : t :: rest <> []) by discriminate.
    set (s := join "," (t :: rest)).
    assert (Hnb : all_chars (fun c => negb (is_bracket c)) s = true).
    { apply all_chars_join; [reflexivity|].
      eapply Forall_impl; [|exact Hplain]. intros x.
      apply all_chars_weaken. intros c Hc.
      apply andb_prop in Hc as [Hc _]. exact Hc. }
    assert (Hstrip : Str.strip_chars s brackets = s).
    { assert (H : forall c, Str.mem c s = true -> is_bracket c = false).
      { intros c Hc. apply negb_true_iff.
        exact (all_chars_mem _ _ _ Hnb Hc). }
      unfold Str.strip_chars, Str.strip_by.
      rewrite (lstrip_by_none is_bracket) by exact H.
      apply (rstrip_by_none is_bracket). exact H. }
    assert (Hsplit : Str.split "," s = t :: rest).
    { apply split_join; [exact Hne|].
      eapply Forall_impl; [|exact Hplain]. intros x Hx.
      apply (all_chars_not_mem plain_char); [exact Hx | reflexivity]. }
    assert (Hs : Str.is_empty s = false).
    { destruct s eqn:Es; [|reflexivity]. exfalso.
      unfold s in Es. inversion Hfloat as [|? f ? ? Hf _]; subst.
      destruct rest; simpl in Es.
      - subst t. discriminate Hf.
      - destruct t; discriminate Es. }
    unfold parse_ratings. rewrite Hs, Hstrip, Hs, Hsplit.
    exact (parse_ratings_loop_all _ _ Hfloat []).
Qed.

(** The cell [[4.5, 3.0, 5]] of the CSV format. *)
Lemma parse_ratings_of_joined_literals_witness :
  parse_ratings "[4.5, 3.0, 5]" = Ok [4.5%float; 3%float; 5%float].
Proof.
  apply (parse_ratings_of_joined_literals "[" "]" ["4.5"; " 3.0"; " 5"]
           [4.5%float; 3%float; 5%float] eq_refl eq_refl).
  - repeat constructor.
  - repeat constructor.
Defined.

(** ** How a row ends *)

Lemma for_each_app {A} (body : A -> nat -> M nat) (xs ys : list A) :
  forall n w,
    Cmd.for_each (xs ++ ys)%list body n w
    = Cmd.bind (Cmd.for_each xs body n) (Cmd.for_each ys body) w.
Proof.
  induction xs as [|x xs IH]; intros n w; [reflexivity|].
  cbn [app Cmd.for_each]. rewrite bind_assoc. apply bind_ext.
  intros n' w'. apply IH.
Qed.

(** Once a row has left the transaction waiting for a rollback, the loop
    ends with it waiting. *)
Lemma for_each_breaks {A} env silent (body : A -> nat -> M nat)
      before x after n k w w1 :
  (forall y m v, row_step env silent m v (body y m v)) ->
  Cmd.for_each before body n w = (Ok k, w1) ->
  needs_rollback (snd (body x k w1)) = true ->
  needs_rollback (snd (Cmd.for_each (before ++ x :: after)%list body n w))
  = true.
Proof.
  intros Hstep Hb Hx. rewrite for_each_app. unfold Cmd.bind. rewrite Hb.
  cbn [Cmd.for_each]. unfold Cmd.bind.
  destruct (body x k w1) as [[k'|e] w2]; cbn [snd] in Hx; [|exact Hx].
  destruct (for_each_steps env silent body Hstep after k' w2)
    as (new & msgs & _ & _ & _ & H & _).
  exact (H Hx).
Qed.

(** A block that ends with the transaction waiting for a rollback leaves
    the table as it was. *)
Lemma atomic_broken {A} (f : M A) w :
  needs_rollback w = false ->
  needs_rollback (snd (f (Cmd.enter w))) = true ->
  table (snd (Cmd.atomic f w)) = table w.
Proof.
  intros Hw H. rewrite atomic_spec by exact Hw.
  destruct (f (Cmd.enter w)) as [[a|e] w']; cbn [snd] in *; [|reflexivity].
  rewrite H. reflexivity.
Qed.

Lemma for_each_in_block {A} env silent (body : A -> nat -> M nat) xs n w :
  (forall y m v, row_step env silent m v (body y m v)) ->
  in_atomic_block (snd (Cmd.for_each xs body n w)) = in_atomic_block w.
Proof.
  intros Hstep.
  destruct (for_each_steps env silent body Hstep xs n w)
    as (new & msgs & _ & _ & H & _).
  exact H.
Qed.

(** A row that is built and that the database refuses, at the row. *)
Lemma row_outcome_refused env (poi : PointOfInterest) avg e
      classes line n w :
  models.calculated_avg_rating (ratings_data poi) = Ok avg ->
  db_insert_error env (set_avg_rating poi avg) = Some e ->
  row_outcome env (Ok (Some poi)) classes line n w
  = on_raise classes
      (line (if is_DatabaseError e && needs_rollback w
             then TransactionManagementError else e))
      (if is_DatabaseError e && needs_rollback w
       then TransactionManagementError else e)
      n (marked w).
Proof.
  intros Ha Hd. unfold row_outcome, refusal. rewrite Ha, Hd. reflexivity.
Qed.

Lemma on_raise_marks classes line e n w :
  in_atomic_block w = true ->
  needs_rollback (snd (on_raise classes line e n (marked w))) = true.
Proof.
  intros Hb. unfold on_raise. destruct (classes e); cbn [snd extend marked
    needs_rollback]; rewrite Hb; apply orb_true_r.
Qed.

(** X9. A row that the database refuses does not cost only itself.  From a
    transaction in order, the row is skipped, with a line on standard
    output, when the exception is a [KeyError], a [ValueError] or an
    [InvalidOperation] (for an XML element: one of the last two), and ends
    the import of the file with that exception otherwise; no row is
    written, and inside an atomic block the exception leaves the transaction
    waiting for a rollback.  From then on [save] raises for every row.  So
    the file of such a row keeps none of its rows: whatever the import
    returns, the table is as it was before the file. *)
Theorem database_refusal_skips_or_aborts :
  forall env (poi : PointOfInterest) (avg : option float) (e : exn),
    models.calculated_avg_rating (ratings_data poi) = Ok avg ->
    db_insert_error env (set_avg_rating poi avg) = Some e ->
    (forall (n : nat) (w : world),
        needs_rollback w = false ->
        (forall row, csv_poi row = Ok poi ->
           import_csv_row env row n w
           = if skips e
             then (Ok n, extend (marked w) [] [SkippingInvalidCsvRow row e])
             else (Raise e, marked w))
        /\ (forall item, json_poi env item = Ok poi ->
              import_json_item env item n w
              = if skips e
                then (Ok n,
                      extend (marked w) [] [SkippingInvalidJsonItem item e])
                else (Raise e, marked w))
        /\ (forall poi_elem, xml_poi poi_elem = Ok (Some poi) ->
              import_xml_element env poi_elem n w
              = if skips_xml e
                then (Ok n, extend (marked w) [] [SkippingInvalidXmlElement e])
                else (Raise e, marked w)))
    /\ (forall w : world,
           table (marked w) = table w
           /\ (in_atomic_block w = true -> needs_rollback (marked w) = true))
    /\ (forall (other : PointOfInterest) (w : world),
           needs_rollback w = true ->
           exists e',
             fst (models.save env other w) = Raise e'
             /\ table (snd (models.save env other w)) = table w
             /\ needs_rollback (snd (models.save env other w)) = true)
    /\ (forall (file_path : string) (before : list csv_row) (row : csv_row)
               (after : list csv_row) failure (k : nat) (w w1 : world),
           needs_rollback w = false ->
           csv_DictReader env file_path
           = ((before ++ row :: after)%list, failure) ->
           Cmd.for_each before (import_csv_row env) 0 (Cmd.enter w)
           = (Ok k, w1) ->
           csv_poi row = Ok poi ->
           table (snd (import_csv env file_path w)) = table w)
    /\ (forall (file_path : string) (before : list value) (item : value)
               (after : list value) (k : nat) (w w1 : world),
           needs_rollback w = false ->
           json_load env file_path = Ok (VList (before ++ item :: after)%list) ->
           Cmd.for_each before (import_json_item env) 0 (Cmd.enter w)
           = (Ok k, w1) ->
           json_poi env item = Ok poi ->
           table (snd (import_json env file_path w)) = table w)
    /\ (forall (file_path : string) (root : element) (before : list element)
               (poi_elem : element) (after : list element) (k : nat)
               (w w1 : world),
           needs_rollback w = false ->
           ET_parse env file_path = Ok root ->
           poi_elements_of root = (before ++ poi_elem :: after)%list ->
           Cmd.for_each before (import_xml_element env) 0 (Cmd.enter w)
           = (Ok k, w1) ->
           xml_poi poi_elem = Ok (Some poi) ->
           table (snd (import_xml env file_path w)) = table w).
Proof.
  intros env poi avg e Havg Hdb.
  assert (Hrow : forall classes line n w,
             needs_rollback w = false ->
             row_outcome env (Ok (Some poi)) classes line n w
             = on_raise classes (line e) e n (marked w)).
  { intros classes line n w Hw.
    rewrite (row_outcome_refused env poi avg e) by assumption.
    rewrite Hw, andb_false_r. reflexivity. }
  assert (Hmark : forall classes line k w1,
             in_atomic_block w1 = true ->
             needs_rollback
               (snd (row_outcome env (Ok (Some poi)) classes line k w1))
             = true).
  { intros classes line k w1 Hb.
    rewrite (row_outcome_refused env poi avg e) by assumption.
    apply on_raise_marks. exact Hb. }
  split; [|split; [|split; [|split; [|split]]]].
  - intros n w Hw. split; [|split].
    + intros row Hp. rewrite import_csv_row_outcome, Hp. apply Hrow, Hw.
    + intros item Hp. rewrite import_json_item_outcome, Hp. apply Hrow, Hw.
    + intros poi_elem Hp. rewrite import_xml_element_outcome, Hp.
      apply Hrow, Hw.
  - intros w. split; [reflexivity | apply marked_in_block].
  - intros other w Hw. rewrite save_spec.
    destruct (models.calculated_avg_rating (ratings_data other)) as [a|e'].
    + unfold refusal. rewrite Hw.
      destruct (db_insert_error env (set_avg_rating other a)) as [e'|];
        eexists;
        (split; [reflexivity|]); cbn [snd marked table needs_rollback];
        rewrite Hw; auto.
    + exists e'. auto.
  - intros file_path before row after failure k w w1 Hw Hread Hbefore Hp.
    assert (Hb1 : in_atomic_block w1 = true).
    { pose proof (for_each_in_block env false (import_csv_row env)
                    before 0 (Cmd.enter w) (import_csv_row_step env)) as Hi.
      rewrite Hbefore in Hi. exact Hi. }
    unfold import_csv. apply atomic_broken; [exact Hw|].
    unfold import_csv_body. rewrite Hread. unfold Cmd.bind.
    pose proof (for_each_breaks env false (import_csv_row env)
                  before row after 0 k (Cmd.enter w) w1
                  (import_csv_row_step env) Hbefore) as H.
    rewrite import_csv_row_outcome, Hp in H.
    specialize (H (Hmark _ _ _ _ Hb1)).
    destruct (Cmd.for_each (before ++ row :: after) (import_csv_row env) 0
                (Cmd.enter w)) as [[m|e'] w2]; cbn [snd] in *; [|exact H].
    destruct failure; exact H.
  - intros file_path before item after k w w1 Hw Hread Hbefore Hp.
    assert (Hb1 : in_atomic_block w1 = true).
    { pose proof (for_each_in_block env false (import_json_item env)
                    before 0 (Cmd.enter w) (import_json_item_step env)) as Hi.
      rewrite Hbefore in Hi. exact Hi. }
    unfold import_json. apply atomic_broken; [exact Hw|].
    unfold import_json_body, Cmd.bind, Cmd.lift. rewrite Hread.
    cbn [Py.iterate].
    apply (for_each_breaks env false (import_json_item env)
             before item after 0 k (Cmd.enter w) w1
             (import_json_item_step env) Hbefore).
    rewrite import_json_item_outcome, Hp. apply Hmark, Hb1.
  - intros file_path root before poi_elem after k w w1
           Hw Hread Hcand Hbefore Hp.
    assert (Hb1 : in_atomic_block w1 = true).
    { pose proof (for_each_in_block env true (import_xml_element env)
                    before 0 (Cmd.enter w) (import_xml_element_step env))
        as Hi.
      rewrite Hbefore in Hi. exact Hi. }
    unfold import_xml. apply atomic_broken; [exact Hw|].
    unfold import_xml_body, Cmd.bind, Cmd.lift. rewrite Hread, Hcand.
    apply (for_each_breaks env true (import_xml_element env)
             before poi_elem after 0 k (Cmd.enter w) w1
             (import_xml_element_step env) Hbefore).
    rewrite import_xml_element_outcome, Hp. apply Hmark, Hb1.
Qed.


(** The bar rated [[10,10]] between two cafes, on a backend that stores the
    average with three digits: the row is skipped inside the block, and the
    file leaves no row. *)
Lemma database_refusal_skips_or_aborts_witness :
  import_csv_row
    (with_database
       (env_of [("pois.csv",
                 CsvFile [cafe_row "40.0"; top_rated_row; cafe_row "41.5"])])
       three_digit_averages)
    top_rated_row 1 (Cmd.enter empty_world)
  = (Ok 1,
     extend (marked (Cmd.enter empty_world)) []
       [SkippingInvalidCsvRow top_rated_row InvalidOperation])
  /\ table
       (snd (import_csv
               (with_database
                  (env_of [("pois.csv",
                            CsvFile [cafe_row "40.0"; top_rated_row;
                                     cafe_row "41.5"])])
                  three_digit_averages)
               "pois.csv" empty_world))
     = table empty_world.
Proof.
  pose proof (database_refusal_skips_or_aborts
                (with_database
                   (env_of [("pois.csv",
                             CsvFile [cafe_row "40.0"; top_rated_row;
                                      cafe_row "41.5"])])
                   three_digit_averages)
                top_rated (Some 10%float) InvalidOperation
                eq_refl eq_refl) as (Hrow & _ & _ & Hcsv & _).
  split.
  - exact (proj1 (Hrow 1 (Cmd.enter empty_world) eq_refl)
             top_rated_row eq_refl).
  - exact (Hcsv "pois.csv" [cafe_row "40.0"] top_rated_row [cafe_row "41.5"]
             None 1 empty_world _ eq_refl eq_refl eq_refl eq_refl).
Defined.

Lemma forallb_present_false (fields : list (option string)) :
  (exists x, In x fields /\ present x = false) ->
  forallb present fields = false.
Proof.
  intros (x & Hin & Hx). induction fields as [|y ys IH]; [destruct Hin|].
  simpl. destruct Hin as [-> | Hin].
  - rewrite Hx. reflexivity.
  - rewrite (IH Hin). apply andb_false_r.
Qed.

(** X10. An XML element for which one of the five required fields resolves
    to nothing (no alias has text, or the text is only whitespace) is passed
    over in silence: the counter, the table and standard output are left as
    they are, and no exception is raised. *)
Theorem xml_element_missing_a_field_is_passed_over :
  forall env (poi_elem : element) (tag_names : list string)
         (n : nat) (w : world),
    In tag_names required_tags ->
    present (get_xml_text poi_elem tag_names) = false ->
    import_xml_element env poi_elem n w = (Ok n, w).
Proof.
  intros env poi_elem tag_names n w Hin Hmissing.
  rewrite import_xml_element_outcome.
  assert (Hx : xml_poi poi_elem = Ok None).
  { unfold xml_poi. rewrite forallb_present_false; [reflexivity|].
    exists (get_xml_text poi_elem tag_names). split; [|exact Hmissing].
    unfold required_tags in Hin. simpl in Hin.
    destruct Hin as [<- | [<- | [<- | [<- | [<- | []]]]]]; simpl; auto 6. }
  rewrite Hx. reflexivity.
Qed.

(** An element with every field but a name. *)
Lemma xml_element_missing_a_field_is_passed_over_witness :
  import_xml_element bare_env
    (Element "poi" None
       [Element "pid" (Some "id1") [];
        Element "latitude" (Some "40.0") [];
        Element "plongitude" (Some "-73.0") [];
        Element "pcategory" (Some "food") []]) 0 empty_world
  = (Ok 0, empty_world).
Proof.
  apply (xml_element_missing_a_field_is_passed_over bare_env _
           ["pname"; "name"; "poi_name"] 0 empty_world).
  - right. left. reflexivity.
  - reflexivity.
Defined.

(** ** How a file ends *)

(** A loop of rows that are all built and saved, in a transaction in
    order. *)
Lemma for_each_all_saved {A} env (body : A -> nat -> M nat)
      (built : A -> result PointOfInterest) (line : A -> exn -> message)
      classes :
  (forall x n w,
      body x n w
      = row_outcome env (Res.bind (built x) (fun poi => Ok (Some poi)))
          classes (line x) n w) ->
  forall xs pois,
    Forall2 (fun x poi' => Res.bind (built x) (saved env) = Ok poi') xs pois ->
    forall n w,
      needs_rollback w = false ->
      Cmd.for_each xs body n w
      = (Ok (n + List.length xs)%nat, extend w pois []).
Proof.
  intros Hbody xs pois H. induction H as [|x poi' xs pois Hx _ IH];
    intros n w Hw; simpl.
  - rewrite extend_nil, Nat.add_0_r. reflexivity.
  - unfold Cmd.bind.
    rewrite Hbody, (row_outcome_saved env (built x) poi') by assumption.
    rewrite IH by exact Hw. rewrite extend_extend.
    f_equal. f_equal. lia.
Qed.

(** A block that returns with the transaction in order, and what it did. *)
Lemma atomic_commits {A} (f : M A) w (a : A) new msgs :
  needs_rollback w = false ->
  f (Cmd.enter w) = (Ok a, extend (Cmd.enter w) new msgs) ->
  Cmd.atomic f w = (Ok a, extend w new msgs).
Proof.
  intros Hw H. rewrite atomic_spec, H by exact Hw.
  destruct (enter_in_order w Hw) as (_ & Hb & _).
  cbn [extend needs_rollback] in *. rewrite Hb. reflexivity.
Qed.

(** X11. A CSV file, and a JSON array, whose rows can all be built and saved
    is imported whole, from a transaction in order: the count is the number
    of rows, the rows are inserted after those already there in the order of
    the file, and nothing is written to standard output. *)
Theorem file_of_valid_rows_is_imported_in_order :
  (forall env (file_path : string) (rows : list csv_row)
          (pois : list PointOfInterest) (w : world),
      needs_rollback w = false ->
      csv_DictReader env file_path = (rows, None) ->
      Forall2 (fun row poi' => Res.bind (csv_poi row) (saved env) = Ok poi')
              rows pois ->
      import_csv env file_path w
      = (Ok (List.length rows), extend w pois []))
  /\ (forall env (file_path : string) (items : list value)
             (pois : list PointOfInterest) (w : world),
         needs_rollback w = false ->
         json_load env file_path = Ok (VList items) ->
         Forall2 (fun item poi' =>
                    Res.bind (json_poi env item) (saved env) = Ok poi')
                 items pois ->
         import_json env file_path w
         = (Ok (List.length items), extend w pois [])).
Proof.
  split.
  - intros env file_path rows pois w Hw Hread Hall.
    apply atomic_commits; [exact Hw|].
    unfold import_csv_body. rewrite Hread. unfold Cmd.bind.
    rewrite (for_each_all_saved env (import_csv_row env) csv_poi
               SkippingInvalidCsvRow skips
               (import_csv_row_outcome env) rows pois Hall)
      by apply (enter_in_order w Hw).
    reflexivity.
  - intros env file_path items pois w Hw Hread Hall.
    apply atomic_commits; [exact Hw|].
    unfold import_json_body, Cmd.bind, Cmd.lift.
    rewrite Hread. cbn [Py.iterate].
    rewrite (for_each_all_saved env (import_json_item env) (json_poi env)
               SkippingInvalidJsonItem skips
               (import_json_item_outcome env) items pois Hall)
      by apply (enter_in_order w Hw).
    reflexivity.
Qed.

(** A CSV file of two cafes. *)
Lemma file_of_valid_rows_is_imported_in_order_witness :
  import_csv
    (env_of [("pois.csv", CsvFile [cafe_row "40.0"; cafe_row "41.5"])])
    "pois.csv" empty_world
  = (Ok 2,
     extend empty_world
       [saved_cafe (Finite false 400 (-1)); saved_cafe (Finite false 415 (-1))]
       []).
Proof.
  apply (proj1 file_of_valid_rows_is_imported_in_order
           (env_of [("pois.csv", CsvFile [cafe_row "40.0"; cafe_row "41.5"])])
           "pois.csv" [cafe_row "40.0"; cafe_row "41.5"]
           [saved_cafe (Finite false 400 (-1));
            saved_cafe (Finite false 415 (-1))] empty_world eq_refl eq_refl).
  repeat constructor.
Defined.




(** A row that raises outside the handler's classes ends the loop. *)
Lemma for_each_fatal {A} (body : A -> nat -> M nat) before x after e n w w1 :
  Cmd.for_each before body 0 w = (Ok n, w1) ->
  body x n w1 = (Raise e, w1) ->
  Cmd.for_each (before ++ x :: after)%list body 0 w = (Raise e, w1).
Proof.
  intros Hb Hx. rewrite for_each_app. unfold Cmd.bind. rewrite Hb.
  cbn [Cmd.for_each]. unfold Cmd.bind. rewrite Hx. reflexivity.
Qed.

(** X13. A CSV line too short to have a cell under [poi_ratings] is not
    skipped: [csv.DictReader] gives [None] for the cell, [.strip()] raises
    [AttributeError], which the loop does not catch; the import of the file
    ends with it, and the rows inserted from the lines before, inside the
    block, are rolled back (the lines already written to standard output
    stay). *)
Theorem csv_short_line_aborts_the_file :
  forall env (file_path : string) (before : list csv_row) (row : csv_row)
         (after : list csv_row) failure (n : nat) (w w1 : world),
    needs_rollback w = false ->
    csv_DictReader env file_path = ((before ++ row :: after)%list, failure) ->
    Cmd.for_each before (import_csv_row env) 0 (Cmd.enter w) = (Ok n, w1) ->
    assoc "poi_ratings" row = Some None ->
    import_csv env file_path w
    = (Raise AttributeError,
       {| table := table w;
          stdout := stdout w1;
          in_atomic_block := in_atomic_block w;
          needs_rollback := false |}).
Proof.
  intros env file_path before row after failure n w w1 Hw Hread Hbefore Hcell.
  assert (Hrow : import_csv_row env row n w1 = (Raise AttributeError, w1)).
  { rewrite import_csv_row_outcome. unfold csv_poi, row_ratings_str.
    rewrite Hcell. reflexivity. }
  unfold import_csv. rewrite atomic_spec by exact Hw.
  unfold import_csv_body. rewrite Hread. unfold Cmd.bind.
  rewrite (for_each_fatal _ _ _ _ _ _ _ _ Hbefore Hrow), Hw. reflexivity.
Qed.

Lemma csv_short_line_aborts_the_file_witness :
  import_csv
    (env_of [("pois.csv", CsvFile [cafe_row "40.0"; short_row])])
    "pois.csv" empty_world
  = (Raise AttributeError,
     {| table := table empty_world;
        stdout := [];
        in_atomic_block := in_atomic_block empty_world;
        needs_rollback := false |}).
Proof.
  exact (csv_short_line_aborts_the_file
           (env_of [("pois.csv", CsvFile [cafe_row "40.0"; short_row])])
           "pois.csv" [cafe_row "40.0"] short_row [] None 1 empty_world
           {| table := [saved_cafe (Finite false 400 (-1))];
              stdout := [];
              in_atomic_block := true;
              needs_rollback := false |}
           eq_refl eq_refl eq_refl eq_refl).
Defined.

(** X14. An element of a JSON array that is not an object is not skipped:
    it has no [get], the [AttributeError] is not caught, the import of the
    file ends with it and the rows inserted from the elements before, inside
    the block, are rolled back.  A document that is [null], a number or a
    boolean ends the import with a [TypeError] before any row. *)
Theorem json_non_object_aborts_the_file :
  (forall env (file_path : string) (before : list value) (item : value)
          (after : list value) (n : nat) (w w1 : world),
      needs_rollback w = false ->
      json_load env file_path = Ok (VList (before ++ item :: after)%list) ->
      Cmd.for_each before (import_json_item env) 0 (Cmd.enter w) = (Ok n, w1) ->
      (forall fields, item <> VDict fields) ->
      import_json env file_path w
      = (Raise AttributeError,
         {| table := table w;
            stdout := stdout w1;
            in_atomic_block := in_atomic_block w;
            needs_rollback := false |}))
  /\ (forall env (file_path : string) (data : value) (w : world),
         needs_rollback w = false ->
         json_load env file_path = Ok data ->
         Py.iterate data = Raise TypeError ->
         import_json env file_path w = (Raise TypeError, w)).
Proof.
  split.
  - intros env file_path before item after n w w1 Hw Hread Hbefore Hitem.
    assert (Hrow : import_json_item env item n w1 = (Raise AttributeError, w1)).
    { rewrite import_json_item_outcome. unfold json_poi.
      destruct item; try reflexivity. exfalso. exact (Hitem _ eq_refl). }
    unfold import_json. rewrite atomic_spec by exact Hw.
    unfold import_json_body, Cmd.bind, Cmd.lift.
    rewrite Hread. cbn [Py.iterate].
    rewrite (for_each_fatal _ _ _ _ _ _ _ _ Hbefore Hrow), Hw. reflexivity.
  - intros env file_path data w Hw Hread Hiter.
    unfold import_json. rewrite atomic_spec by exact Hw.
    unfold import_json_body, Cmd.bind, Cmd.lift.
    rewrite Hread.
    destruct data; try discriminate Hiter;
      rewrite Hiter; destruct w; reflexivity.
Qed.

(** An array with a number in it, and a document that is a number. *)
Lemma json_non_object_aborts_the_file_witness :
  import_json
    (env_of [("pois.json", JsonFile (VList [VInt 5]))]) "pois.json"
    empty_world
  = (Raise AttributeError,
     {| table := table empty_world;
        stdout := [];
        in_atomic_block := in_atomic_block empty_world;
        needs_rollback := false |})
  /\ import_json
       (env_of [("pois.json", JsonFile (VInt 5))]) "pois.json" empty_world
     = (Raise TypeError, empty_world).
Proof.
  split.
  - apply (proj1 json_non_object_aborts_the_file
             (env_of [("pois.json", JsonFile (VList [VInt 5]))]) "pois.json"
             [] (VInt 5) [] 0 empty_world (Cmd.enter empty_world)
             eq_refl eq_refl eq_refl).
    discriminate.
  - exact (proj2 json_non_object_aborts_the_file
             (env_of [("pois.json", JsonFile (VInt 5))]) "pois.json"
             (VInt 5) empty_world eq_refl eq_refl eq_refl).
Defined.

(** ** JSON objects *)

(** X15. In a JSON object the ratings and the description are optional, and
    the id is turned into a string: an object with [id], [name], [category]
    and coordinates that [Decimal] accepts, and with neither [ratings] nor
    [description], is inserted and counted when the database accepts the
    row, in a transaction in order, with empty ratings, no average and the
    empty description. *)
Theorem json_ratings_and_description_are_optional :
  forall env (fields coordinates : list (string * value))
         (id name_ category_ lat lon : value)
         (dlat dlon : Decimal) (n : nat) (w : world),
    needs_rollback w = false ->
    assoc "id" fields = Some id ->
    assoc "name" fields = Some name_ ->
    assoc "category" fields = Some category_ ->
    assoc "coordinates" fields = Some (VDict coordinates) ->
    assoc "latitude" coordinates = Some lat ->
    decimal.of_str (str env lat) = Ok dlat ->
    assoc "longitude" coordinates = Some lon ->
    decimal.of_str (str env lon) = Ok dlon ->
    assoc "ratings" fields = None ->
    assoc "description" fields = None ->
    let poi :=
      {| external_id := VStr (str env id);
         name := name_;
         latitude := dlat;
         longitude := dlon;
         category := category_;
         ratings_data := VList [];
         avg_rating := None;
         description := VStr "" |} in
    db_insert_error env poi = None ->
    import_json_item env (VDict fields) n w
    = (Ok (n + 1)%nat, extend w [poi] []).
Proof.
  intros env fields coordinates id name_ category_ lat lon dlat dlon
         n w Hw Hid Hname Hcat Hcoord Hlat Dlat Hlon Dlon Hratings Hdesc
         poi Hdb.
  apply (import_json_item_inserts env (VDict fields) poi None n w);
    [exact Hw| |reflexivity|exact Hdb].
  unfold json_poi. cbn [Py.get Py.getitem Res.bind].
  rewrite Hcoord, Hratings, Hid, Hname. cbn [Py.getitem Res.bind].
  rewrite Hlat. cbn [Res.bind]. rewrite Dlat. cbn [Res.bind].
  rewrite Hlon. cbn [Res.bind]. rewrite Dlon. cbn [Res.bind].
  rewrite Hcat, Hdesc. reflexivity.
Qed.

Lemma json_ratings_and_description_are_optional_witness :
  import_json_item bare_env
    (VDict [("id", VInt 7); ("name", VStr "Bar");
            ("coordinates",
             VDict [("latitude", VStr "40.0"); ("longitude", VStr "-73.0")]);
            ("category", VStr "food")]) 0 empty_world
  = (Ok 1, extend empty_world [bar (VList [])] []).
Proof.
  exact (json_ratings_and_description_are_optional bare_env
           [("id", VInt 7); ("name", VStr "Bar");
            ("coordinates",
             VDict [("latitude", VStr "40.0"); ("longitude", VStr "-73.0")]);
            ("category", VStr "food")]
           [("latitude", VStr "40.0"); ("longitude", VStr "-73.0")]
           (VInt 7) (VStr "Bar") (VStr "food") (VStr "40.0") (VStr "-73.0")
           (Finite false 400 (-1)) (Finite true 730 (-1)) 0 empty_world
           eq_refl eq_refl eq_refl eq_refl eq_refl eq_refl eq_refl eq_refl
           eq_refl eq_refl eq_refl eq_refl).
Defined.

(** ** The average and the count *)

Lemma map_ok_nil {A B} (f : A -> result B) xs :
  Res.map f xs = Ok [] -> xs = [].
Proof.
  intros H. apply map_ok_length in H. destruct xs; [reflexivity|discriminate].
Qed.

(** X16. The two derived values agree: whenever [save] computes an average,
    [rating_count] returns a count of at least one; and when [rating_count]
    returns 0, the average that [save] computes is [None]. *)
Theorem average_goes_with_a_positive_count :
  forall (self : PointOfInterest),
    (forall avg,
        models.calculated_avg_rating (ratings_data self) = Ok (Some avg) ->
        exists n, models.rating_count self = Ok n /\ (1 <= n)%nat)
    /\ (models.rating_count self = Ok 0 ->
        models.calculated_avg_rating (ratings_data self) = Ok None).
Proof.
  intros self. unfold models.calculated_avg_rating, models.rating_count.
  destruct (Py.truthy (ratings_data self)); [|split; [discriminate|reflexivity]].
  destruct (Py.iterate (ratings_data self)) as [items|e] eqn:Ei;
    cbn [Res.bind Res.try_except].
  - fold (non_null items).
    destruct (Res.map Builtin.float (non_null items)) as [ratings|e] eqn:Em;
      cbn [Res.bind Res.try_except].
    + split.
      * intros avg H. exists (List.length (non_null items)).
        split; [reflexivity|].
        rewrite <- (map_ok_length _ _ _ Em).
        destruct ratings; [discriminate H | simpl; lia].
      * intros H. injection H as H.
        rewrite <- (map_ok_length _ _ _ Em) in H.
        destruct ratings; [reflexivity | discriminate H].
    + split.
      * intros avg H. destruct (is_ValueError e || is_TypeError e);
          discriminate H.
      * intros H. injection H as H.
        destruct (non_null items); [discriminate Em | discriminate H].
  - split; [|discriminate].
    intros avg H. destruct (is_ValueError e || is_TypeError e); discriminate H.
Qed.

(** The cafe rated [[4, None, 2]]: an average, and a count of two. *)
Lemma average_goes_with_a_positive_count_witness :
  exists n,
    models.rating_count (cafe (VList [VInt 4; VNone; VInt 2])) = Ok n
    /\ (1 <= n)%nat.
Proof.
  exact (proj1 (average_goes_with_a_positive_count
                  (cafe (VList [VInt 4; VNone; VInt 2])))
           3%float eq_refl).
Defined.

Lemma map_raise_at {A B} (f : A -> result B) xs ys x zs e :
  Res.map f xs = Ok ys -> f x = Raise e ->
  Res.map f (xs ++ x :: zs)%list = Raise e.
Proof.
  revert ys. induction xs as [|x' xs IH]; intros ys Hxs Hx; simpl in *.
  - rewrite Hx. reflexivity.
  - destruct (f x'); [|discriminate Hxs]. simpl in *.
    destruct (Res.map f xs) as [ys'|]; [|discriminate Hxs].
    rewrite (IH ys' eq_refl Hx). reflexivity.
Qed.

Lemma non_null_app xs ys :
  non_null (xs ++ ys)%list = (non_null xs ++ non_null ys)%list.
Proof. apply filter_app. Qed.

(** X17. Ratings that are a number or [True] (a JSON document may have them)
    are saved, in a transaction in order, with no average, since [save]
    catches the [TypeError] of iterating them; [rating_count] does not catch
    it, so the property, and with it the column of the admin list page,
    raises [TypeError] for the saved row. *)
Theorem scalar_ratings_are_saved_but_cannot_be_counted :
  forall env (self : PointOfInterest) (w : world),
    needs_rollback w = false ->
    scalar_ratings (ratings_data self) ->
    db_insert_error env (set_avg_rating self None) = None ->
    models.save env self w
    = (Ok (set_avg_rating self None),
       extend w [set_avg_rating self None] [])
    /\ models.rating_count (set_avg_rating self None) = Raise TypeError
    /\ admin.rating_count (set_avg_rating self None) = Raise TypeError.
Proof.
  intros env self w Hw [Ht Hs] Hdb.
  assert (Hi : Py.iterate (ratings_data self) = Raise TypeError).
  { destruct (ratings_data self); try contradiction; reflexivity. }
  assert (Hc : models.rating_count (set_avg_rating self None)
               = Raise TypeError).
  { unfold models.rating_count. cbn [ratings_data set_avg_rating].
    rewrite Ht, Hi. reflexivity. }
  split; [|split; exact Hc].
  rewrite save_saved by exact Hw. unfold saved, models.calculated_avg_rating.
  rewrite Ht, Hi. cbn [Res.bind Res.try_except is_ValueError is_TypeError orb].
  rewrite Hdb. reflexivity.
Qed.

(** The JSON object with ["ratings": 5], as [import_json] builds it. *)
Lemma scalar_ratings_are_saved_but_cannot_be_counted_witness :
  json_poi bare_env (rated_item (VInt 5)) = Ok (bar (VInt 5))
  /\ models.save bare_env (bar (VInt 5)) empty_world
     = (Ok (set_avg_rating (bar (VInt 5)) None),
        extend empty_world [set_avg_rating (bar (VInt 5)) None] [])
  /\ models.rating_count (set_avg_rating (bar (VInt 5)) None)
     = Raise TypeError
  /\ admin.rating_count (set_avg_rating (bar (VInt 5)) None)
     = Raise TypeError.
Proof.
  split; [reflexivity|].
  exact (scalar_ratings_are_saved_but_cannot_be_counted bare_env
           (bar (VInt 5)) empty_world eq_refl (conj eq_refl I) eq_refl).
Defined.

(** X18. An integer rating too large for a float, after ratings that
    convert, makes [save] raise [OverflowError] before anything is written:
    [save] catches only [ValueError] and [TypeError].  No loop of the command
    catches it either, so a JSON object with such ratings ends the import of
    its file. *)
Theorem overflowing_rating_is_fatal :
  forall env (self : PointOfInterest) (before after : list value) (z : Z)
         (ratings : list float) (w : world),
    ratings_data self = VList (before ++ VInt z :: after)%list ->
    Res.map Builtin.float (non_null before) = Ok ratings ->
    float_.of_Z z = Raise OverflowError ->
    models.save env self w = (Raise OverflowError, w)
    /\ forall item n,
         json_poi env item = Ok self ->
         import_json_item env item n w = (Raise OverflowError, w).
Proof.
  intros env self before after z ratings w Hr Hb Hz.
  assert (Hs : models.calculated_avg_rating (ratings_data self)
               = Raise OverflowError).
  { rewrite Hr, calculated_avg_rating_list, non_null_app.
    cbn [non_null filter Py.is_None negb]. fold (non_null after).
    rewrite (map_raise_at Builtin.float _ _ (VInt z) _ OverflowError Hb Hz).
    reflexivity. }
  split.
  - rewrite save_spec, Hs. reflexivity.
  - intros item n Hp. rewrite import_json_item_outcome, Hp.
    cbn [Res.bind row_outcome]. rewrite Hs. reflexivity.
Qed.

(** The ratings [[4, 2 ** 1024]]. *)
Lemma overflowing_rating_is_fatal_witness :
  models.save bare_env (bar (VList [VInt 4; VInt (2 ^ 1024)])) empty_world
  = (Raise OverflowError, empty_world)
  /\ forall item n,
       json_poi bare_env item = Ok (bar (VList [VInt 4; VInt (2 ^ 1024)])) ->
       import_json_item bare_env item n empty_world
       = (Raise OverflowError, empty_world).
Proof.
  exact (overflowing_rating_is_fatal bare_env
           (bar (VList [VInt 4; VInt (2 ^ 1024)])) [VInt 4] [] (2 ^ 1024)
           [4%float] empty_world eq_refl eq_refl eq_refl).
Defined.

(** ** XML documents without a complete record *)

Lemma for_each_unchanged {A} (body : A -> nat -> M nat) (xs : list A) :
  (forall x, In x xs -> forall n w, body x n w = (Ok n, w)) ->
  forall n w, Cmd.for_each xs body n w = (Ok n, w).
Proof.
  induction xs as [|x xs IH]; intros H n w; simpl; [reflexivity|].
  unfold Cmd.bind. rewrite (H x (or_introl eq_refl)).
  apply IH. intros y Hy. apply H. right. exact Hy.
Qed.

(** X19. [import_xml] never reports a missing field.  When every candidate
    element of a document lacks one of the five required fields, the import
    returns 0, inserts nothing and writes nothing; so does a document with
    no [poi] and no [point_of_interest] element whose root, the only
    candidate then, lacks one.  A candidate that lacks a field does not
    hide the others: of a [poi] without a name between two complete ones,
    the two are imported, and nothing is written. *)
Theorem xml_without_complete_records_imports_nothing_in_silence :
  (forall env (file_path : string) (root : element) (w : world),
      needs_rollback w = false ->
      ET_parse env file_path = Ok root ->
      (forall poi_elem, In poi_elem (poi_elements_of root) ->
         lacks_a_field poi_elem) ->
      import_xml env file_path w = (Ok 0, w))
  /\ (forall env (file_path : string) (root : element) (w : world),
         needs_rollback w = false ->
         ET_parse env file_path = Ok root ->
         ET.findall_below root "poi" = [] ->
         ET.findall_below root "point_of_interest" = [] ->
         lacks_a_field root ->
         import_xml env file_path w = (Ok 0, w))
  /\ poi_elements_of (pois [cafe_element; nameless_element; cafe_element])
     = [cafe_element; nameless_element; cafe_element]
  /\ import_xml
       (env_of [("pois.xml",
                 XmlFile (pois [cafe_element; nameless_element;
                                cafe_element]))])
       "pois.xml" empty_world
     = (Ok 2, idle [cafe (VList []); cafe (VList [])] []).
Proof.
  assert (H : forall env file_path root w,
             needs_rollback w = false ->
             ET_parse env file_path = Ok root ->
             (forall poi_elem, In poi_elem (poi_elements_of root) ->
                lacks_a_field poi_elem) ->
             import_xml env file_path w = (Ok 0, w)).
  { intros env file_path root w Hw Hparse Hall.
    rewrite <- (extend_nil w) at 2. apply atomic_commits; [exact Hw|].
    unfold import_xml_body, Cmd.bind, Cmd.lift.
    rewrite Hparse, extend_nil. apply for_each_unchanged.
    intros poi_elem Hin n w'. destruct (Hall poi_elem Hin) as (tags & Ht & Hm).
    rewrite import_xml_element_outcome.
    assert (Hx : xml_poi poi_elem = Ok None).
    { unfold xml_poi. rewrite forallb_present_false; [reflexivity|].
      exists (get_xml_text poi_elem tags). split; [|exact Hm].
      unfold required_tags in Ht. simpl in Ht.
      destruct Ht as [<- | [<- | [<- | [<- | [<- | []]]]]]; simpl; auto 6. }
    rewrite Hx. reflexivity. }
  split; [exact H|]. split; [|split; reflexivity].
  intros env file_path root w Hw Hparse Hpoi Hpoint Hroot.
  apply (H env file_path root w Hw Hparse).
  unfold poi_elements_of. rewrite Hpoi, Hpoint.
  intros poi_elem [<- | []]. exact Hroot.
Qed.

(** Two [poi] elements without a name, and the document
    [<places><place>...</place></places>]. *)
Lemma xml_without_complete_records_imports_nothing_in_silence_witness :
  import_xml
    (env_of [("pois.xml", XmlFile (pois [nameless_element; nameless_element]))])
    "pois.xml" empty_world
  = (Ok 0, empty_world)
  /\ import_xml (env_of [("places.xml", XmlFile places)]) "places.xml"
       empty_world
     = (Ok 0, empty_world).
Proof.
  split.
  - apply (proj1 xml_without_complete_records_imports_nothing_in_silence
             (env_of [("pois.xml",
                       XmlFile (pois [nameless_element; nameless_element]))])
             "pois.xml" (pois [nameless_element; nameless_element])
             empty_world eq_refl eq_refl).
    intros poi_elem [<- | [<- | []]];
      exists ["pname"; "name"; "poi_name"];
      (split; [right; left; reflexivity | reflexivity]).
  - apply (proj1 (proj2 xml_without_complete_records_imports_nothing_in_silence)
             (env_of [("places.xml", XmlFile places)]) "places.xml" places
             empty_world); try reflexivity.
    exists ["pid"; "id"; "poi_id"]. split; [left; reflexivity | reflexivity].
Defined.

(** ** The total that [handle] reports *)




(** ** Rows that are skipped, and ratings that are missing *)

(** A loop of rows that are each saved, or skipped before [save]. *)
Lemma for_each_kept {A} env (body : A -> nat -> M nat)
      (built : A -> result PointOfInterest) (line : A -> exn -> message) :
  (forall x n w,
      body x n w
      = row_outcome env (Res.bind (built x) (fun poi => Ok (Some poi)))
          skips (line x) n w) ->
  forall xs,
    Forall (saved_or_unbuilt env built) xs ->
    forall n w,
      needs_rollback w = false ->
      Cmd.for_each xs body n w
      = (Ok (n + List.length (kept env built xs))%nat,
         extend w (kept env built xs) (reported built line xs)).
Proof.
  intros Hbody xs H. induction H as [|x xs Hx _ IH]; intros n w Hw.
  - simpl. rewrite extend_nil, Nat.add_0_r. reflexivity.
  - cbn [Cmd.for_each kept reported flat_map]. unfold Cmd.bind.
    fold (kept env built xs). fold (reported built line xs).
    rewrite Hbody. unfold saved_or_unbuilt in Hx.
    destruct (built x) as [poi|e] eqn:Eb.
    + destruct Hx as [poi' Hs].
      rewrite <- Eb, (row_outcome_saved env (built x) poi')
        by (try assumption; rewrite Eb; exact Hs).
      rewrite IH by exact Hw. rewrite Eb. cbn [Res.bind]. rewrite Hs.
      rewrite extend_extend, length_app. f_equal.
      f_equal. simpl. lia.
    + cbn [Res.bind row_outcome]. unfold on_raise. rewrite Hx.
      rewrite IH by exact Hw. rewrite extend_extend. reflexivity.
Qed.

(** X21. A row that is skipped before [save] costs the file nothing.  From
    a transaction in order, a CSV file, or a JSON array, whose rows are each
    built and saved, or cannot be built for a reason that the loop catches
    (a [KeyError], a [ValueError] or an [InvalidOperation]), is imported to
    the end: the count is the number of rows saved, these are in the table
    after those already there, in the order of the file, and each row
    skipped has its line, in the order of the file. *)
Theorem rows_skipped_before_save_cost_nothing :
  (forall env (file_path : string) (rows : list csv_row) (w : world),
      needs_rollback w = false ->
      csv_DictReader env file_path = (rows, None) ->
      Forall (saved_or_unbuilt env csv_poi) rows ->
      import_csv env file_path w
      = (Ok (List.length (kept env csv_poi rows)),
         extend w (kept env csv_poi rows)
           (reported csv_poi SkippingInvalidCsvRow rows)))
  /\ (forall env (file_path : string) (items : list value) (w : world),
         needs_rollback w = false ->
         json_load env file_path = Ok (VList items) ->
         Forall (saved_or_unbuilt env (json_poi env)) items ->
         import_json env file_path w
         = (Ok (List.length (kept env (json_poi env) items)),
            extend w (kept env (json_poi env) items)
              (reported (json_poi env) SkippingInvalidJsonItem items))).
Proof.
  split.
  - intros env file_path rows w Hw Hread Hall.
    apply atomic_commits; [exact Hw|].
    unfold import_csv_body. rewrite Hread. unfold Cmd.bind.
    rewrite (for_each_kept env (import_csv_row env) csv_poi
               SkippingInvalidCsvRow (import_csv_row_outcome env) rows Hall)
      by apply (enter_in_order w Hw).
    reflexivity.
  - intros env file_path items w Hw Hread Hall.
    apply atomic_commits; [exact Hw|].
    unfold import_json_body, Cmd.bind, Cmd.lift.
    rewrite Hread. cbn [Py.iterate].
    rewrite (for_each_kept env (import_json_item env) (json_poi env)
               SkippingInvalidJsonItem (import_json_item_outcome env)
               items Hall)
      by apply (enter_in_order w Hw).
    reflexivity.
Qed.

(** A CSV file of a cafe, a row whose latitude is no number, and a second
    cafe: both cafes are in the table. *)
Lemma rows_skipped_before_save_cost_nothing_witness :
  import_csv
    (env_of [("pois.csv",
              CsvFile [cafe_row "40.0"; cafe_row "north"; cafe_row "41.5"])])
    "pois.csv" empty_world
  = (Ok 2,
     extend empty_world
       [saved_cafe (Finite false 400 (-1)); saved_cafe (Finite false 415 (-1))]
       [SkippingInvalidCsvRow (cafe_row "north") InvalidOperation]).
Proof.
  apply (proj1 rows_skipped_before_save_cost_nothing
           (env_of [("pois.csv",
                     CsvFile [cafe_row "40.0"; cafe_row "north";
                              cafe_row "41.5"])])
           "pois.csv" [cafe_row "40.0"; cafe_row "north"; cafe_row "41.5"]
           empty_world eq_refl eq_refl).
  repeat constructor.
  - exists (saved_cafe (Finite false 400 (-1))). reflexivity.
  - exists (saved_cafe (Finite false 415 (-1))). reflexivity.
Defined.

(** X22. The ratings are optional in CSV and XML, where they are absent or
    blank.  A CSV row with its five required cells, coordinates that
    [Decimal] accepts, and no [poi_ratings] column or a blank cell in it,
    and an XML element whose five required fields resolve to text, with
    coordinates that [Decimal] accepts and ratings tags that are absent or
    blank, are inserted and counted when the database accepts the row, in a
    transaction in order, with empty ratings and no average. *)
Theorem ratings_are_optional_where_absent_or_blank :
  (forall env (row : csv_row) (poi_id poi_name lat lon poi_category : string)
          (latitude longitude : Decimal) (n : nat) (w : world),
      needs_rollback w = false ->
      assoc "poi_id" row = Some (Some poi_id) ->
      assoc "poi_name" row = Some (Some poi_name) ->
      assoc "poi_latitude" row = Some (Some lat) ->
      decimal.of_str lat = Ok latitude ->
      assoc "poi_longitude" row = Some (Some lon) ->
      decimal.of_str lon = Ok longitude ->
      assoc "poi_category" row = Some (Some poi_category) ->
      (assoc "poi_ratings" row = None
       \/ exists cell, assoc "poi_ratings" row = Some (Some cell)
            /\ Str.strip cell = "") ->
      let poi :=
        {| external_id := VStr poi_id;
           name := VStr poi_name;
           latitude := latitude;
           longitude := longitude;
           category := VStr poi_category;
           ratings_data := VList [];
           avg_rating := None;
           description := VNone |} in
      db_insert_error env poi = None ->
      import_csv_row env row n w = (Ok (n + 1)%nat, extend w [poi] []))
  /\ (forall env (poi_elem : element) (pid pname lat lon pcategory : string)
             (latitude longitude : Decimal) (n : nat) (w : world),
         needs_rollback w = false ->
         get_xml_text poi_elem ["pid"; "id"; "poi_id"] = Some pid ->
         pid <> "" ->
         get_xml_text poi_elem ["pname"; "name"; "poi_name"] = Some pname ->
         pname <> "" ->
         get_xml_text poi_elem ["platitude"; "latitude"; "poi_latitude"]
         = Some lat ->
         lat <> "" ->
         decimal.of_str lat = Ok latitude ->
         get_xml_text poi_elem ["plongitude"; "longitude"; "poi_longitude"]
         = Some lon ->
         lon <> "" ->
         decimal.of_str lon = Ok longitude ->
         get_xml_text poi_elem ["pcategory"; "category"; "poi_category"]
         = Some pcategory ->
         pcategory <> "" ->
         (forall a, In a ratings_tags -> absent_or_blank poi_elem a) ->
         let poi :=
           {| external_id := VStr pid;
              name := VStr pname;
              latitude := latitude;
              longitude := longitude;
              category := VStr pcategory;
              ratings_data := VList [];
              avg_rating := None;
              description := VNone |} in
         db_insert_error env poi = None ->
         import_xml_element env poi_elem n w
         = (Ok (n + 1)%nat, extend w [poi] [])).
Proof.
  split.
  - intros env row poi_id poi_name lat lon poi_category latitude longitude
           n w Hw Hid Hname Hlat Dlat Hlon Dlon Hcat Hratings poi Hdb.
    apply (import_csv_row_inserts env row poi None n w);
      [exact Hw| |reflexivity|exact Hdb].
    assert (Hr : row_ratings_str row = Ok "").
    { unfold row_ratings_str.
      destruct Hratings as [-> | (cell & -> & Hs)]; [reflexivity|].
      rewrite Hs. reflexivity. }
    unfold csv_poi, row_getitem.
    rewrite Hr, Hid, Hname, Hlat, Hlon, Hcat. cbn [Res.bind parse_ratings Str.is_empty].
    cbn [decimal.of_optional_str]. rewrite Dlat, Dlon. reflexivity.
  - intros env poi_elem pid pname lat lon pcategory latitude longitude n w
           Hw Hid Nid Hname Nname Hlat Nlat Dlat Hlon Nlon Dlon Hcat Ncat
           Hratings poi Hdb.
    apply (import_xml_element_inserts env poi_elem poi None n w);
      [exact Hw| |reflexivity|exact Hdb].
    unfold xml_poi. rewrite Hid, Hname, Hlat, Hlon, Hcat.
    fold ratings_tags. rewrite (get_xml_text_blank _ _ Hratings).
    cbn [forallb]. rewrite !present_some by assumption.
    cbn [negb andb Res.bind parse_ratings Str.is_empty decimal.of_optional_str].
    rewrite Dlat, Dlon. reflexivity.
Qed.

(** A CSV row without a ratings column, one with a blank cell, and an XML
    element without a ratings tag. *)
Lemma ratings_are_optional_where_absent_or_blank_witness :
  import_csv_row bare_env
    [("poi_id", Some "id1"); ("poi_name", Some "Cafe");
     ("poi_latitude", Some "40.0"); ("poi_longitude", Some "-73.0");
     ("poi_category", Some "food")] 0 empty_world
  = (Ok 1, extend empty_world [cafe (VList [])] [])
  /\ import_csv_row bare_env
       [("poi_id", Some "id1"); ("poi_name", Some "Cafe");
        ("poi_latitude", Some "40.0"); ("poi_longitude", Some "-73.0");
        ("poi_category", Some "food"); ("poi_ratings", Some " ")] 0 empty_world
     = (Ok 1, extend empty_world [cafe (VList [])] [])
  /\ import_xml_element bare_env cafe_element 0 empty_world
     = (Ok 1, extend empty_world [cafe (VList [])] []).
Proof.
  split; [|split].
  - exact (proj1 ratings_are_optional_where_absent_or_blank bare_env
             [("poi_id", Some "id1"); ("poi_name", Some "Cafe");
              ("poi_latitude", Some "40.0"); ("poi_longitude", Some "-73.0");
              ("poi_category", Some "food")]
             "id1" "Cafe" "40.0" "-73.0" "food"
             (Finite false 400 (-1)) (Finite true 730 (-1)) 0 empty_world
             eq_refl eq_refl eq_refl eq_refl eq_refl eq_refl eq_refl eq_refl
             (or_introl eq_refl) eq_refl).
  - exact (proj1 ratings_are_optional_where_absent_or_blank bare_env
             [("poi_id", Some "id1"); ("poi_name", Some "Cafe");
              ("poi_latitude", Some "40.0"); ("poi_longitude", Some "-73.0");
              ("poi_category", Some "food"); ("poi_ratings", Some " ")]
             "id1" "Cafe" "40.0" "-73.0" "food"
             (Finite false 400 (-1)) (Finite true 730 (-1)) 0 empty_world
             eq_refl eq_refl eq_refl eq_refl eq_refl eq_refl eq_refl eq_refl
             (or_intror (ex_intro _ " " (conj eq_refl eq_refl))) eq_refl).
  - apply (proj2 ratings_are_optional_where_absent_or_blank bare_env
             cafe_element
             "id1" "Cafe" "40.0" "-73.0" "food"
             (Finite false 400 (-1)) (Finite true 730 (-1)) 0 empty_world);
      try reflexivity; try discriminate.
    intros a [<- | [<- | [<- | []]]]; left; reflexivity.
Defined.

